(** * Recruiter_AI_Monolithic: application lifecycle, auth gate and
      candidate controller, embedded in Rocq.

    - [ApplicationModel]    embeds src/models/tenant/Application.js
    - [Auth]                embeds the [protect] middleware (middleware/auth)
    - [CandidateController] embeds [loginCandidate] and [applyToJob]
      (controllers/candidateController)
    - [Routes]              embeds src/routes/candidates.js

    Conventions: a Mongo ObjectId is an [N]; a JS [Date] is an [N] of
    milliseconds; [undefined] is [None]; [new Date()] / [Date.now] is the
    explicit argument [now]; a JS string is held as its UTF-8 bytes. *)

From Stdlib Require Import String Ascii List NArith Bool Lia.
Import ListNotations.
Open Scope string_scope.

Definition ObjectId := N.
Definition Date := N.

(** JS truthiness of an optional string: [undefined] and [''] are falsy. *)
Definition truthyStr (o : option string) : bool :=
  match o with
  | Some s => negb (String.eqb s "")
  | None => false
  end.

(** JS [a || b] on optional strings. *)
Definition orStr (a b : option string) : option string :=
  if truthyStr a then a else b.

(** The UTF-16 code units a UTF-8 byte stands for: one for a byte that
    starts a character, two when the character takes four bytes (a
    surrogate pair in JS), none for a continuation byte. *)
Definition utf16Units (c : ascii) : nat :=
  let n := N_of_ascii c in
  if N.ltb n 128 then 1
  else if N.ltb n 192 then 0
  else if N.ltb n 240 then 1
  else 2.

(** JS [s.length], which counts UTF-16 code units. *)
Fixpoint jsLength (s : string) : nat :=
  match s with
  | EmptyString => 0
  | String c r => utf16Units c + jsLength r
  end.

(** Template-literal rendering of an optional string. *)
Definition showOpt (o : option string) : string :=
  match o with
  | Some s => s
  | None => "undefined"
  end.

(* ================================================================== *)
(** ** src/models/tenant/Application.js *)

Module ApplicationModel.

(** [status.enum], Application.js:16-26. *)
Inductive Status :=
| submitted | under_review | shortlisted | interview_scheduled
| interviewed | selected | rejected | withdrawn | on_hold.

Definition statusString (s : Status) : string :=
  match s with
  | submitted => "submitted"
  | under_review => "under_review"
  | shortlisted => "shortlisted"
  | interview_scheduled => "interview_scheduled"
  | interviewed => "interviewed"
  | selected => "selected"
  | rejected => "rejected"
  | withdrawn => "withdrawn"
  | on_hold => "on_hold"
  end.

Definition Status_eqb (a b : Status) : bool :=
  String.eqb (statusString a) (statusString b).

Inductive InterviewType := phone | video | in_person | technical | hr | final.
Inductive InterviewStatus := scheduled | completed | cancelled | rescheduled.
Inductive CommType := email | phone_call | message | interview_invite.

Definition commTypeString (t : CommType) : string :=
  match t with
  | email => "email"
  | phone_call => "phone"
  | message => "message"
  | interview_invite => "interview_invite"
  end.

(** What a caller hands to [scheduleInterview]; [duration] and [status]
    may be left out and then take the schema defaults. *)
Record InterviewData := {
  id_type : InterviewType;
  id_scheduledAt : Date;
  id_duration : option N;
  id_interviewer : ObjectId;
  id_status : option InterviewStatus;
  id_meetingLink : option string;
  id_location : option string
}.

(** An element of [interviews], Application.js:113-153. *)
Record Interview := {
  i_type : InterviewType;
  i_scheduledAt : Date;
  i_duration : N;
  i_interviewer : ObjectId;
  i_status : InterviewStatus;
  i_meetingLink : option string;
  i_location : option string
}.

(** An element of [timeline], Application.js:154-170. *)
Record TimelineEntry := {
  action : string;
  performedBy : option ObjectId;
  performedAt : Date;
  notes : option string;
  previousStatus : option Status;
  newStatus : option Status
}.

Record CommunicationData := {
  cd_type : CommType;
  cd_subject : option string;
  cd_content : option string;
  cd_sentBy : ObjectId;
  cd_sentAt : option Date;
  cd_isRead : option bool
}.

(** An element of [communication], Application.js:181-202. *)
Record Communication := {
  c_type : CommType;
  c_subject : option string;
  c_content : option string;
  c_sentBy : ObjectId;
  c_sentAt : Date;
  c_isRead : bool
}.

(** An element of [customAnswers]; each field is [required]. [answer]
    is of type Mixed. *)
Record CustomAnswer := {
  questionId : option ObjectId;
  question : option string;
  answer : option string
}.

(** The stored fields the embedded code reads or writes. *)
Record Application := {
  _id : ObjectId;
  jobDescriptionId : ObjectId;
  candidateId : ObjectId;
  status : Status;
  appliedAt : Date;
  coverLetter : option string;
  customAnswers : list CustomAnswer;
  documents : option string;
  interviews : list Interview;
  timeline : list TimelineEntry;
  communication : list Communication
}.

(** A Mongoose document: the fields plus the change tracking that the
    pre-save hook consults ([this.isNew], [this.isModified('status')]). *)
Record Doc := {
  fields : Application;
  isNew : bool;
  statusModified : bool
}.

Definition set_status (a : Application) (s : Status) : Application :=
  {| _id := _id a; jobDescriptionId := jobDescriptionId a;
     candidateId := candidateId a; status := s; appliedAt := appliedAt a;
     coverLetter := coverLetter a; customAnswers := customAnswers a;
     documents := documents a; interviews := interviews a;
     timeline := timeline a; communication := communication a |}.

Definition push_timeline (a : Application) (e : TimelineEntry) : Application :=
  {| _id := _id a; jobDescriptionId := jobDescriptionId a;
     candidateId := candidateId a; status := status a; appliedAt := appliedAt a;
     coverLetter := coverLetter a; customAnswers := customAnswers a;
     documents := documents a; interviews := interviews a;
     timeline := timeline a ++ [e]; communication := communication a |}.

Definition push_interview (a : Application) (i : Interview) : Application :=
  {| _id := _id a; jobDescriptionId := jobDescriptionId a;
     candidateId := candidateId a; status := status a; appliedAt := appliedAt a;
     coverLetter := coverLetter a; customAnswers := customAnswers a;
     documents := documents a; interviews := interviews a ++ [i];
     timeline := timeline a; communication := communication a |}.

Definition push_communication (a : Application) (c : Communication) : Application :=
  {| _id := _id a; jobDescriptionId := jobDescriptionId a;
     candidateId := candidateId a; status := status a; appliedAt := appliedAt a;
     coverLetter := coverLetter a; customAnswers := customAnswers a;
     documents := documents a; interviews := interviews a;
     timeline := timeline a; communication := communication a ++ [c] |}.

Definition onFields (f : Application -> Application) (d : Doc) : Doc :=
  {| fields := f (fields d); isNew := isNew d;
     statusModified := statusModified d |}.

(** [this.status = s]: Mongoose marks the path modified when the document
    is new or the assigned value differs from the current one. *)
Definition assignStatus (d : Doc) (s : Status) : Doc :=
  {| fields := set_status (fields d) s;
     isNew := isNew d;
     statusModified :=
       statusModified d || isNew d || negb (Status_eqb (status (fields d)) s) |}.

(** Sub-document casting on [push]: schema defaults fill what is absent. *)
Definition castInterview (x : InterviewData) : Interview :=
  {| i_type := id_type x;
     i_scheduledAt := id_scheduledAt x;
     i_duration := match id_duration x with Some n => n | None => 60%N end;
     i_interviewer := id_interviewer x;
     i_status := match id_status x with Some s => s | None => scheduled end;
     i_meetingLink := id_meetingLink x;
     i_location := id_location x |}.

Definition castCommunication (now : Date) (x : CommunicationData) : Communication :=
  {| c_type := cd_type x;
     c_subject := cd_subject x;
     c_content := cd_content x;
     c_sentBy := cd_sentBy x;
     c_sentAt := match cd_sentAt x with Some t => t | None => now end;
     c_isRead := match cd_isRead x with Some b => b | None => false end |}.

Section Methods.

(** Rendering of a date inside a template literal. *)
Variable dateString : Date -> string.

(** [applicationSchema.pre('save')], Application.js:239-249.
    [this.constructor.findOne({...})] is a Query object that is never
    awaited; it has no [status] property, so [previousStatus] is
    [undefined]. *)
Definition preSave (now : Date) (d : Doc) : Doc :=
  if statusModified d && negb (isNew d) then
    onFields (fun a => push_timeline a
      {| action := "Status changed to " ++ statusString (status a);
         performedBy := None;
         performedAt := now;
         notes := None;
         previousStatus := None;
         newStatus := Some (status a) |}) d
  else d.

(** [this.save()]: run the hook, then the document is persisted and its
    change tracking is cleared. *)
Definition save (now : Date) (d : Doc) : Doc :=
  {| fields := fields (preSave now d); isNew := false; statusModified := false |}.

(** [updateStatus], Application.js:252-266. *)
Definition updateStatus (now : Date) (d : Doc) (newSt : Status)
    (by_ : option ObjectId) (notes_ : option string) : Doc :=
  let previous := status (fields d) in
  let d1 := assignStatus d newSt in
  let d2 := onFields (fun a => push_timeline a
      {| action := "Status changed from " ++ statusString previous
                     ++ " to " ++ statusString newSt;
         performedBy := by_;
         performedAt := now;
         notes := notes_;
         previousStatus := Some previous;
         newStatus := Some newSt |}) d1 in
  save now d2.

(** [scheduleInterview], Application.js:269-283. *)
Definition scheduleInterview (now : Date) (d : Doc) (x : InterviewData) : Doc :=
  let d1 := onFields (fun a => push_interview a (castInterview x)) d in
  let d2 := onFields (fun a => push_timeline a
      {| action := "Interview scheduled for " ++ dateString (id_scheduledAt x);
         performedBy := Some (id_interviewer x);
         performedAt := now;
         notes := None;
         previousStatus := None;
         newStatus := None |}) d1 in
  let d3 :=
    if Status_eqb (status (fields d2)) submitted
       || Status_eqb (status (fields d2)) under_review
    then assignStatus d2 interview_scheduled
    else d2 in
  save now d3.

(** [addCommunication], Application.js:286-296. *)
Definition addCommunication (now : Date) (d : Doc) (x : CommunicationData) : Doc :=
  let d1 := onFields (fun a => push_communication a (castCommunication now x)) d in
  let d2 := onFields (fun a => push_timeline a
      {| action := commTypeString (cd_type x) ++ " sent: " ++ showOpt (cd_subject x);
         performedBy := Some (cd_sentBy x);
         performedAt := now;
         notes := None;
         previousStatus := None;
         newStatus := None |}) d1 in
  save now d2.

End Methods.

(** What [Application.create] receives in [applyToJob]. *)
Record NewApplication := {
  na_jobDescriptionId : ObjectId;
  na_candidateId : ObjectId;
  na_coverLetter : option string;
  na_customAnswers : list CustomAnswer;
  na_documents : option string;
  na_status : Status
}.

(** Application.js:62-75. [required] on the String path [question]
    refuses the empty string as well as an absent value; on the ObjectId
    path and on the Mixed path [answer] it refuses an absent value only. *)
Definition validCustomAnswer (c : CustomAnswer) : bool :=
  match questionId c, answer c with
  | Some _, Some _ => truthyStr (question c)
  | _, _ => false
  end.

(** Schema validation of the fields a new application carries:
    [coverLetter.maxlength], Application.js:33-36, which compares
    [value.length], and the [required] custom-answer fields. *)
Definition validFields (letter : option string) (answers : list CustomAnswer)
    : bool :=
  match letter with
  | Some s => Nat.leb (jsLength s) 2000
  | None => true
  end
  && forallb validCustomAnswer answers.

Definition validNew (x : NewApplication) : bool :=
  validFields (na_coverLetter x) (na_customAnswers x).

(** [new Application(x)] with a fresh id: defaults for [appliedAt] and the
    arrays; the document is new. *)
Definition construct (oid : ObjectId) (now : Date) (x : NewApplication) : Doc :=
  {| fields :=
       {| _id := oid;
          jobDescriptionId := na_jobDescriptionId x;
          candidateId := na_candidateId x;
          status := na_status x;
          appliedAt := now;
          coverLetter := na_coverLetter x;
          customAnswers := na_customAnswers x;
          documents := na_documents x;
          interviews := [];
          timeline := [];
          communication := [] |};
     isNew := true;
     statusModified := true |}.

(** A document as a query hands it over: stored, nothing modified. *)
Definition loaded (a : Application) : Doc :=
  {| fields := a; isNew := false; statusModified := false |}.

End ApplicationModel.

(* ================================================================== *)
(** ** middleware/auth: [protect] *)

Module Auth.

(** Decoded token payload; every claim may be absent. *)
Record Claims := {
  id : option ObjectId;
  role : option string;
  type : option string;
  tenant : option string
}.

(** The request headers [protect] reads. *)
Record Request := {
  authorization : option string;
  x_tenant_id : option string
}.

Record AccountView := {
  acc_isActive : option bool;
  acc_password : option string
}.

(** The part of a SuperAdmin / User / Candidate document [protect] uses. *)
Record Identity := {
  ident_id : ObjectId;
  ident_role : option string;
  isActive : option bool;
  password : option string;
  account : option AccountView
}.

Inductive ModelKind := SuperAdmin | Candidate | User.

(** JS truthiness of an optional boolean. *)
Definition truthyB (o : option bool) : bool :=
  match o with
  | Some b => b
  | None => false
  end.

(** [s.split(sep)] for a one-character separator. *)
Fixpoint split (sep : ascii) (s : string) : list string :=
  match s with
  | EmptyString => [EmptyString]
  | String c r =>
      if Ascii.eqb c sep then EmptyString :: split sep r
      else match split sep r with
           | [] => [String c EmptyString]
           | h :: t => String c h :: t
           end
  end.

(** auth:8-10, the bearer token if the header carries one. *)
Definition extractToken (req : Request) : option string :=
  match authorization req with
  | Some h =>
      if truthyStr (Some h) && String.prefix "Bearer" h
      then nth_error (split " "%char h) 1
      else None
  | None => None
  end.

(** [.select('-password -account.password')] *)
Definition selectWithoutPasswords (u : Identity) : Identity :=
  {| ident_id := ident_id u;
     ident_role := ident_role u;
     isActive := isActive u;
     password := None;
     account :=
       match account u with
       | Some a => Some {| acc_isActive := acc_isActive a; acc_password := None |}
       | None => None
       end |}.

(** auth:52, [!user.isActive && (!user.account || !user.account.isActive)] *)
Definition inactive (u : Identity) : bool :=
  negb (truthyB (isActive u))
  && match account u with
     | None => true
     | Some a => negb (truthyB (acc_isActive a))
     end.

Section Protect.

(** Collaborators that are outside the sources: the token library, the
    connection manager ([None]: the call throws) and the document store. *)
Variable Connection : Type.
Variable jwtVerify : string -> option Claims.
Variable getMasterConnection : Connection.
Variable getTenantDB : string -> option Connection.
Variable findById : Connection -> ModelKind -> ObjectId -> option Identity.

(** What [protect] has attached to [req] when it calls [next()]. *)
Record Context := {
  db : Connection;
  tenantId : option string;
  user : Identity;
  userType : option string
}.

Inductive Outcome :=
| Respond (code : N) (message : string)
| Next (ctx : Context).

(** The database and model chosen by auth:20-44. *)
Record Binding := {
  b_db : Connection;
  b_tenantId : option string;
  b_model : ModelKind
}.

Inductive Resolution :=
| Bound (b : Binding)
| Rejected (code : N) (message : string)
| Thrown.

Definition isStr (o : option string) (s : string) : bool :=
  match o with
  | Some x => String.eqb x s
  | None => false
  end.

(** auth:20-44 *)
Definition resolve (decoded : Claims) (req : Request) : Resolution :=
  if isStr (role decoded) "super_admin" then
    Bound {| b_db := getMasterConnection; b_tenantId := None;
             b_model := SuperAdmin |}
  else
    let tenant_ := orStr (tenant decoded) (x_tenant_id req) in
    if negb (truthyStr tenant_) then
      Rejected 400 "Tenant is required for this user type"
    else
      match tenant_ with
      | None => Rejected 400 "Tenant is required for this user type"
      | Some t =>
          match getTenantDB t with
          | None => Thrown
          | Some conn =>
              Bound {| b_db := conn; b_tenantId := Some t;
                       b_model := if isStr (type decoded) "candidate"
                                  then Candidate else User |}
          end
      end.

(** auth:46, [Model.findById(decoded.id).select(...)]; an absent id finds
    nothing. *)
Definition load (b : Binding) (i : option ObjectId) : option Identity :=
  match i with
  | Some oid => option_map selectWithoutPasswords (findById (b_db b) (b_model b) oid)
  | None => None
  end.

(** auth:4-68 *)
Definition protect (req : Request) : Outcome :=
  match extractToken req with
  | None => Respond 401 "Token missing"
  | Some token =>
      if negb (truthyStr (Some token)) then Respond 401 "Token missing"
      else
        match jwtVerify token with
        | None => Respond 401 "Authentication failed"
        | Some decoded =>
            match resolve decoded req with
            | Thrown => Respond 401 "Authentication failed"
            | Rejected c m => Respond c m
            | Bound b =>
                match load b (id decoded) with
                | None => Respond 401 "User not found"
                | Some u =>
                    if inactive u then Respond 401 "Account is inactive"
                    else Next {| db := b_db b; tenantId := b_tenantId b;
                                 user := u; userType := type decoded |}
                end
            end
        end
  end.

End Protect.

Arguments db {Connection} c.
Arguments tenantId {Connection} c.
Arguments user {Connection} c.
Arguments userType {Connection} c.
Arguments Build_Context {Connection}.
Arguments Respond {Connection} code message.
Arguments Next {Connection} ctx.
Arguments b_db {Connection} b.
Arguments b_tenantId {Connection} b.
Arguments b_model {Connection} b.
Arguments Build_Binding {Connection}.
Arguments Bound {Connection} b.
Arguments Rejected {Connection} code message.
Arguments Thrown {Connection}.
Arguments load {Connection} findById b i.

End Auth.

(* ================================================================== *)
(** ** models/tenant/Candidate (not among the sources) *)

Module CandidateModel.

Record PersonalInfo := {
  firstName : string;
  lastName : string;
  email : string
}.

Record Account := {
  password : string;
  isActive : bool;
  isEmailVerified : bool;
  loginAttempts : N;
  lockUntil : option Date;
  lastLogin : option Date
}.

Record Candidate := {
  _id : ObjectId;
  personalInfo : PersonalInfo;
  account : Account
}.

Definition withAccount (c : Candidate) (a : Account) : Candidate :=
  {| _id := _id c; personalInfo := personalInfo c; account := a |}.

(** Modelled from the spec: the [isLocked] virtual of the Candidate model,
    which is not among the sources. Spec 4.4: derived "isLocked" =
    lockUntil in the future. *)
Definition isLocked (now : Date) (c : Candidate) : bool :=
  match lockUntil (account c) with
  | Some t => N.ltb now t
  | None => false
  end.

(** Modelled from the spec: the [incLoginAttempts] method of the Candidate
    model, which is not among the sources. Spec 4.4: on failed password
    match increment loginAttempts; the lock policy is a configurable
    {maxAttempts, lockDuration}. Spec 8: with threshold 5 the fifth failure
    is still answered 401 and the sixth request finds the account locked. *)
Definition incLoginAttempts (maxAttempts lockDuration : N) (now : Date)
    (a : Account) : Account :=
  let n := (loginAttempts a + 1)%N in
  {| password := password a;
     isActive := isActive a;
     isEmailVerified := isEmailVerified a;
     loginAttempts := n;
     lockUntil := if N.leb maxAttempts n then Some (now + lockDuration)%N
                  else lockUntil a;
     lastLogin := lastLogin a |}.

(** Modelled from the spec: the [resetLoginAttempts] method of the
    Candidate model, which is not among the sources. Spec 4.4: on
    successful match, if loginAttempts > 0, reset to 0. *)
Definition resetLoginAttempts (a : Account) : Account :=
  {| password := password a;
     isActive := isActive a;
     isEmailVerified := isEmailVerified a;
     loginAttempts := 0%N;
     lockUntil := lockUntil a;
     lastLogin := lastLogin a |}.

(** [candidate.account.lastLogin = d] *)
Definition setLastLogin (d : Date) (a : Account) : Account :=
  {| password := password a;
     isActive := isActive a;
     isEmailVerified := isEmailVerified a;
     loginAttempts := loginAttempts a;
     lockUntil := lockUntil a;
     lastLogin := Some d |}.

(** [Candidate.findOne({'personalInfo.email': e})] *)
Definition findOneByEmail (l : list Candidate) (e : string) : option Candidate :=
  find (fun c => String.eqb (email (personalInfo c)) e) l.

(** Persist a change of the account of the document with the given id. *)
Definition updateAccount (i : ObjectId) (f : Account -> Account)
    (l : list Candidate) : list Candidate :=
  map (fun c => if N.eqb (_id c) i then withAccount c (f (account c)) else c) l.

End CandidateModel.

(* ================================================================== *)
(** ** models/tenant/JobDescription (not among the sources) *)

Module JobDescriptionModel.

Record JobDescription := {
  _id : ObjectId;
  shareableLink : option string;
  isActive : bool;
  status : string;
  title : string;
  applicationDeadline : option Date;
  allowMultipleApplications : bool;
  applications : N
}.

(** Modelled from the spec: the [isDeadlinePassed] virtual of the
    JobDescription model, which is not among the sources. Spec 3 and 7: an
    application is refused with DeadlinePassed once the deadline has
    passed. *)
Definition isDeadlinePassed (now : Date) (j : JobDescription) : bool :=
  match applicationDeadline j with
  | Some t => N.ltb t now
  | None => false
  end.

(** Modelled from the spec: the [incrementApplications] method of the
    JobDescription model, which is not among the sources. Spec 8: a
    successful apply increments the job's application counter by 1. *)
Definition incrementApplications (j : JobDescription) : JobDescription :=
  {| _id := _id j;
     shareableLink := shareableLink j;
     isActive := isActive j;
     status := status j;
     title := title j;
     applicationDeadline := applicationDeadline j;
     allowMultipleApplications := allowMultipleApplications j;
     applications := (applications j + 1)%N |}.

Definition findById (l : list JobDescription) (i : ObjectId) : option JobDescription :=
  find (fun j => N.eqb (_id j) i) l.

(** Persist a change of the document with the given id. *)
Definition update (i : ObjectId) (f : JobDescription -> JobDescription)
    (l : list JobDescription) : list JobDescription :=
  map (fun j => if N.eqb (_id j) i then f j else j) l.

End JobDescriptionModel.

(* ================================================================== *)
(** ** controllers/candidateController: [loginCandidate], [applyToJob] *)

Module CandidateController.

Module A := ApplicationModel.
Module C := CandidateModel.
Module J := JobDescriptionModel.

(** [req.tenant], set by the tenant middleware before the controller. *)
Record Tenant := {
  companyName : string;
  branding : string;
  subdomain : string
}.

Record TokenPayload := {
  tp_id : ObjectId;
  tp_tenant : string;
  tp_type : string
}.

Record EmailMessage := {
  to : string;
  template : string;
  candidateName : string;
  jobTitle : string;
  em_companyName : string;
  appliedDate : Date;
  applicationId : ObjectId
}.

(** Collaborators that are outside the sources. [matchPassword entered
    stored] and [hashPassword] stand for the credential hashing of the
    Candidate model, [fullName] for its virtual, [castObjectId] for
    Mongoose's cast of a text to an ObjectId ([None]: the text is not an
    ObjectId and the cast throws), [jwtSign payload expiresIn] for the
    token library,
    [sendEmail] for utils/email ([false]: the call throws), [JWT_EXPIRE]
    for the environment variable, and [maxAttempts], [lockDuration] for
    the lock policy. *)
Record Collaborators := {
  matchPassword : string -> string -> bool;
  hashPassword : string -> string;
  fullName : C.PersonalInfo -> string;
  castObjectId : string -> option ObjectId;
  jwtSign : TokenPayload -> string -> string;
  sendEmail : EmailMessage -> bool;
  JWT_EXPIRE : option string;
  maxAttempts : N;
  lockDuration : N
}.

Inductive Data :=
| LoginData (cid : ObjectId) (name email : string) (lastLogin : Date)
    (token : string) (tenant : Tenant)
| ApplyData (aid : ObjectId) (st : A.Status) (appliedAt : Date)
    (cid : ObjectId) (name email : string).

(** The JSON envelope together with the HTTP status. *)
Record Response := {
  code : N;
  success : bool;
  message : string;
  data : option Data;
  error : option string
}.

Definition failure (c : N) (m : string) : Response :=
  {| code := c; success := false; message := m; data := None; error := None |}.

Definition successful (c : N) (m : string) (d : Data) : Response :=
  {| code := c; success := true; message := m; data := Some d; error := None |}.

(** The effects of a handler, logged in the order they happen. *)
Inductive Event :=
| PasswordCompared (cid : ObjectId)
| CandidateCreated (cid : ObjectId)
| ApplicationCreated (aid : ObjectId)
| EmailSent (m : EmailMessage).

(** The tenant database as the controller sees it, the next fresh
    ObjectId, and the log of effects. *)
Record World := {
  candidates : list C.Candidate;
  jobs : list J.JobDescription;
  applications : list A.Application;
  nextId : ObjectId;
  log : list Event
}.

(** *** A handler body: state passing with early [return res...] and
    exceptions. State changes made before a return or a throw stay. *)

Inductive Step (X : Type) :=
| Ok (x : X)
| Return (r : Response)
| Throw (e : string).
Arguments Ok {X} x.
Arguments Return {X} r.
Arguments Throw {X} e.

Definition Handler (X : Type) := World -> Step X * World.

Definition ret {X} (x : X) : Handler X := fun w => (Ok x, w).

Definition bind {X Y} (m : Handler X) (k : X -> Handler Y) : Handler Y :=
  fun w =>
    match m w with
    | (Ok x, w') => k x w'
    | (Return r, w') => (Return r, w')
    | (Throw e, w') => (Throw e, w')
    end.

Definition respond {X} (r : Response) : Handler X := fun w => (Return r, w).
Definition throw {X} (e : string) : Handler X := fun w => (Throw e, w).
Definition get : Handler World := fun w => (Ok w, w).
Definition modify (f : World -> World) : Handler unit := fun w => (Ok tt, f w).

Notation "x <- m ;; k" := (bind m (fun x => k))
  (at level 100, m at next level, right associativity).
Notation "m ;;; k" := (bind m (fun _ => k))
  (at level 100, right associativity).

(** [try { ... } catch (error) { res.status(500).json({...}) }] *)
Definition tryCatch (msg : string) (h : Handler Response) (w : World)
    : Response * World :=
  match h w with
  | (Ok r, w') => (r, w')
  | (Return r, w') => (r, w')
  | (Throw e, w') =>
      ({| code := 500; success := false; message := msg; data := None;
          error := Some e |}, w')
  end.

Definition setCandidates (l : list C.Candidate) (w : World) : World :=
  {| candidates := l; jobs := jobs w; applications := applications w;
     nextId := nextId w; log := log w |}.

Definition setJobs (l : list J.JobDescription) (w : World) : World :=
  {| candidates := candidates w; jobs := l; applications := applications w;
     nextId := nextId w; log := log w |}.

Definition addEvent (e : Event) (w : World) : World :=
  {| candidates := candidates w; jobs := jobs w; applications := applications w;
     nextId := nextId w; log := log w ++ [e] |}.

(** The string when it is truthy, as [!x] tests it. *)
Definition nonEmpty (o : option string) : option string :=
  if truthyStr o then o else None.

Section Controller.

Variable env : Collaborators.

(** part_000:7-11 *)
Definition generateToken (p : TokenPayload) : string :=
  jwtSign env p
    match orStr (JWT_EXPIRE env) (Some "7d") with
    | Some e => e
    | None => "7d"
    end.

(** [candidate.matchPassword(password)] *)
Definition comparePassword (c : C.Candidate) (entered : string) : Handler bool :=
  fun w => (Ok (matchPassword env entered (C.password (C.account c))),
            addEvent (PasswordCompared (C._id c)) w).

Definition persistAccount (i : ObjectId) (f : C.Account -> C.Account) : Handler unit :=
  modify (fun w => setCandidates (C.updateAccount i f (candidates w)) w).

Record LoginRequest := {
  lr_email : option string;
  lr_password : option string;
  lr_tenant : Tenant
}.

(** part_000:90-184 *)
Definition loginCandidate (req : LoginRequest) (now : Date)
    : World -> Response * World :=
  tryCatch "Error during login"
    match nonEmpty (lr_email req), nonEmpty (lr_password req) with
    | Some email, Some password =>
        w <- get ;;
        match C.findOneByEmail (candidates w) email with
        | None => respond (failure 401 "Invalid credentials")
        | Some candidate =>
            if C.isLocked now candidate then
              respond (failure 423
                "Account is temporarily locked due to too many failed login attempts")
            else if negb (C.isActive (C.account candidate)) then
              respond (failure 401 "Account is deactivated")
            else
              isPasswordValid <- comparePassword candidate password ;;
              if negb isPasswordValid then
                persistAccount (C._id candidate)
                  (C.incLoginAttempts (maxAttempts env) (lockDuration env) now) ;;;
                respond (failure 401 "Invalid credentials")
              else
                (if N.ltb 0 (C.loginAttempts (C.account candidate))
                 then persistAccount (C._id candidate) C.resetLoginAttempts
                 else ret tt) ;;;
                persistAccount (C._id candidate) (C.setLastLogin now) ;;;
                let token := generateToken
                  {| tp_id := C._id candidate;
                     tp_tenant := subdomain (lr_tenant req);
                     tp_type := "candidate" |} in
                ret (successful 200 "Login successful"
                       (LoginData (C._id candidate)
                          (fullName env (C.personalInfo candidate))
                          (C.email (C.personalInfo candidate))
                          now token (lr_tenant req)))
        end
    | _, _ => respond (failure 400 "Please provide email and password")
    end.

Record CandidateData := {
  cd_personalInfo : C.PersonalInfo;
  cd_password : option string
}.

Record ApplyRequest := {
  ar_jobId : string;
  ar_candidateData : CandidateData;
  ar_coverLetter : option string;
  ar_customAnswers : list A.CustomAnswer;
  ar_documents : option string;
  ar_tenant : Tenant
}.

(** part_000:271-278. Mongoose casts the filter before the query is
    sent: [{_id: jobId}], also inside [$or], is cast to an ObjectId, and
    for a text that is not one the query rejects with a CastError
    ([None]). Otherwise the answer is the first job that has the id or
    carries the text as its shareable link, and is active and published. *)
Definition findJob (l : list J.JobDescription) (jobId : string)
    : option (option J.JobDescription) :=
  match castObjectId env jobId with
  | None => None
  | Some oid =>
      Some (find (fun j =>
                    (N.eqb (J._id j) oid
                     || match J.shareableLink j with
                        | Some s => String.eqb s jobId
                        | None => false
                        end)
                    && J.isActive j
                    && String.eqb (J.status j) "published") l)
  end.

(** [Application.findOne({jobDescriptionId, candidateId})] *)
Definition findApplication (l : list A.Application) (jid cid : ObjectId)
    : option A.Application :=
  find (fun a => N.eqb (A.jobDescriptionId a) jid
                 && N.eqb (A.candidateId a) cid) l.

(** [Candidate.create(...)]: the email is unique within the tenant; the
    stored credential is the hash. *)
Definition createCandidate (info : C.PersonalInfo) (pw : string)
    : Handler C.Candidate :=
  fun w =>
    match C.findOneByEmail (candidates w) (C.email info) with
    | Some _ => (Throw "E11000 duplicate key", w)
    | None =>
        let c := {| C._id := nextId w;
                    C.personalInfo := info;
                    C.account :=
                      {| C.password := hashPassword env pw;
                         C.isActive := true;
                         C.isEmailVerified := false;
                         C.loginAttempts := 0;
                         C.lockUntil := None;
                         C.lastLogin := None |} |} in
        (Ok c,
         {| candidates := candidates w ++ [c]; jobs := jobs w;
            applications := applications w; nextId := N.succ (nextId w);
            log := log w ++ [CandidateCreated (C._id c)] |})
    end.

(** [Application.create(...)]: schema validation, the pre-save hook, and
    the unique index on (jobDescriptionId, candidateId), Application.js:225. *)
Definition createApplication (x : A.NewApplication) (now : Date)
    : Handler A.Application :=
  fun w =>
    if negb (A.validNew x) then (Throw "Application validation failed", w)
    else
      match findApplication (applications w)
              (A.na_jobDescriptionId x) (A.na_candidateId x) with
      | Some _ => (Throw "E11000 duplicate key", w)
      | None =>
          let a := A.fields (A.save now (A.construct (nextId w) now x)) in
          (Ok a,
           {| candidates := candidates w; jobs := jobs w;
              applications := applications w ++ [a];
              nextId := N.succ (nextId w);
              log := log w ++ [ApplicationCreated (A._id a)] |})
      end.

(** [sendEmail({...})] *)
Definition deliver (m : EmailMessage) : Handler unit :=
  fun w =>
    if sendEmail env m then (Ok tt, addEvent (EmailSent m) w)
    else (Throw "sendEmail failed", w).

(** The argument of [sendEmail], part_000:339-349. *)
Definition confirmationEmail (req : ApplyRequest) (now : Date)
    (job : J.JobDescription) (candidate : C.Candidate)
    (application : A.Application) : EmailMessage :=
  {| to := C.email (C.personalInfo candidate);
     template := "application-received";
     candidateName := fullName env (C.personalInfo candidate);
     jobTitle := J.title job;
     em_companyName := companyName (ar_tenant req);
     appliedDate := now;
     applicationId := A._id application |}.

(** part_000:256-375 *)
Definition applyToJob (req : ApplyRequest) (now : Date)
    : World -> Response * World :=
  tryCatch "Error submitting application"
    (w <- get ;;
     match findJob (jobs w) (ar_jobId req) with
     | None => throw "Cast to ObjectId failed for value at path _id"
     | Some None =>
         respond (failure 404 "Job not found or no longer available")
     | Some (Some job) =>
         if J.isDeadlinePassed now job then
           respond (failure 410 "Application deadline has passed")
         else
           let candidateData := ar_candidateData req in
           candidate <-
             match C.findOneByEmail (candidates w)
                     (C.email (cd_personalInfo candidateData)) with
             | Some c => ret c
             | None =>
                 createCandidate (cd_personalInfo candidateData)
                   match nonEmpty (cd_password candidateData) with
                   | Some p => p
                   | None => "TempPassword123!"
                   end
             end ;;
           w1 <- get ;;
           match findApplication (applications w1) (J._id job) (C._id candidate),
                 J.allowMultipleApplications job with
           | Some _, false =>
               respond (failure 400 "You have already applied for this position")
           | _, _ =>
               application <-
                 createApplication
                   {| A.na_jobDescriptionId := J._id job;
                      A.na_candidateId := C._id candidate;
                      A.na_coverLetter := ar_coverLetter req;
                      A.na_customAnswers := ar_customAnswers req;
                      A.na_documents := ar_documents req;
                      A.na_status := A.submitted |} now ;;
               modify (fun w => setJobs
                         (J.update (J._id job) J.incrementApplications (jobs w)) w) ;;;
               deliver (confirmationEmail req now job candidate application) ;;;
               ret (successful 201 "Application submitted successfully"
                      (ApplyData (A._id application) (A.status application)
                         (A.appliedAt application) (C._id candidate)
                         (fullName env (C.personalInfo candidate))
                         (C.email (C.personalInfo candidate))))
           end
     end).

(** Requests handled one after the other, each at its own time. *)
Fixpoint loginRun (reqs : list (LoginRequest * Date)) (w : World)
    : list Response * World :=
  match reqs with
  | [] => ([], w)
  | (req, now) :: rest =>
      let (r, w1) := loginCandidate req now w in
      let (rs, w2) := loginRun rest w1 in
      (r :: rs, w2)
  end.

End Controller.

(** The stored login-attempt counter of the candidate with this email. *)
Definition attemptsOf (w : World) (email : string) : option N :=
  option_map (fun c => C.loginAttempts (C.account c))
    (C.findOneByEmail (candidates w) email).

(** The id under which the applicant is or will be stored. *)
Definition applicantId (w : World) (email : string) : ObjectId :=
  match C.findOneByEmail (candidates w) email with
  | Some c => C._id c
  | None => nextId w
  end.

End CandidateController.

(* ================================================================== *)
(** ** src/routes/candidates.js *)

Module Routes.

Inductive Method := GET | POST | PUT.

Inductive HandlerName :=
| registerCandidate | loginCandidate | getCandidateProfile
| updateCandidateProfile | applyToJob | getCandidateApplications
| uploadDocument.


(** A layer of the router stack, in registration order. *)
Inductive Layer :=
| Route (m : Method) (path : string) (h : HandlerName)
| UseProtect.

(** candidates.js:16-30 *)
Definition router : list Layer :=
  [ Route POST "/register" registerCandidate;
    Route POST "/login" loginCandidate;
    Route POST "/apply/:jobId" applyToJob;
    UseProtect;
    Route GET "/profile" getCandidateProfile;
    Route PUT "/profile" updateCandidateProfile;
    Route GET "/applications" getCandidateApplications;
    Route POST "/upload-document" uploadDocument ].


End Routes.

From Stdlib Require Import ZArith Permutation.

(* ================================================================== *)
(** ** src/models/tenant/Application.js: the virtual, the aggregate, and
    sequences of method calls *)

Module ApplicationStatics.

Import ApplicationModel.

(** [daysSinceApplication], Application.js:232-236:
    [Math.floor((now - this.appliedAt) / (1000 * 60 * 60 * 24))]. *)
Definition daysSinceApplication (now : Date) (a : Application) : Z :=
  Z.div (Z.of_N now - Z.of_N (appliedAt a)) (1000 * 60 * 60 * 24).

(** One more document for the group of status [s]: [$sum: 1]. *)
Fixpoint bump (s : Status) (groups : list (Status * N)) : list (Status * N) :=
  match groups with
  | [] => [(s, 1%N)]
  | (s', n) :: rest =>
      if Status_eqb s s' then (s', (n + 1)%N) :: rest
      else (s', n) :: bump s rest
  end.

(** [{ $group: { _id: '$status', count: { $sum: 1 } } }]. The server
    promises no order of the groups; they are listed here by first
    occurrence, and no statement below depends on it. *)
Definition groupByStatus (l : list Application) : list (Status * N) :=
  fold_left (fun groups a => bump (status a) groups) l [].

Section Statistics.

(** [mongoose.Types.ObjectId(x)]; [None] when the call throws. *)
Variable castObjectId : string -> option ObjectId.

(** [getStatistics], Application.js:309-319; [None] when the pipeline
    cannot be built. *)
Definition getStatistics (l : list Application) (ref : string)
    : option (list (Status * N)) :=
  match castObjectId ref with
  | None => None
  | Some j =>
      Some (groupByStatus (filter (fun a => N.eqb (jobDescriptionId a) j) l))
  end.

End Statistics.

(** The number of documents of [l] in state [s]. *)
Definition countStatus (s : Status) (l : list Application) : N :=
  N.of_nat (length (filter (fun a => Status_eqb (status a) s) l)).

End ApplicationStatics.

Module ApplicationCalls.

Import ApplicationModel.

(** A call of one of the three instance methods. *)
Inductive Call :=
| CallUpdateStatus (newStatus : Status) (performedBy : option ObjectId)
    (notes : option string)
| CallScheduleInterview (interviewData : InterviewData)
| CallAddCommunication (communicationData : CommunicationData).

Section Calls.

Variable dateString : Date -> string.

Definition call (now : Date) (d : Doc) (c : Call) : Doc :=
  match c with
  | CallUpdateStatus s who n => updateStatus now d s who n
  | CallScheduleInterview x => scheduleInterview dateString now d x
  | CallAddCommunication x => addCommunication now d x
  end.

(** Calls made one after the other on the same document, each at its own
    time. *)
Definition calls (cs : list (Call * Date)) (d : Doc) : Doc :=
  fold_left (fun d c => call (snd c) d (fst c)) cs d.

End Calls.

(** The interviews a sequence of calls schedules, in order. *)
Fixpoint scheduled (cs : list (Call * Date)) : list Interview :=
  match cs with
  | [] => []
  | (CallScheduleInterview x, _) :: rest => castInterview x :: scheduled rest
  | _ :: rest => scheduled rest
  end.

(** The communications a sequence of calls adds, in order. *)
Fixpoint communicated (cs : list (Call * Date)) : list Communication :=
  match cs with
  | [] => []
  | (CallAddCommunication x, now) :: rest =>
      castCommunication now x :: communicated rest
  | _ :: rest => communicated rest
  end.

Definition isUpdate (c : Call * Date) : bool :=
  match fst c with
  | CallUpdateStatus _ _ _ => true
  | _ => false
  end.

Definition isSchedule (c : Call * Date) : bool :=
  match fst c with
  | CallScheduleInterview _ => true
  | _ => false
  end.

(** The fields no method writes. *)
Definition identity (a : Application) :=
  (_id a, jobDescriptionId a, candidateId a, appliedAt a,
   coverLetter a, customAnswers a, documents a).

End ApplicationCalls.

(* ================================================================== *)
(** ** middleware/auth: [authorize], [superAdminOnly] *)

Module Authz.

Import Auth.

(** No blank in the string. *)
Fixpoint noSpace (s : string) : bool :=
  match s with
  | EmptyString => true
  | String c r => negb (Ascii.eqb c " "%char) && noSpace r
  end.

(** [list.includes(v)] for a value that may be [undefined]. *)
Definition includes (l : list string) (v : option string) : bool :=
  match v with
  | Some x => existsb (String.eqb x) l
  | None => false
  end.

Inductive Verdict :=
| Pass
| Deny (code : N) (message : string).

Section Middleware.

Variable Connection : Type.

(** [authorize(...allowedTypes)], part_001:71-88. The argument is what
    [protect] attached to the request, [None] when [req.user] is not
    set. *)
Definition authorize (allowedTypes : list string)
    (req : option (Context Connection)) : Verdict :=
  match req with
  | None => Deny 401 "Not authenticated"
  | Some ctx =>
      if negb (includes allowedTypes
                 (orStr (userType ctx) (ident_role (user ctx))))
      then Deny 403 (showOpt (userType ctx) ++ " is not allowed to access this route")
      else Pass
  end.

(** [superAdminOnly], part_001:92-100. *)
Definition superAdminOnly (req : option (Context Connection)) : Verdict :=
  match req with
  | None => Deny 403 "Super admin access only"
  | Some ctx =>
      if negb (isStr (ident_role (user ctx)) "super_admin")
      then Deny 403 "Super admin access only"
      else Pass
  end.

End Middleware.

Arguments authorize {Connection} allowedTypes req.
Arguments superAdminOnly {Connection} req.

End Authz.

(* ================================================================== *)
(** ** controllers/candidateController: [registerCandidate],
    [uploadDocument], and what the tenant store keeps *)

Module CandidateControllerRest.

Import CandidateController.

(** The answer of a handler whose success payload is of type [D]: either
    one of the failure envelopes, or [res.status(code).json({success:
    true, message, data})]. *)
Inductive Reply (D : Type) :=
| Failed (r : Response)
| Succeeded (code : N) (message : string) (d : D).
Arguments Failed {D} r.
Arguments Succeeded {D} code message d.

Definition replyCode {D} (r : Reply D) : N :=
  match r with
  | Failed f => code f
  | Succeeded c _ _ => c
  end.

(** [try { ... } catch (error) { res.status(500).json({...}) }] for such
    a handler. *)
Definition tryCatchWith {D} (msg : string) (h : Handler (N * string * D))
    (w : World) : Reply D * World :=
  match h w with
  | (Ok (c, m, d), w') => (Succeeded c m d, w')
  | (Return r, w') => (Failed r, w')
  | (Throw e, w') =>
      (Failed {| code := 500; success := false; message := msg; data := None;
                 error := Some e |}, w')
  end.

(** [req.body] of a registration: [personalInfo], and [account] with its
    [password], each of which may be missing. *)
Record RegisterRequest := {
  rr_personalInfo : option C.PersonalInfo;
  rr_account : option (option string);
  rr_tenant : Tenant
}.

(** [data] of the 201 answer of [registerCandidate]. *)
Record Registered := {
  reg_id : ObjectId;
  reg_name : string;
  reg_email : string;
  reg_isEmailVerified : bool;
  reg_token : string;
  reg_companyName : string;
  reg_branding : string
}.

Section Register.

Variable env : Collaborators.

(** [jwt.sign] on a payload that is an ObjectId and not an object of
    claims; [None] when the token library refuses it. jsonwebtoken
    validates an object payload and throws 'Expected payload to be a
    plain object' for one that is not, so with the library as published
    the answer is [None] for every id. *)
Variable jwtSignId : ObjectId -> string -> option string.

(** [Candidate.create] without a password: what happens is decided by the
    Candidate schema, which is not among the sources. *)
Variable createWithoutPassword : C.PersonalInfo -> Handler C.Candidate.

(** [generateToken(candidate._id)], part_000:7-11 and 58. *)
Definition generateTokenForId (i : ObjectId) : Handler string :=
  fun w =>
    match jwtSignId i
            match orStr (JWT_EXPIRE env) (Some "7d") with
            | Some e => e
            | None => "7d"
            end with
    | Some t => (Ok t, w)
    | None => (Throw "Expected payload to be a plain object", w)
    end.

(** part_000:16-85 *)
Definition registerCandidate (req : RegisterRequest)
    : World -> Reply Registered * World :=
  tryCatchWith "Error during registration"
    match rr_account req with
    | None => throw "Cannot destructure property 'password' of 'account'"
    | Some password =>
        match rr_personalInfo req with
        | None => throw "Cannot read properties of undefined (reading 'email')"
        | Some personalInfo =>
            w <- get ;;
            match C.findOneByEmail (candidates w) (C.email personalInfo) with
            | Some _ =>
                respond (failure 400 "Candidate with this email already exists")
            | None =>
                candidate <-
                  match password with
                  | Some p => createCandidate env personalInfo p
                  | None => createWithoutPassword personalInfo
                  end ;;
                token <- generateTokenForId (C._id candidate) ;;
                ret (201%N, "Registration successful",
                     {| reg_id := C._id candidate;
                        reg_name := fullName env (C.personalInfo candidate);
                        reg_email := C.email (C.personalInfo candidate);
                        reg_isEmailVerified :=
                          C.isEmailVerified (C.account candidate);
                        reg_token := token;
                        reg_companyName := companyName (rr_tenant req);
                        reg_branding := branding (rr_tenant req) |})
            end
        end
    end.

End Register.

(** *** What the store keeps *)

(** The (job, candidate) pair of an application, the key of the unique
    index. *)
Definition pairOf (a : A.Application) : ObjectId * ObjectId :=
  (A.jobDescriptionId a, A.candidateId a).

(** No two candidates share an email or an id, no two applications share
    an id or a (job, candidate) pair, and every id in use lies below the
    next fresh one. *)
Definition consistent (w : World) : Prop :=
  NoDup (map (fun c => C.email (C.personalInfo c)) (candidates w))
  /\ NoDup (map C._id (candidates w))
  /\ NoDup (map A._id (applications w))
  /\ NoDup (map pairOf (applications w))
  /\ (forall c, In c (candidates w) -> (C._id c < nextId w)%N)
  /\ (forall a, In a (applications w) -> (A._id a < nextId w)%N).

(** What [applyToJob] never writes in a job: everything but the counter. *)
Definition posting (j : J.JobDescription) :=
  (J._id j, J.shareableLink j, J.isActive j, J.status j, J.title j,
   J.applicationDeadline j, J.allowMultipleApplications j).

(** The store [w'] holds everything [w] holds: candidates, applications
    and log entries are only added at the end, the jobs are the same
    postings with counters that did not go down, and the id counter did
    not go back. *)
Definition extends (w w' : World) : Prop :=
  (exists cs, candidates w' = (candidates w ++ cs)%list)
  /\ (exists apps, applications w' = (applications w ++ apps)%list)
  /\ (exists es, log w' = (log w ++ es)%list)
  /\ map posting (jobs w') = map posting (jobs w)
  /\ Forall2 (fun j j' => (J.applications j <= J.applications j')%N)
       (jobs w) (jobs w')
  /\ (nextId w <= nextId w')%N.

(** What a login never writes in an account. *)
Definition credentials (c : C.Candidate) :=
  (C._id c, C.personalInfo c, C.password (C.account c),
   C.isActive (C.account c), C.isEmailVerified (C.account c)).

End CandidateControllerRest.

(* ================================================================== *)
(** ** controllers/candidateController: [uploadDocument] *)

Module DocumentUpload.

(** [req.file] as the upload middleware leaves it. *)
Record UploadedFile := {
  path : string;
  filename : string;
  originalname : string;
  mimetype : string;
  size : N;
  public_id : option string
}.

(** A stored document of a candidate, part_000:463-470. The [url] of a
    profile picture is what [cloudinary.url] returns, which may be
    [undefined]. *)
Record DocumentData := {
  url : option string;
  publicId : option string;
  originalName : string;
  mimeType : string;
  d_size : N;
  uploadedAt : Date
}.

(** The part of a Candidate document [uploadDocument] uses: the id and
    [documents], an object keyed by document type that may be absent. *)
Record Profile := {
  _id : ObjectId;
  documents : option (list (string * DocumentData))
}.

(** Calls of [cloudinary.uploader.destroy], in order. *)
Inductive CloudEvent :=
| Destroyed (publicId : option string).

Record UploadWorld := {
  profiles : list Profile;
  cloud : list CloudEvent
}.

Record UploadRequest := {
  file : option UploadedFile;
  documentType : option string;
  userId : ObjectId
}.

Inductive UploadReply :=
| UploadFailed (code : N) (message : string) (error : option string)
| Uploaded (type : string) (document : DocumentData).

(** part_000:448 *)
Definition validDocumentTypes : list string :=
  ["resume"; "coverLetter"; "certificate"; "profilePicture"].

(** The document type when [validDocumentTypes.includes] it. *)
Definition validType (t : option string) : option string :=
  match t with
  | Some x => if existsb (String.eqb x) validDocumentTypes then Some x else None
  | None => None
  end.

Definition destroy (i : option string) (w : UploadWorld) : UploadWorld :=
  {| profiles := profiles w; cloud := cloud w ++ [Destroyed i] |}.

(** [if (req.file.public_id) await cloudinary.uploader.destroy(...)] *)
Definition cleanup (f : UploadedFile) (w : UploadWorld) : UploadWorld :=
  if truthyStr (public_id f) then destroy (public_id f) w else w.

Definition findProfile (l : list Profile) (i : ObjectId) : option Profile :=
  find (fun p => N.eqb (_id p) i) l.

(** [documents[type]] *)
Definition lookupDocument (docs : option (list (string * DocumentData)))
    (type : string) : option DocumentData :=
  match docs with
  | Some l => option_map snd (find (fun kv => String.eqb (fst kv) type) l)
  | None => None
  end.

(** part_000:484, the public id of the document to be replaced, when it
    has one. *)
Definition oldPublicId (p : Profile) (type : string) : option string :=
  match lookupDocument (documents p) type with
  | Some d => if truthyStr (publicId d) then publicId d else None
  | None => None
  end.

(** [documents[type] = d] *)
Fixpoint assign (type : string) (d : DocumentData)
    (l : list (string * DocumentData)) : list (string * DocumentData) :=
  match l with
  | [] => [(type, d)]
  | (k, v) :: rest =>
      if String.eqb k type then (k, d) :: rest else (k, v) :: assign type d rest
  end.

(** [Candidate.findByIdAndUpdate(id, {['documents.' + type]: d})]:
    the updated collection, [None] when no document has the id. *)
Fixpoint setDocument (i : ObjectId) (type : string) (d : DocumentData)
    (l : list Profile) : option (list Profile) :=
  match l with
  | [] => None
  | p :: rest =>
      if N.eqb (_id p) i then
        Some ({| _id := _id p;
                 documents :=
                   Some (assign type d
                           match documents p with
                           | Some docs => docs
                           | None => []
                           end) |} :: rest)
      else option_map (cons p) (setDocument i type d rest)
  end.

Section Upload.

(** [cloudinary.url(publicId, {width: 300, ...})]: the call does not
    throw; for an absent public id it returns [undefined]. *)
Variable cloudinaryUrl : option string -> option string.

(** part_000:436-528 *)
Definition uploadDocument (req : UploadRequest) (now : Date) (w : UploadWorld)
    : UploadReply * UploadWorld :=
  match file req with
  | None => (UploadFailed 400 "Please upload a file" None, w)
  | Some f =>
      match validType (documentType req) with
      | None => (UploadFailed 400 "Invalid document type" None, cleanup f w)
      | Some type =>
          let documentData :=
            {| url := if String.eqb type "profilePicture"
                      then cloudinaryUrl (public_id f)
                      else Some (path f);
               publicId := Some (filename f);
               originalName := originalname f;
               mimeType := mimetype f;
               d_size := size f;
               uploadedAt := now |} in
          match findProfile (profiles w) (userId req) with
          | None =>
              (UploadFailed 500 "Error uploading document"
                 (Some "Cannot read properties of null (reading 'documents')"),
               cleanup f w)
          | Some candidate =>
              let w1 :=
                match oldPublicId candidate type with
                | Some old => destroy (Some old) w
                | None => w
                end in
              match setDocument (userId req) type documentData (profiles w1) with
              | None =>
                  (UploadFailed 404 "Candidate not found" None,
                   destroy (public_id f) w1)
              | Some updated =>
                  (Uploaded type documentData,
                   {| profiles := updated; cloud := cloud w1 |})
              end
          end
      end
  end.

End Upload.

End DocumentUpload.

(* ================================================================== *)
(** ** From login to the protected routes *)

Module Session.

Import CandidateController.

(** The claims [jwt.verify] reads from a token signed over the payload
    [generateToken] is given at login: id, tenant and type, no role. *)
Definition claimsOf (p : TokenPayload) : Auth.Claims :=
  {| Auth.id := Some (tp_id p);
     Auth.role := None;
     Auth.type := Some (tp_type p);
     Auth.tenant := Some (tp_tenant p) |}.

End Session.

(* ================================================================== *)
(** ** src/routes/candidates.js: how a request travels the stack *)

Module Router.

Import Routes.

Definition Method_eqb (a b : Method) : bool :=
  match a, b with
  | GET, GET | POST, POST | PUT, PUT => true
  | _, _ => false
  end.

Section Dispatch.

Variable Connection : Type.

(** Express's matching of a request path against a route pattern. *)
Variable matches : string -> string -> bool.

(** Where a request ends up: in a handler, with what [protect] attached
    if it ran; stopped by [protect]; or past the end of the stack. *)
Inductive Arrival :=
| Reached (h : HandlerName) (ctx : option (Auth.Context Connection))
| Stopped (code : N) (message : string)
| Unrouted.

(** The walk through the router stack, in registration order. [outcome]
    is what [protect] does with this request. *)
Fixpoint dispatch (outcome : Auth.Outcome Connection) (m : Method)
    (path : string) (stack : list Layer)
    (ctx : option (Auth.Context Connection)) : Arrival :=
  match stack with
  | [] => Unrouted
  | UseProtect :: rest =>
      match outcome with
      | Auth.Respond c msg => Stopped c msg
      | Auth.Next c => dispatch outcome m path rest (Some c)
      end
  | Route m' pattern h :: rest =>
      if Method_eqb m m' && matches pattern path then Reached h ctx
      else dispatch outcome m path rest ctx
  end.

End Dispatch.

Arguments Reached {Connection} h ctx.
Arguments Stopped {Connection} code message.
Arguments Unrouted {Connection}.
Arguments dispatch {Connection} matches outcome m path stack ctx.

(** The handlers registered before [router.use(protect)]. *)
Definition isPublic (h : HandlerName) : bool :=
  match h with
  | registerCandidate | loginCandidate | applyToJob => true
  | _ => false
  end.

End Router.

(* ================================================================== *)
(** ** Concrete data used by the examples below *)

Module Samples.

Module A := ApplicationModel.

Local Open Scope N_scope.

Definition showDate (d : Date) : string := "2025-06-01T10:00:00.000Z".

(** A stored application in state [submitted] with an empty history. *)
Definition app0 : A.Application :=
  {| A._id := 100; A.jobDescriptionId := 10; A.candidateId := 1;
     A.status := A.submitted; A.appliedAt := 5000;
     A.coverLetter := Some "Dear team"; A.customAnswers := [];
     A.documents := None; A.interviews := []; A.timeline := [];
     A.communication := [] |}.

(** The same application once it has been interviewed. *)
Definition app_interviewed : A.Application := A.set_status app0 A.interviewed.

Definition interview0 : A.InterviewData :=
  {| A.id_type := A.video; A.id_scheduledAt := 9000; A.id_duration := None;
     A.id_interviewer := 7; A.id_status := None;
     A.id_meetingLink := Some "https://meet.example/abc";
     A.id_location := None |}.

Definition comm0 : A.CommunicationData :=
  {| A.cd_type := A.email; A.cd_subject := Some "Next steps";
     A.cd_content := Some "We will be in touch"; A.cd_sentBy := 7;
     A.cd_sentAt := None; A.cd_isRead := None |}.

(** *** An auth setting: one tenant, one candidate, one super admin *)

Definition Conn := string.

Definition candidateClaims : Auth.Claims :=
  {| Auth.id := Some 1; Auth.role := None;
     Auth.type := Some "candidate"; Auth.tenant := Some "acme" |}.

Definition adminClaims : Auth.Claims :=
  {| Auth.id := Some 900; Auth.role := Some "super_admin";
     Auth.type := None; Auth.tenant := None |}.

Definition staffClaims : Auth.Claims :=
  {| Auth.id := Some 50; Auth.role := Some "recruiter";
     Auth.type := Some "user"; Auth.tenant := None |}.

Definition jwtVerify (token : string) : option Auth.Claims :=
  if String.eqb token "candidate-token" then Some candidateClaims
  else if String.eqb token "admin-token" then Some adminClaims
  else if String.eqb token "staff-token" then Some staffClaims
  else None.

Definition master : Conn := "master".

Definition getTenantDB (t : string) : option Conn :=
  if String.eqb t "acme" then Some "tenant:acme" else None.

Definition storedCandidate : Auth.Identity :=
  {| Auth.ident_id := 1; Auth.ident_role := None; Auth.isActive := None;
     Auth.password := None;
     Auth.account := Some {| Auth.acc_isActive := Some true;
                             Auth.acc_password := Some "$2b$10$hash" |} |}.

Definition storedAdmin : Auth.Identity :=
  {| Auth.ident_id := 900; Auth.ident_role := Some "super_admin";
     Auth.isActive := Some true; Auth.password := Some "$2b$10$root";
     Auth.account := None |}.

(** A staff member whose account has been switched off. *)
Definition storedStaff : Auth.Identity :=
  {| Auth.ident_id := 50; Auth.ident_role := Some "recruiter";
     Auth.isActive := Some false; Auth.password := Some "$2b$10$staff";
     Auth.account := None |}.

Definition findById (c : Conn) (m : Auth.ModelKind) (i : ObjectId)
    : option Auth.Identity :=
  match m with
  | Auth.Candidate =>
      if String.eqb c "tenant:acme" && N.eqb i 1 then Some storedCandidate else None
  | Auth.SuperAdmin =>
      if String.eqb c "master" && N.eqb i 900 then Some storedAdmin else None
  | Auth.User =>
      if String.eqb c "tenant:acme" && N.eqb i 50 then Some storedStaff else None
  end.

Definition candidateRequest : Auth.Request :=
  {| Auth.authorization := Some "Bearer candidate-token";
     Auth.x_tenant_id := Some "globex" |}.

Definition adminRequest : Auth.Request :=
  {| Auth.authorization := Some "Bearer admin-token";
     Auth.x_tenant_id := Some "acme" |}.

Definition staffRequest : Auth.Request :=
  {| Auth.authorization := Some "Bearer staff-token";
     Auth.x_tenant_id := Some "acme" |}.

(** A staff token with no tenant in it, sent without the tenant header. *)
Definition staffRequestNoTenant : Auth.Request :=
  {| Auth.authorization := Some "Bearer staff-token";
     Auth.x_tenant_id := None |}.

Definition protect : Auth.Request -> Auth.Outcome Conn :=
  Auth.protect Conn jwtVerify master getTenantDB findById.

(** *** A tenant database: job J1 (published, open, single application)
    and one registered candidate *)

Module C := CandidateModel.
Module J := JobDescriptionModel.
Module K := CandidateController.

(** The value of a hexadecimal digit. *)
Definition hexDigit (c : ascii) : option N :=
  let n := N_of_ascii c in
  if N.leb 48 n && N.leb n 57 then Some (n - 48)
  else if N.leb 97 n && N.leb n 102 then Some (n - 87)
  else if N.leb 65 n && N.leb n 70 then Some (n - 55)
  else None.

Fixpoint hexValue (s : string) (acc : N) : option N :=
  match s with
  | EmptyString => Some acc
  | String c r =>
      match hexDigit c with
      | Some d => hexValue r (16 * acc + d)
      | None => None
      end
  end.

(** A text is an ObjectId when it is 24 hexadecimal digits. *)
Definition castObjectId (s : string) : option ObjectId :=
  if Nat.eqb (String.length s) 24 then hexValue s 0 else None.

Definition env0 : K.Collaborators :=
  {| K.matchPassword := fun entered stored => String.eqb ("hash:" ++ entered) stored;
     K.hashPassword := fun p => "hash:" ++ p;
     K.fullName := fun i => C.firstName i ++ " " ++ C.lastName i;
     K.castObjectId := castObjectId;
     K.jwtSign := fun p expiresIn => "jwt:" ++ K.tp_tenant p ++ ":" ++ K.tp_type p;
     K.sendEmail := fun m => true;
     K.JWT_EXPIRE := None;
     K.maxAttempts := 5;
     K.lockDuration := 7200000 |}.

Definition tenant0 : K.Tenant :=
  {| K.companyName := "Acme"; K.branding := "blue"; K.subdomain := "acme" |}.

Definition job1 : J.JobDescription :=
  {| J._id := 10; J.shareableLink := Some "acme-backend-dev";
     J.isActive := true; J.status := "published"; J.title := "Backend developer";
     J.applicationDeadline := Some 900000;
     J.allowMultipleApplications := false; J.applications := 3 |}.

Definition bob : C.Candidate :=
  {| C._id := 1;
     C.personalInfo := {| C.firstName := "Bob"; C.lastName := "Ray";
                          C.email := "b@x.com" |};
     C.account := {| C.password := "hash:s3cret"; C.isActive := true;
                     C.isEmailVerified := true; C.loginAttempts := 2;
                     C.lockUntil := None; C.lastLogin := None |} |}.

(** Bob after too many failures: locked until time 50000. *)
Definition bobLocked : C.Candidate :=
  C.withAccount bob
    {| C.password := "hash:s3cret"; C.isActive := true;
       C.isEmailVerified := true; C.loginAttempts := 5;
       C.lockUntil := Some 50000; C.lastLogin := None |}.

(** Bob has applied to job J1. *)
Definition bobsApplication : A.Application :=
  {| A._id := 100; A.jobDescriptionId := 10; A.candidateId := 1;
     A.status := A.submitted; A.appliedAt := 5000;
     A.coverLetter := None; A.customAnswers := [];
     A.documents := None; A.interviews := []; A.timeline := [];
     A.communication := [] |}.

(** Carol has never failed a login. *)
Definition carol : C.Candidate :=
  {| C._id := 2;
     C.personalInfo := {| C.firstName := "Carol"; C.lastName := "Diaz";
                          C.email := "c@x.com" |};
     C.account := {| C.password := "hash:pa55word"; C.isActive := true;
                     C.isEmailVerified := true; C.loginAttempts := 0;
                     C.lockUntil := None; C.lastLogin := None |} |}.

Definition loginCarol (pw : string) : K.LoginRequest :=
  {| K.lr_email := Some "c@x.com"; K.lr_password := Some pw;
     K.lr_tenant := tenant0 |}.

(** Job J2 allows a candidate to apply more than once. *)
Definition job2 : J.JobDescription :=
  {| J._id := 11; J.shareableLink := None;
     J.isActive := true; J.status := "published"; J.title := "Data engineer";
     J.applicationDeadline := None;
     J.allowMultipleApplications := true; J.applications := 1 |}.

Definition bobsApplicationToJ2 : A.Application :=
  {| A._id := 99; A.jobDescriptionId := 11; A.candidateId := 1;
     A.status := A.under_review; A.appliedAt := 4000;
     A.coverLetter := None; A.customAnswers := [];
     A.documents := None; A.interviews := []; A.timeline := [];
     A.communication := [] |}.

Definition world2 : K.World :=
  {| K.candidates := [bob]; K.jobs := [job1; job2];
     K.applications := [bobsApplicationToJ2]; K.nextId := 101; K.log := [] |}.

Definition applyBobToJ2 : K.ApplyRequest :=
  {| K.ar_jobId := "00000000000000000000000b";
     K.ar_candidateData :=
       {| K.cd_personalInfo := C.personalInfo bob; K.cd_password := None |};
     K.ar_coverLetter := None;
     K.ar_customAnswers := [];
     K.ar_documents := None;
     K.ar_tenant := tenant0 |}.

Definition world0 : K.World :=
  {| K.candidates := [bob; carol]; K.jobs := [job1];
     K.applications := [bobsApplication]; K.nextId := 101; K.log := [] |}.

Definition worldLocked : K.World :=
  {| K.candidates := [bobLocked]; K.jobs := [job1];
     K.applications := [bobsApplication]; K.nextId := 101; K.log := [] |}.

Definition loginBob (pw : string) : K.LoginRequest :=
  {| K.lr_email := Some "b@x.com"; K.lr_password := Some pw;
     K.lr_tenant := tenant0 |}.

(** Candidate a@x.com, unknown to the tenant, applies to job J1 by its id,
    without a password. *)
Definition applyAlice : K.ApplyRequest :=
  {| K.ar_jobId := "00000000000000000000000a";
     K.ar_candidateData :=
       {| K.cd_personalInfo := {| C.firstName := "Alice"; C.lastName := "Lee";
                                  C.email := "a@x.com" |};
          K.cd_password := None |};
     K.ar_coverLetter := Some "I would like to apply";
     K.ar_customAnswers := [];
     K.ar_documents := None;
     K.ar_tenant := tenant0 |}.

(** Bob applies to the job he has already applied to, by its id. *)
Definition applyBob : K.ApplyRequest :=
  {| K.ar_jobId := "00000000000000000000000a";
     K.ar_candidateData :=
       {| K.cd_personalInfo := C.personalInfo bob; K.cd_password := None |};
     K.ar_coverLetter := None;
     K.ar_customAnswers := [];
     K.ar_documents := None;
     K.ar_tenant := tenant0 |}.

End Samples.

(* ================================================================== *)
(** ** More concrete data *)

Module MoreSamples.

Module A := ApplicationModel.

Local Open Scope N_scope.

(** Job 10 has two applications under review and one rejected; job 11 has
    one. *)
Definition pool : list A.Application :=
  [ A.set_status Samples.app0 A.under_review;
    A.set_status Samples.app0 A.rejected;
    Samples.bobsApplicationToJ2;
    A.set_status Samples.app0 A.under_review ].

Definition castObjectId (s : string) : option ObjectId :=
  if String.eqb s "J1" then Some 10
  else if String.eqb s "J2" then Some 11
  else None.

(** One message and two interviews, on an application already interviewed. *)
Definition laterCalls : list (ApplicationCalls.Call * Date) :=
  [ (ApplicationCalls.CallAddCommunication Samples.comm0, 7000);
    (ApplicationCalls.CallScheduleInterview Samples.interview0, 8000);
    (ApplicationCalls.CallScheduleInterview Samples.interview0, 9000) ].

(** A candidate record that carries both active flags: the account is
    switched off, the top-level flag is on. *)
Definition flaggedCandidate : Auth.Identity :=
  {| Auth.ident_id := 1; Auth.ident_role := None;
     Auth.isActive := Some true; Auth.password := None;
     Auth.account := Some {| Auth.acc_isActive := Some false;
                             Auth.acc_password := Some "$2b$10$hash" |} |}.

(** The store of [Samples.findById] with that record in the place of the
    candidate. *)
Definition findByIdFlagged (c : Samples.Conn) (m : Auth.ModelKind)
    (i : ObjectId) : option Auth.Identity :=
  match m with
  | Auth.Candidate =>
      if String.eqb c "tenant:acme" && N.eqb i 1 then Some flaggedCandidate
      else None
  | _ => Samples.findById c m i
  end.

Module C := CandidateModel.
Module J := JobDescriptionModel.
Module K := CandidateController.



(** Bob refers to job J1 by its shareable link. *)
Definition applyBobByLink : K.ApplyRequest :=
  {| K.ar_jobId := "acme-backend-dev";
     K.ar_candidateData := K.ar_candidateData Samples.applyBob;
     K.ar_coverLetter := None;
     K.ar_customAnswers := [];
     K.ar_documents := None;
     K.ar_tenant := Samples.tenant0 |}.

(** [n] times the letter e with an acute accent, which takes two bytes in
    UTF-8 and is one UTF-16 code unit. *)
Fixpoint accented (n : nat) : string :=
  match n with
  | O => EmptyString
  | S k => String (ascii_of_N 195) (String (ascii_of_N 169) (accented k))
  end.

(** Alice applies with a custom answer that lacks its answer text. *)
Definition applyAliceInvalid : K.ApplyRequest :=
  {| K.ar_jobId := "00000000000000000000000a";
     K.ar_candidateData := K.ar_candidateData Samples.applyAlice;
     K.ar_coverLetter := None;
     K.ar_customAnswers :=
       [ {| A.questionId := Some 500; A.question := Some "Why us?";
            A.answer := None |} ];
     K.ar_documents := None;
     K.ar_tenant := Samples.tenant0 |}.

(** The token library handed a bare id: it refuses a payload that is not
    a plain object. *)
Definition jwtSignId (i : ObjectId) (expiresIn : string) : option string :=
  None.

(** A Candidate schema that requires the password. *)
Definition createWithoutPassword (info : C.PersonalInfo)
    : K.Handler C.Candidate :=
  K.throw "Candidate validation failed: account.password is required".

Definition registerDan : CandidateControllerRest.RegisterRequest :=
  {| CandidateControllerRest.rr_personalInfo :=
       Some {| C.firstName := "Dan"; C.lastName := "Moss";
               C.email := "d@x.com" |};
     CandidateControllerRest.rr_account := Some (Some "correct horse");
     CandidateControllerRest.rr_tenant := Samples.tenant0 |}.

(** Bob registers again under the same email. *)
Definition registerBobAgain : CandidateControllerRest.RegisterRequest :=
  {| CandidateControllerRest.rr_personalInfo :=
       Some (C.personalInfo Samples.bob);
     CandidateControllerRest.rr_account := Some (Some "another");
     CandidateControllerRest.rr_tenant := Samples.tenant0 |}.

(** *** A token library whose tokens can be read back

    The token is the id as a run of 'i', a dot, the length of the tenant
    key as a run of 't', a dot, then tenant key and type. *)

Fixpoint run (n : nat) (c : ascii) (rest : string) : string :=
  match n with
  | O => rest
  | S k => String c (run k c rest)
  end.

Fixpoint readRun (c : ascii) (s : string) : nat * string :=
  match s with
  | EmptyString => (O, EmptyString)
  | String d r =>
      if Ascii.eqb d c
      then let (n, rest) := readRun c r in (S n, rest)
      else (O, r)
  end.

Fixpoint cut (n : nat) (s : string) : string * string :=
  match n, s with
  | S k, String c r => let (a, b) := cut k r in (String c a, b)
  | _, _ => (EmptyString, s)
  end.

Definition signReadable (p : K.TokenPayload) (expiresIn : string) : string :=
  run (N.to_nat (K.tp_id p)) "i"
    (String "."
       (run (String.length (K.tp_tenant p)) "t"
          (String "." (K.tp_tenant p ++ K.tp_type p)%string))).

Definition verifyReadable (token : string) : option Auth.Claims :=
  let (i, r1) := readRun "i" token in
  let (k, r2) := readRun "t" r1 in
  let (tenant, type) := cut k r2 in
  Some {| Auth.id := Some (N.of_nat i); Auth.role := None;
          Auth.type := Some type; Auth.tenant := Some tenant |}.

Definition envReadable : K.Collaborators :=
  {| K.matchPassword := K.matchPassword Samples.env0;
     K.hashPassword := K.hashPassword Samples.env0;
     K.fullName := K.fullName Samples.env0;
     K.castObjectId := K.castObjectId Samples.env0;
     K.jwtSign := signReadable;
     K.sendEmail := K.sendEmail Samples.env0;
     K.JWT_EXPIRE := K.JWT_EXPIRE Samples.env0;
     K.maxAttempts := K.maxAttempts Samples.env0;
     K.lockDuration := K.lockDuration Samples.env0 |}.

(** Alice applies a second time, to whatever job. *)
Definition applyAliceAgain : K.ApplyRequest :=
  {| K.ar_jobId := "no-such-job";
     K.ar_candidateData := K.ar_candidateData Samples.applyAlice;
     K.ar_coverLetter := None;
     K.ar_customAnswers := [];
     K.ar_documents := None;
     K.ar_tenant := Samples.tenant0 |}.

(** *** Uploads *)

Module U := DocumentUpload.

(** The url helper of the media store; for an absent public id it
    returns [undefined]. *)
Definition cloudinaryUrl (i : option string) : option string :=
  match i with
  | Some x => Some ("https://res.cloudinary.com/demo/c_fill,h_300,w_300/" ++ x ++ ".jpg")%string
  | None => None
  end.

(** A file as multer-storage-cloudinary reports it: path and filename,
    no [public_id]. *)
Definition cv1 : U.UploadedFile :=
  {| U.path := "https://res.cloudinary.com/demo/raw/upload/1_111";
     U.filename := "recruiter-ai/candidates/1_111";
     U.originalname := "cv.pdf"; U.mimetype := "application/pdf";
     U.size := 52000; U.public_id := None |}.

Definition cv2 : U.UploadedFile :=
  {| U.path := "https://res.cloudinary.com/demo/raw/upload/1_222";
     U.filename := "recruiter-ai/candidates/1_222";
     U.originalname := "cv-v2.pdf"; U.mimetype := "application/pdf";
     U.size := 61000; U.public_id := Some "recruiter-ai/candidates/1_222" |}.

Definition uploads0 : U.UploadWorld :=
  {| U.profiles := [ {| U._id := 1; U.documents := None |};
                     {| U._id := 2; U.documents := Some [] |} ];
     U.cloud := [] |}.

Definition uploadResume (f : U.UploadedFile) (user : ObjectId) : U.UploadRequest :=
  {| U.file := Some f; U.documentType := Some "resume"; U.userId := user |}.

Definition uploadPassport (f : U.UploadedFile) : U.UploadRequest :=
  {| U.file := Some f; U.documentType := Some "passport"; U.userId := 1 |}.

End MoreSamples.

(* ================================================================== *)
(** * Properties of the application lifecycle model *)

Module ApplicationFacts.

Import ApplicationModel.
Local Open Scope list_scope.

Lemma Status_eqb_refl (s : Status) : Status_eqb s s = true.
Proof. destruct s; reflexivity. Qed.

Lemma Status_eqb_eq (a b : Status) : Status_eqb a b = true <-> a = b.
Proof.
  split.
  - destruct a, b; simpl; intro H; try reflexivity; discriminate H.
  - intros ->. apply Status_eqb_refl.
Qed.

Lemma Status_eqb_neq (a b : Status) : Status_eqb a b = false <-> a <> b.
Proof.
  split.
  - intros H E. apply Status_eqb_eq in E. congruence.
  - intro H. destruct (Status_eqb a b) eqn:E; [|reflexivity].
    apply Status_eqb_eq in E. contradiction.
Qed.

(** The hook appends at most one entry and leaves every other field. *)
Lemma preSave_timeline now d :
  timeline (fields (preSave now d)) =
  timeline (fields d) ++
    (if statusModified d && negb (isNew d)
     then [ {| action := "Status changed to " ++ statusString (status (fields d));
               performedBy := None; performedAt := now; notes := None;
               previousStatus := None;
               newStatus := Some (status (fields d)) |} ]
     else []).
Proof.
  unfold preSave. destruct (statusModified d && negb (isNew d)); simpl.
  - reflexivity.
  - now rewrite app_nil_r.
Qed.

Lemma preSave_status now d : status (fields (preSave now d)) = status (fields d).
Proof. unfold preSave. destruct (statusModified d && negb (isNew d)); reflexivity. Qed.

Lemma preSave_interviews now d :
  interviews (fields (preSave now d)) = interviews (fields d).
Proof. unfold preSave. destruct (statusModified d && negb (isNew d)); reflexivity. Qed.

Lemma preSave_communication now d :
  communication (fields (preSave now d)) = communication (fields d).
Proof. unfold preSave. destruct (statusModified d && negb (isNew d)); reflexivity. Qed.

(** After [updateStatus] the status is the requested one. *)
Lemma updateStatus_status now d s who n :
  status (fields (updateStatus now d s who n)) = s.
Proof. unfold updateStatus, save. simpl. now rewrite preSave_status. Qed.

(** The timeline after [updateStatus]: the method's own entry, followed by
    the hook's entry whenever the stored status really changes. *)
Lemma updateStatus_timeline now d s who n :
  timeline (fields (updateStatus now d s who n)) =
  timeline (fields d)
  ++ [ {| action := "Status changed from " ++ statusString (status (fields d))
                      ++ " to " ++ statusString s;
          performedBy := who; performedAt := now; notes := n;
          previousStatus := Some (status (fields d));
          newStatus := Some s |} ]
  ++ (if (statusModified d || isNew d || negb (Status_eqb (status (fields d)) s))
         && negb (isNew d)
      then [ {| action := "Status changed to " ++ statusString s;
                performedBy := None; performedAt := now; notes := None;
                previousStatus := None; newStatus := Some s |} ]
      else []).
Proof.
  unfold updateStatus, save. simpl. rewrite preSave_timeline. simpl.
  now rewrite <- app_assoc.
Qed.

(** A stored application whose status really changes gets two entries. *)
Lemma updateStatus_double_entry now a s who n :
  status a <> s ->
  length (timeline (fields (updateStatus now (loaded a) s who n)))
  = length (timeline a) + 2.
Proof.
  intro H. rewrite updateStatus_timeline. simpl.
  apply Status_eqb_neq in H. rewrite H. simpl.
  rewrite length_app. simpl. lia.
Qed.

(** Exactly one entry is appended when the requested status is the
    current one, or the document has never been saved. *)
Lemma updateStatus_single_entry now d s who n :
  isNew d = true \/ (statusModified d = false /\ status (fields d) = s) ->
  exists e,
    timeline (fields (updateStatus now d s who n)) = timeline (fields d) ++ [e]
    /\ previousStatus e = Some (status (fields d))
    /\ newStatus e = Some s.
Proof.
  intros H. rewrite updateStatus_timeline.
  assert (E : (statusModified d || isNew d
               || negb (Status_eqb (status (fields d)) s)) && negb (isNew d)
              = false).
  { destruct H as [H | [H1 H2]].
    - rewrite H. apply andb_false_r.
    - rewrite H1, H2, Status_eqb_refl. destruct (isNew d); reflexivity. }
  rewrite E. eexists. split; [reflexivity|]. split; reflexivity.
Qed.

(** X1. The timeline after [updateStatus] is the one before, then the entry of
    the method with the statuses before and after, the actor, the time and
    the notes, and then, exactly when the document is stored and its
    status counts as modified, one more entry from the pre-save hook, with
    no previous status. *)
Theorem updateStatus_entries (now : Date) (d : Doc) (s : Status)
    (who : option ObjectId) (n : option string) :
  timeline (fields (updateStatus now d s who n)) =
  timeline (fields d)
  ++ {| action := "Status changed from " ++ statusString (status (fields d))
                    ++ " to " ++ statusString s;
        performedBy := who; performedAt := now; notes := n;
        previousStatus := Some (status (fields d));
        newStatus := Some s |}
  :: (if (statusModified d || negb (Status_eqb (status (fields d)) s))
         && negb (isNew d)
      then [ {| action := "Status changed to " ++ statusString s;
                performedBy := None; performedAt := now; notes := None;
                previousStatus := None; newStatus := Some s |} ]
      else []).
Proof.
  rewrite updateStatus_timeline. cbn [app].
  destruct (isNew d); [|now rewrite orb_false_r].
  now rewrite !andb_false_r.
Qed.

(** C1. On a stored application in state [submitted], the call
    [updateStatus('under_review', 7, 'ok')] leaves a timeline of two new
    entries, not one: the entry pushed by the method, with the statuses
    before and after, and a second entry pushed by the pre-save hook,
    whose [previousStatus] is undefined. *)
Theorem updateStatus_pushes_two_entries :
  let d := updateStatus 6000%N (loaded Samples.app0) under_review (Some 7%N) (Some "ok") in
  status (fields d) = under_review
  /\ timeline (fields d) =
     [ {| action := "Status changed from submitted to under_review";
          performedBy := Some 7%N; performedAt := 6000%N; notes := Some "ok";
          previousStatus := Some submitted; newStatus := Some under_review |};
       {| action := "Status changed to under_review";
          performedBy := None; performedAt := 6000%N; notes := None;
          previousStatus := None; newStatus := Some under_review |} ].
Proof. split; reflexivity. Qed.

(** The status after [scheduleInterview], as a function of the one before. *)
Lemma scheduleInterview_status dateString now d x :
  status (fields (scheduleInterview dateString now d x)) =
  match status (fields d) with
  | submitted | under_review => interview_scheduled
  | s => s
  end.
Proof.
  unfold scheduleInterview, save. cbn [fields].
  rewrite preSave_status.
  destruct d as [a n m]. cbn [onFields fields push_timeline push_interview status].
  destruct (status a) eqn:E; cbn; rewrite ?E; reflexivity.
Qed.

Lemma scheduleInterview_interviews dateString now d x :
  interviews (fields (scheduleInterview dateString now d x))
  = interviews (fields d) ++ [castInterview x].
Proof.
  unfold scheduleInterview, save. cbn [fields].
  rewrite preSave_interviews.
  destruct d as [a n m]. cbn [onFields fields push_timeline push_interview status].
  destruct (Status_eqb (status a) submitted || Status_eqb (status a) under_review);
    reflexivity.
Qed.

(** The timeline after [scheduleInterview]: the method's entry, then the
    hook's entry when the document is stored and its status counts as
    modified, which it does when the call promotes it. *)
Lemma scheduleInterview_timeline dateString now d x :
  timeline (fields (scheduleInterview dateString now d x))
  = timeline (fields d)
    ++ {| action := "Interview scheduled for " ++ dateString (id_scheduledAt x);
          performedBy := Some (id_interviewer x);
          performedAt := now; notes := None;
          previousStatus := None; newStatus := None |}
    :: (if (statusModified d
            || Status_eqb (status (fields d)) submitted
            || Status_eqb (status (fields d)) under_review)
           && negb (isNew d)
        then [ {| action := "Status changed to "
                              ++ statusString
                                   (status (fields (scheduleInterview dateString
                                                      now d x)));
                  performedBy := None; performedAt := now; notes := None;
                  previousStatus := None;
                  newStatus :=
                    Some (status (fields (scheduleInterview dateString
                                            now d x))) |} ]
        else []).
Proof.
  rewrite scheduleInterview_status.
  unfold scheduleInterview, save. cbn [fields].
  rewrite preSave_timeline.
  destruct d as [a n m]. cbn [onFields fields push_timeline push_interview status
                              isNew statusModified].
  destruct (status a) eqn:E; destruct m, n; cbn; rewrite ?E; cbn;
    rewrite <- ?app_assoc; reflexivity.
Qed.

(** C4. [scheduleInterview] always appends the interview sub-record and
    the timeline entry 'Interview scheduled for ...'. The status afterwards
    is [interview_scheduled] when it was [submitted] or [under_review] and
    is the status before in every other case, so the call changes the
    status exactly from those two states; from [interviewed] it stays
    [interviewed]. That timeline entry is the only one appended, except
    that on a stored document whose status counts as modified (the call
    promoted it, or an unsaved assignment was pending) the pre-save hook
    adds its entry 'Status changed to ...' for the status after the call. *)
Theorem scheduleInterview_promotes_only_early_states
    (dateString : Date -> string) (now : Date) (d : Doc) (x : InterviewData) :
  let d' := scheduleInterview dateString now d x in
  interviews (fields d') = interviews (fields d) ++ [castInterview x]
  /\ timeline (fields d')
     = timeline (fields d)
       ++ {| action := "Interview scheduled for " ++ dateString (id_scheduledAt x);
             performedBy := Some (id_interviewer x);
             performedAt := now; notes := None;
             previousStatus := None; newStatus := None |}
       :: (if (statusModified d
               || Status_eqb (status (fields d)) submitted
               || Status_eqb (status (fields d)) under_review)
              && negb (isNew d)
           then [ {| action := "Status changed to "
                                 ++ statusString (status (fields d'));
                     performedBy := None; performedAt := now; notes := None;
                     previousStatus := None;
                     newStatus := Some (status (fields d')) |} ]
           else [])
  /\ status (fields d') =
       match status (fields d) with
       | submitted | under_review => interview_scheduled
       | s => s
       end
  /\ (status (fields d') <> status (fields d)
      <-> status (fields d) = submitted \/ status (fields d) = under_review)
  /\ (status (fields d) = interviewed -> status (fields d') = interviewed).
Proof.
  cbv zeta.
  split; [apply scheduleInterview_interviews|].
  split; [apply scheduleInterview_timeline|].
  rewrite scheduleInterview_status.
  split; [reflexivity|].
  split.
  - destruct (status (fields d)); split; intro H;
      try (now left); try (now right); try congruence;
      destruct H; discriminate.
  - intros ->. reflexivity.
Qed.

(** On a stored application in state [submitted] the call leaves two new
    timeline entries: its own and the hook's entry for the promotion. *)
Lemma scheduleInterview_logs_promotion :
  timeline (fields (scheduleInterview Samples.showDate 8000%N
                      (loaded Samples.app0) Samples.interview0))
  = timeline Samples.app0
    ++ [ {| action := "Interview scheduled for 2025-06-01T10:00:00.000Z";
            performedBy := Some (id_interviewer Samples.interview0);
            performedAt := 8000%N; notes := None;
            previousStatus := None; newStatus := None |};
         {| action := "Status changed to interview_scheduled";
            performedBy := None; performedAt := 8000%N; notes := None;
            previousStatus := None; newStatus := Some interview_scheduled |} ].
Proof. reflexivity. Qed.

Example scheduleInterview_after_interview :
  let d := scheduleInterview Samples.showDate 8000%N
             (loaded Samples.app_interviewed) Samples.interview0 in
  status (fields d) = interviewed
  /\ length (interviews (fields d)) = 1
  /\ map action (timeline (fields d))
     = ["Interview scheduled for 2025-06-01T10:00:00.000Z"%string].
Proof. repeat split. Qed.

Example scheduleInterview_from_submitted :
  let d := scheduleInterview Samples.showDate 8000%N
             (loaded Samples.app0) Samples.interview0 in
  status (fields d) = interview_scheduled
  /\ map action (timeline (fields d))
     = ["Interview scheduled for 2025-06-01T10:00:00.000Z"%string;
        "Status changed to interview_scheduled"%string].
Proof. repeat split. Qed.

(** The timeline after [addCommunication]: the method's entry, then the
    hook's entry if an earlier status assignment was still unsaved. *)
Lemma addCommunication_timeline now d x :
  timeline (fields (addCommunication now d x)) =
  timeline (fields d)
  ++ [ {| action := commTypeString (cd_type x) ++ " sent: " ++ showOpt (cd_subject x);
          performedBy := Some (cd_sentBy x);
          performedAt := now; notes := None;
          previousStatus := None; newStatus := None |} ]
  ++ (if statusModified d && negb (isNew d)
      then [ {| action := "Status changed to " ++ statusString (status (fields d));
                performedBy := None; performedAt := now; notes := None;
                previousStatus := None;
                newStatus := Some (status (fields d)) |} ]
      else []).
Proof.
  unfold addCommunication, save. cbn [fields]. rewrite preSave_timeline.
  destruct d as [a n m]. cbn. now rewrite <- app_assoc.
Qed.

Lemma addCommunication_status now d x :
  status (fields (addCommunication now d x)) = status (fields d).
Proof.
  unfold addCommunication, save. cbn [fields]. rewrite preSave_status.
  reflexivity.
Qed.

(** C9. For every application document, [addCommunication] appends one
    communication sub-record, leaves the status as it was, and appends
    its timeline entry '<type> sent: <subject>'. That entry is the only
    one appended unless the document is stored and carries an unsaved
    status assignment: then the pre-save hook, run by the method's
    [save], logs that assignment in a second entry. *)
Theorem addCommunication_keeps_status
    (now : Date) (d : Doc) (x : CommunicationData) :
  let d' := addCommunication now d x in
  communication (fields d') = communication (fields d) ++ [castCommunication now x]
  /\ status (fields d') = status (fields d)
  /\ timeline (fields d') =
       timeline (fields d)
       ++ {| action := commTypeString (cd_type x) ++ " sent: "
                         ++ showOpt (cd_subject x);
             performedBy := Some (cd_sentBy x);
             performedAt := now; notes := None;
             previousStatus := None; newStatus := None |}
       :: (if statusModified d && negb (isNew d)
           then [ {| action := "Status changed to "
                                 ++ statusString (status (fields d));
                     performedBy := None; performedAt := now; notes := None;
                     previousStatus := None;
                     newStatus := Some (status (fields d)) |} ]
           else [])
  /\ (statusModified d = false \/ isNew d = true ->
      length (timeline (fields d')) = S (length (timeline (fields d)))).
Proof.
  cbv zeta.
  split; [|split; [|split]].
  - unfold addCommunication, save. cbn [fields].
    rewrite preSave_communication. reflexivity.
  - apply addCommunication_status.
  - rewrite addCommunication_timeline. reflexivity.
  - intro H. rewrite addCommunication_timeline.
    replace (statusModified d && negb (isNew d)) with false.
    + rewrite !length_app. cbn [length]. lia.
    + destruct H as [-> | ->]; [reflexivity | now rewrite andb_false_r].
Qed.

(** A status assigned to a stored application and not yet saved: the next
    [addCommunication] appends two timeline entries, its own and the
    hook's. *)
Lemma addCommunication_logs_pending_status :
  timeline (fields (addCommunication 7000%N
                      (assignStatus (loaded Samples.app0) under_review)
                      Samples.comm0))
  = timeline Samples.app0
    ++ [ {| action := commTypeString (cd_type Samples.comm0) ++ " sent: "
                        ++ showOpt (cd_subject Samples.comm0);
            performedBy := Some (cd_sentBy Samples.comm0);
            performedAt := 7000%N; notes := None;
            previousStatus := None; newStatus := None |};
         {| action := "Status changed to under_review";
            performedBy := None; performedAt := 7000%N; notes := None;
            previousStatus := None; newStatus := Some under_review |} ].
Proof. reflexivity. Qed.

Example addCommunication_on_loaded :
  communication (fields (addCommunication 7000%N (loaded Samples.app0)
                           Samples.comm0))
  = [castCommunication 7000%N Samples.comm0]
  /\ length (timeline (fields (addCommunication 7000%N (loaded Samples.app0)
                                 Samples.comm0))) = 1%nat
  /\ status (fields (addCommunication 7000%N (loaded Samples.app0)
                       Samples.comm0)) = submitted.
Proof. repeat split. Qed.

End ApplicationFacts.

(* ================================================================== *)
(** * Properties of the auth gate *)

Module AuthFacts.

Import Auth.
Local Open Scope list_scope.

Example split_bearer :
  split " "%char "Bearer abc.def" = ["Bearer"; "abc.def"]%string.
Proof. reflexivity. Qed.

Example extractToken_no_space :
  extractToken {| authorization := Some "Bearer"; x_tenant_id := None |} = None.
Proof. reflexivity. Qed.

Lemma isStr_true (o : option string) (s : string) :
  isStr o s = true <-> o = Some s.
Proof.
  destruct o as [x|]; simpl.
  - rewrite String.eqb_eq. split; [intros ->; reflexivity | intros [= ->]; reflexivity].
  - split; discriminate.
Qed.

Lemma isStr_false (o : option string) (s : string) :
  isStr o s = false <-> o <> Some s.
Proof.
  split.
  - intros H E. apply isStr_true in E. congruence.
  - intro H. destruct (isStr o s) eqn:E; [|reflexivity].
    apply isStr_true in E. contradiction.
Qed.

Lemma truthyStr_Some (s : string) : truthyStr (Some s) = true <-> s <> "".
Proof.
  simpl. rewrite negb_true_iff. split.
  - intros H ->. rewrite String.eqb_refl in H. discriminate.
  - intro H. apply String.eqb_neq. exact H.
Qed.

(** Hiding the credential fields does not touch the active flags. *)
Lemma inactive_select (u : Identity) :
  inactive (selectWithoutPasswords u) = inactive u.
Proof. unfold inactive. destruct u as [i r a p [acc|]]; reflexivity. Qed.

Section Gate.

Variable Connection : Type.
Variable jwtVerify : string -> option Claims.
Variable getMasterConnection : Connection.
Variable getTenantDB : string -> option Connection.
Variable findById : Connection -> ModelKind -> ObjectId -> option Identity.

Local Abbreviation resolve := (Auth.resolve Connection getMasterConnection getTenantDB).
Local Abbreviation protect :=
  (Auth.protect Connection jwtVerify getMasterConnection getTenantDB findById).

(** A super-admin token binds to the master database, whatever the
    request carries. *)
Lemma resolve_super_admin (decoded : Claims) (req : Request) :
  role decoded = Some "super_admin" ->
  resolve decoded req =
  Bound {| b_db := getMasterConnection; b_tenantId := None; b_model := SuperAdmin |}.
Proof. intro H. unfold Auth.resolve. rewrite H. reflexivity. Qed.

(** Any other token binds to the database of its tenant key. *)
Lemma resolve_tenant (decoded : Claims) (req : Request) (b : Binding Connection) :
  role decoded <> Some "super_admin" ->
  resolve decoded req = Bound b ->
  exists T,
    orStr (tenant decoded) (x_tenant_id req) = Some T
    /\ T <> ""
    /\ getTenantDB T = Some (b_db b)
    /\ b_tenantId b = Some T
    /\ b_model b = if isStr (type decoded) "candidate" then Candidate else User.
Proof.
  intros Hr. unfold Auth.resolve.
  apply isStr_false in Hr. rewrite Hr.
  destruct (orStr (tenant decoded) (x_tenant_id req)) as [T|] eqn:EK.
  - destruct (truthyStr (Some T)) eqn:ET; [|discriminate].
    cbn [negb]. destruct (getTenantDB T) as [conn|] eqn:EC; [|discriminate].
    intros [= <-]. exists T. cbn. repeat split; try assumption.
    now apply truthyStr_Some.
  - discriminate.
Qed.

(** What a passing request went through. *)
Lemma protect_next_inv (req : Request) (ctx : Context Connection) :
  protect req = Next ctx ->
  exists token decoded b,
    extractToken req = Some token
    /\ jwtVerify token = Some decoded
    /\ resolve decoded req = Bound b
    /\ load findById b (id decoded) = Some (user ctx)
    /\ inactive (user ctx) = false
    /\ db ctx = b_db b
    /\ tenantId ctx = b_tenantId b
    /\ userType ctx = type decoded.
Proof.
  unfold Auth.protect.
  destruct (extractToken req) as [token|]; [|discriminate].
  destruct (negb (truthyStr (Some token))); [discriminate|].
  destruct (jwtVerify token) as [decoded|] eqn:EV; [|discriminate].
  destruct (Auth.resolve _ _ _ decoded req) as [b|c m|] eqn:ER; try discriminate.
  destruct (load findById b (id decoded)) as [u|] eqn:EL; [|discriminate].
  destruct (inactive u) eqn:EI; [discriminate|].
  intros [= <-]. exists token, decoded, b. cbn. repeat split; assumption.
Qed.

(** C2. For a request that passes the gate: with [role = super_admin] in
    the token the request is bound to the master database and the identity
    is read through the super-admin model, whatever tenant header is
    present; otherwise a tenant key T is resolved (token first, header as
    fall-back), the request is bound to the database of T, and the identity
    is read through the candidate model when [type = candidate] and through
    the staff/user model for any other type. *)
Theorem protect_binds_database_and_model
    (req : Request) (ctx : Context Connection) :
  protect req = Next ctx ->
  exists token decoded model,
    extractToken req = Some token
    /\ jwtVerify token = Some decoded
    /\ load findById {| b_db := db ctx; b_tenantId := tenantId ctx;
                        b_model := model |} (id decoded) = Some (user ctx)
    /\ (role decoded = Some "super_admin" ->
          db ctx = getMasterConnection /\ model = SuperAdmin)
    /\ (role decoded <> Some "super_admin" ->
          exists T,
            orStr (tenant decoded) (x_tenant_id req) = Some T
            /\ getTenantDB T = Some (db ctx)
            /\ tenantId ctx = Some T
            /\ (type decoded = Some "candidate" -> model = Candidate)
            /\ (type decoded <> Some "candidate" -> model = User)).
Proof.
  intro H. apply protect_next_inv in H.
  destruct H as (token & decoded & b & Ht & Hv & Hr & Hl & _ & Hd & Hk & _).
  exists token, decoded, (b_model b).
  rewrite Hd, Hk. destruct b as [bd bt bm]. cbn [b_db b_tenantId b_model] in *.
  repeat split; try assumption.
  - rewrite (resolve_super_admin decoded req H) in Hr. now injection Hr.
  - rewrite (resolve_super_admin decoded req H) in Hr. now injection Hr.
  - intro Hrole. destruct (resolve_tenant decoded req _ Hrole Hr)
      as (T & HT & _ & HG & HB & HM).
    cbn [b_db b_tenantId b_model] in *.
    exists T. repeat split; try assumption.
    + intro Hc. apply isStr_true in Hc. now rewrite Hc in HM.
    + intro Hc. apply isStr_false in Hc. now rewrite Hc in HM.
Qed.

(** C3. Once the token is decoded and the database and model are bound,
    the loader answers 401 'User not found' when no identity record is
    found. A record that is found is turned away with 401 'Account is
    inactive' exactly when neither active flag is true: the top-level flag
    is not true and the record has no nested account or one whose flag is
    not true. As soon as either flag is true the identity is attached to
    the request, whichever flag belongs to the identity type. *)
Theorem protect_guards_identity
    (req : Request) (token : string) (decoded : Claims)
    (b : Binding Connection) :
  extractToken req = Some token ->
  token <> "" ->
  jwtVerify token = Some decoded ->
  resolve decoded req = Bound b ->
  (load findById b (id decoded) = None ->
     protect req = Respond 401 "User not found")
  /\ (forall u, load findById b (id decoded) = Some u ->
        isActive u <> Some true ->
        (forall a, account u = Some a -> acc_isActive a <> Some true) ->
        protect req = Respond 401 "Account is inactive")
  /\ (forall u, load findById b (id decoded) = Some u ->
        (isActive u = Some true
         \/ exists a, account u = Some a /\ acc_isActive a = Some true) ->
        protect req = Next {| db := b_db b; tenantId := b_tenantId b;
                              user := u; userType := type decoded |}).
Proof.
  intros Ht Hne Hv Hr.
  assert (Hp : forall o,
            load findById b (id decoded) = o ->
            protect req =
            match o with
            | None => Respond 401 "User not found"
            | Some u =>
                if inactive u then Respond 401 "Account is inactive"
                else Next {| db := b_db b; tenantId := b_tenantId b;
                             user := u; userType := type decoded |}
            end).
  { intros o Ho. unfold Auth.protect. rewrite Ht.
    apply truthyStr_Some in Hne. rewrite Hne. cbn [negb].
    rewrite Hv, Hr, Ho. reflexivity. }
  split; [|split].
  - intro H. apply (Hp _ H).
  - intros u H Htop Hacc. rewrite (Hp _ H).
    replace (inactive u) with true; [reflexivity|].
    unfold inactive.
    destruct (isActive u) as [[|]|]; try congruence;
      destruct (account u) as [a|]; try reflexivity;
      specialize (Hacc a eq_refl);
      destruct (acc_isActive a) as [[|]|]; cbn; congruence.
  - intros u H Hflag. rewrite (Hp _ H).
    replace (inactive u) with false; [reflexivity|].
    unfold inactive.
    destruct Hflag as [-> | (a & -> & ->)]; [reflexivity|].
    cbn. now rewrite andb_false_r.
Qed.

(** X2. Without the super-admin role a request needs a tenant key, in the
    token or in the header; otherwise it is answered 400. *)
Theorem protect_requires_tenant
    (req : Request) (token : string) (decoded : Claims) :
  extractToken req = Some token ->
  token <> "" ->
  jwtVerify token = Some decoded ->
  role decoded <> Some "super_admin" ->
  truthyStr (tenant decoded) = false ->
  truthyStr (x_tenant_id req) = false ->
  protect req = Respond 400 "Tenant is required for this user type".
Proof.
  intros Ht Hne Hv Hr Hk Hh. unfold Auth.protect. rewrite Ht.
  apply truthyStr_Some in Hne. rewrite Hne. cbn [negb]. rewrite Hv.
  unfold Auth.resolve. apply isStr_false in Hr. rewrite Hr.
  unfold orStr. rewrite Hk, Hh. reflexivity.
Qed.

End Gate.

(** With both flags on one record the guard lets the identity through as
    soon as either of them is true. *)
Lemma inactive_both_flags (u : Identity) (a : AccountView) :
  account u = Some a ->
  inactive u = negb (truthyB (isActive u)) && negb (truthyB (acc_isActive a)).
Proof. intro H. unfold inactive. now rewrite H. Qed.

Lemma protect_guards_identity_witness :
  Samples.protect Samples.staffRequest = Respond 401 "Account is inactive".
Proof.
  destruct (protect_guards_identity Samples.Conn Samples.jwtVerify
              Samples.master Samples.getTenantDB Samples.findById
              Samples.staffRequest "staff-token" Samples.staffClaims
              {| b_db := "tenant:acme"%string; b_tenantId := Some "acme"%string;
                 b_model := User |}
              eq_refl ltac:(discriminate) eq_refl eq_refl)
    as (_ & Hin & _).
  apply (Hin (selectWithoutPasswords Samples.storedStaff) eq_refl).
  - discriminate.
  - intros a Ha. discriminate Ha.
Defined.

(** A candidate record whose account is switched off, but which also
    carries a top-level flag that is on, is let through. *)
Lemma protect_passes_switched_off_account :
  MoreSamples.findByIdFlagged "tenant:acme" Candidate 1%N
  = Some MoreSamples.flaggedCandidate
  /\ option_map acc_isActive (account MoreSamples.flaggedCandidate)
     = Some (Some false)
  /\ Auth.protect Samples.Conn Samples.jwtVerify Samples.master
       Samples.getTenantDB MoreSamples.findByIdFlagged Samples.candidateRequest
     = Next {| db := "tenant:acme"%string;
               tenantId := Some "acme"%string;
               user := selectWithoutPasswords MoreSamples.flaggedCandidate;
               userType := Some "candidate"%string |}.
Proof. repeat split. Qed.

Lemma protect_binds_database_and_model_witness :
  exists ctx,
    Samples.protect Samples.candidateRequest = Next ctx
    /\ db ctx = "tenant:acme"%string
    /\ tenantId ctx = Some "acme"%string
    /\ exists token decoded model,
         extractToken Samples.candidateRequest = Some token
         /\ Samples.jwtVerify token = Some decoded
         /\ load Samples.findById
              {| b_db := db ctx; b_tenantId := tenantId ctx; b_model := model |}
              (id decoded) = Some (user ctx)
         /\ model = Candidate.
Proof.
  eexists. split; [reflexivity|]. split; [reflexivity|]. split; [reflexivity|].
  destruct (protect_binds_database_and_model Samples.Conn Samples.jwtVerify
              Samples.master Samples.getTenantDB Samples.findById
              Samples.candidateRequest _ eq_refl)
    as (token & decoded & model & Ht & Hv & Hl & _ & Hc).
  exists token, decoded, model. repeat split; try assumption.
  cbv in Ht. injection Ht as <-. cbv in Hv. injection Hv as <-.
  destruct Hc as (T & _ & _ & _ & Hcand & _); [discriminate|].
  apply Hcand. reflexivity.
Defined.

Lemma protect_requires_tenant_witness :
  Samples.protect Samples.staffRequestNoTenant
  = Respond 400 "Tenant is required for this user type".
Proof.
  apply (protect_requires_tenant Samples.Conn Samples.jwtVerify Samples.master
           Samples.getTenantDB Samples.findById Samples.staffRequestNoTenant
           "staff-token" Samples.staffClaims);
    solve [reflexivity | discriminate].
Defined.

Example protect_admin_ignores_header :
  exists ctx,
    Samples.protect Samples.adminRequest = Next ctx
    /\ db ctx = Samples.master /\ tenantId ctx = None
    /\ password (user ctx) = None.
Proof. eexists. repeat split. Qed.

Example protect_without_token :
  Samples.protect {| authorization := None; x_tenant_id := Some "acme" |}
  = Respond 401 "Token missing".
Proof. reflexivity. Qed.

End AuthFacts.

(* ================================================================== *)
(** * Properties of the candidate controller *)

Module ControllerFacts.

Import CandidateController.
Local Open Scope list_scope.
Local Open Scope N_scope.

Lemma nonEmpty_Some (o : option string) (s : string) :
  nonEmpty o = Some s -> o = Some s /\ s <> ""%string.
Proof.
  unfold nonEmpty. destruct (truthyStr o) eqn:E; [|discriminate].
  intros ->. split; [reflexivity|]. now apply AuthFacts.truthyStr_Some.
Qed.

(** Changing accounts keeps ids, emails and the order of the collection,
    so a lookup by email finds the same document, updated. *)
Lemma findOneByEmail_updateAccount
    (l : list C.Candidate) (e : string) (i : ObjectId)
    (f : C.Account -> C.Account) :
  C.findOneByEmail (C.updateAccount i f l) e =
  option_map
    (fun c => if N.eqb (C._id c) i then C.withAccount c (f (C.account c)) else c)
    (C.findOneByEmail l e).
Proof.
  unfold C.findOneByEmail, C.updateAccount.
  induction l as [|c l IH]; [reflexivity|].
  cbn [map find].
  destruct (N.eqb (C._id c) i) eqn:Ei; cbn [C.withAccount C.personalInfo];
    destruct (String.eqb (C.email (C.personalInfo c)) e) eqn:Ee;
    cbn [option_map]; rewrite ?Ei; try reflexivity; exact IH.
Qed.

Lemma findOneByEmail_updated_self
    (l : list C.Candidate) (e : string) (c : C.Candidate)
    (f : C.Account -> C.Account) :
  C.findOneByEmail l e = Some c ->
  C.findOneByEmail (C.updateAccount (C._id c) f l) e
  = Some (C.withAccount c (f (C.account c))).
Proof.
  intro H. rewrite findOneByEmail_updateAccount, H. cbn.
  now rewrite N.eqb_refl.
Qed.

Section Login.

Variable env : Collaborators.

(** A locked account is turned away before anything else happens. *)
Lemma login_locked
    (req : LoginRequest) (now : Date) (w : World)
    (email password : string) (c : C.Candidate) :
  nonEmpty (lr_email req) = Some email ->
  nonEmpty (lr_password req) = Some password ->
  C.findOneByEmail (candidates w) email = Some c ->
  C.isLocked now c = true ->
  loginCandidate env req now w =
  (failure 423
     "Account is temporarily locked due to too many failed login attempts", w).
Proof.
  intros He Hp Hc Hl. unfold loginCandidate, tryCatch. rewrite He, Hp.
  unfold bind, get. rewrite Hc, Hl. reflexivity.
Qed.

(** So is a deactivated one. *)
Lemma login_deactivated
    (req : LoginRequest) (now : Date) (w : World)
    (email password : string) (c : C.Candidate) :
  nonEmpty (lr_email req) = Some email ->
  nonEmpty (lr_password req) = Some password ->
  C.findOneByEmail (candidates w) email = Some c ->
  C.isLocked now c = false ->
  C.isActive (C.account c) = false ->
  loginCandidate env req now w = (failure 401 "Account is deactivated", w).
Proof.
  intros He Hp Hc Hl Ha. unfold loginCandidate, tryCatch. rewrite He, Hp.
  unfold bind, get. rewrite Hc, Hl, Ha. reflexivity.
Qed.

(** C5. When the candidate found for the login request is locked the
    answer is 423 and nothing else happens: the stored candidates and the
    log of effects are as before, so no password was compared. An unlocked
    but deactivated account is answered 401 in the same way, before any
    comparison, and with a message different from the locked one. *)
Theorem login_locked_before_password
    (req : LoginRequest) (now : Date) (w : World)
    (email password : string) (c : C.Candidate) :
  nonEmpty (lr_email req) = Some email ->
  nonEmpty (lr_password req) = Some password ->
  C.findOneByEmail (candidates w) email = Some c ->
  (C.isLocked now c = true ->
     loginCandidate env req now w =
     (failure 423
        "Account is temporarily locked due to too many failed login attempts",
      w))
  /\ (C.isLocked now c = false -> C.isActive (C.account c) = false ->
        loginCandidate env req now w = (failure 401 "Account is deactivated", w))
  /\ "Account is temporarily locked due to too many failed login attempts"%string
     <> "Account is deactivated"%string.
Proof.
  intros He Hp Hc.
  split; [|split].
  - intro Hl. now apply (login_locked req now w email password c).
  - intros Hl Ha. now apply (login_deactivated req now w email password c).
  - discriminate.
Qed.

(** The outcome of a login with a wrong password. *)
Lemma login_wrong_password
    (req : LoginRequest) (now : Date) (w : World)
    (email password : string) (c : C.Candidate) :
  nonEmpty (lr_email req) = Some email ->
  nonEmpty (lr_password req) = Some password ->
  C.findOneByEmail (candidates w) email = Some c ->
  C.isLocked now c = false ->
  C.isActive (C.account c) = true ->
  matchPassword env password (C.password (C.account c)) = false ->
  loginCandidate env req now w =
  (failure 401 "Invalid credentials",
   {| candidates :=
        C.updateAccount (C._id c)
          (C.incLoginAttempts (maxAttempts env) (lockDuration env) now)
          (candidates w);
      jobs := jobs w; applications := applications w; nextId := nextId w;
      log := log w ++ [PasswordCompared (C._id c)] |}).
Proof.
  intros He Hp Hc Hl Ha Hm. unfold loginCandidate, tryCatch. rewrite He, Hp.
  unfold bind at 1. unfold get. rewrite Hc, Hl, Ha. cbn [negb].
  unfold bind, comparePassword, persistAccount, modify, respond.
  rewrite Hm. reflexivity.
Qed.

(** The outcome of a login with the right password. *)
Lemma login_right_password
    (req : LoginRequest) (now : Date) (w : World)
    (email password : string) (c : C.Candidate) :
  nonEmpty (lr_email req) = Some email ->
  nonEmpty (lr_password req) = Some password ->
  C.findOneByEmail (candidates w) email = Some c ->
  C.isLocked now c = false ->
  C.isActive (C.account c) = true ->
  matchPassword env password (C.password (C.account c)) = true ->
  loginCandidate env req now w =
  (successful 200 "Login successful"
     (LoginData (C._id c) (fullName env (C.personalInfo c))
        (C.email (C.personalInfo c)) now
        (generateToken env {| tp_id := C._id c;
                              tp_tenant := subdomain (lr_tenant req);
                              tp_type := "candidate" |})
        (lr_tenant req)),
   {| candidates :=
        C.updateAccount (C._id c) (C.setLastLogin now)
          (if N.ltb 0 (C.loginAttempts (C.account c))
           then C.updateAccount (C._id c) C.resetLoginAttempts (candidates w)
           else candidates w);
      jobs := jobs w; applications := applications w; nextId := nextId w;
      log := log w ++ [PasswordCompared (C._id c)] |}).
Proof.
  intros He Hp Hc Hl Ha Hm. unfold loginCandidate, tryCatch. rewrite He, Hp.
  unfold bind at 1. unfold get. rewrite Hc, Hl, Ha. cbn [negb].
  unfold bind, comparePassword, persistAccount, modify, ret.
  rewrite Hm. cbn [negb].
  destruct (N.ltb 0 (C.loginAttempts (C.account c))); reflexivity.
Qed.

(** One login request never lowers the counter unless it succeeds. *)
Lemma login_step_monotone
    (req : LoginRequest) (now : Date) (w : World) (email : string) (n : N) :
  nonEmpty (lr_email req) = Some email ->
  attemptsOf w email = Some n ->
  (code (fst (loginCandidate env req now w)) = 200
   /\ attemptsOf (snd (loginCandidate env req now w)) email = Some 0)
  \/ (code (fst (loginCandidate env req now w)) <> 200
      /\ exists n', attemptsOf (snd (loginCandidate env req now w)) email = Some n'
                    /\ (n' = n \/ n' = n + 1)).
Proof.
  intros He Hn. unfold attemptsOf in Hn.
  destruct (C.findOneByEmail (candidates w) email) as [c|] eqn:Hc; [|discriminate].
  cbn in Hn. injection Hn as Hn.
  destruct (nonEmpty (lr_password req)) as [password|] eqn:Hp.
  2:{ right. unfold loginCandidate, tryCatch. rewrite He, Hp. cbn.
      split; [discriminate|]. exists n. split; [|now left].
      unfold attemptsOf. rewrite Hc. cbn. now rewrite Hn. }
  destruct (C.isLocked now c) eqn:Hl.
  { right. rewrite (login_locked req now w email password c He Hp Hc Hl). cbn.
    split; [discriminate|]. exists n. split; [|now left].
    unfold attemptsOf. rewrite Hc. cbn. now rewrite Hn. }
  destruct (C.isActive (C.account c)) eqn:Ha.
  2:{ right. rewrite (login_deactivated req now w email password c
                        He Hp Hc Hl Ha). cbn.
      split; [discriminate|]. exists n. split; [|now left].
      unfold attemptsOf. rewrite Hc. cbn. now rewrite Hn. }
  destruct (matchPassword env password (C.password (C.account c))) eqn:Hm.
  - left. rewrite (login_right_password req now w email password c
                     He Hp Hc Hl Ha Hm). cbn [fst snd].
    split; [reflexivity|]. unfold attemptsOf. cbn [candidates].
    destruct (N.ltb 0 (C.loginAttempts (C.account c))) eqn:Hpos.
    + rewrite (findOneByEmail_updateAccount _ email).
      rewrite (findOneByEmail_updated_self _ _ _ _ Hc). cbn.
      now rewrite N.eqb_refl.
    + rewrite (findOneByEmail_updated_self _ _ _ _ Hc). cbn.
      apply N.ltb_ge in Hpos. f_equal. lia.
  - right. rewrite (login_wrong_password req now w email password c
                      He Hp Hc Hl Ha Hm). cbn [fst snd code failure].
    split; [discriminate|]. exists (n + 1). split; [|now right].
    unfold attemptsOf. cbn [candidates].
    rewrite (findOneByEmail_updated_self _ _ _ _ Hc). cbn. now rewrite Hn.
Qed.

(** Over a run of requests for one email in which none succeeds the
    counter never goes down. *)
Lemma loginRun_monotone (email : string) :
  forall (reqs : list (LoginRequest * Date)) (w : World) (n : N),
    (forall r, In r reqs -> nonEmpty (lr_email (fst r)) = Some email) ->
    attemptsOf w email = Some n ->
    (forall r, In r (fst (loginRun env reqs w)) -> code r <> 200) ->
    exists n', attemptsOf (snd (loginRun env reqs w)) email = Some n' /\ n <= n'.
Proof.
  induction reqs as [|[req now] reqs IH]; intros w n Hall Hn Hno.
  - exists n. split; [exact Hn | lia].
  - cbn [loginRun] in *.
    destruct (loginCandidate env req now w) as [r w1] eqn:E1.
    destruct (loginRun env reqs w1) as [rs w2] eqn:E2.
    cbn [fst snd] in *.
    assert (Hr : code r <> 200) by (apply Hno; now left).
    destruct (login_step_monotone req now w email n
                (Hall (req, now) (or_introl eq_refl)) Hn) as [[H _] | [_ H]];
      rewrite E1 in H; cbn [fst snd] in H; [contradiction|].
    destruct H as (n1 & Hn1 & Hstep).
    destruct (IH w1 n1) as (n2 & Hn2 & Hle).
    + intros r0 Hin. apply Hall. now right.
    + exact Hn1.
    + rewrite E2. cbn [fst]. intros r0 Hin. apply Hno. now right.
    + rewrite E2 in Hn2. cbn [snd] in Hn2. exists n2. split; [exact Hn2|].
      destruct Hstep; lia.
Qed.

(** C6. For a login request whose candidate is found, unlocked and
    active: a failed password match is answered 401 'Invalid credentials'
    and raises the stored loginAttempts by one; a successful match leaves
    the stored loginAttempts at 0 and records lastLogin as the current
    time. Hence over any run of requests for that email in which none
    succeeds, loginAttempts never goes down. *)
Theorem login_counts_failed_attempts
    (req : LoginRequest) (now : Date) (w : World)
    (email password : string) (c : C.Candidate) :
  nonEmpty (lr_email req) = Some email ->
  nonEmpty (lr_password req) = Some password ->
  C.findOneByEmail (candidates w) email = Some c ->
  C.isLocked now c = false ->
  C.isActive (C.account c) = true ->
  (matchPassword env password (C.password (C.account c)) = false ->
     fst (loginCandidate env req now w) = failure 401 "Invalid credentials"
     /\ attemptsOf (snd (loginCandidate env req now w)) email
        = Some (C.loginAttempts (C.account c) + 1))
  /\ (matchPassword env password (C.password (C.account c)) = true ->
        code (fst (loginCandidate env req now w)) = 200
        /\ exists c',
             C.findOneByEmail (candidates (snd (loginCandidate env req now w))) email
             = Some c'
             /\ C.loginAttempts (C.account c') = 0
             /\ C.lastLogin (C.account c') = Some now)
  /\ (forall reqs : list (LoginRequest * Date),
        (forall r, In r reqs -> nonEmpty (lr_email (fst r)) = Some email) ->
        (forall r, In r (fst (loginRun env reqs w)) -> code r <> 200) ->
        exists n,
          attemptsOf (snd (loginRun env reqs w)) email = Some n
          /\ C.loginAttempts (C.account c) <= n).
Proof.
  intros He Hp Hc Hl Ha.
  split; [|split].
  - intro Hm.
    rewrite (login_wrong_password req now w email password c He Hp Hc Hl Ha Hm).
    cbn [fst snd]. split; [reflexivity|].
    unfold attemptsOf. cbn [candidates].
    now rewrite (findOneByEmail_updated_self _ _ _ _ Hc).
  - intro Hm.
    rewrite (login_right_password req now w email password c
               He Hp Hc Hl Ha Hm). cbn [fst snd].
    split; [reflexivity|]. cbn [candidates].
    destruct (N.ltb 0 (C.loginAttempts (C.account c))) eqn:Hpos.
    + rewrite (findOneByEmail_updateAccount _ email).
      rewrite (findOneByEmail_updated_self _ _ _ _ Hc). cbn.
      rewrite N.eqb_refl. eexists. split; [reflexivity|]. split; reflexivity.
    + rewrite (findOneByEmail_updated_self _ _ _ _ Hc).
      eexists. split; [reflexivity|]. cbn. split; [|reflexivity].
      apply N.ltb_ge in Hpos. lia.
  - intros reqs Hall Hno.
    apply (loginRun_monotone email reqs w (C.loginAttempts (C.account c)) Hall);
      [|exact Hno].
    unfold attemptsOf. now rewrite Hc.
Qed.

End Login.

Lemma login_locked_before_password_witness :
  loginCandidate Samples.env0 (Samples.loginBob "s3cret") 20000 Samples.worldLocked
  = (failure 423
       "Account is temporarily locked due to too many failed login attempts",
     Samples.worldLocked).
Proof.
  apply (login_locked_before_password Samples.env0 (Samples.loginBob "s3cret")
           20000 Samples.worldLocked "b@x.com" "s3cret" Samples.bobLocked
           eq_refl eq_refl eq_refl).
  reflexivity.
Defined.

Lemma login_counts_failed_attempts_witness :
  fst (loginCandidate Samples.env0 (Samples.loginBob "guess") 20000 Samples.world0)
  = failure 401 "Invalid credentials"
  /\ attemptsOf
       (snd (loginCandidate Samples.env0 (Samples.loginBob "guess") 20000
               Samples.world0)) "b@x.com"
     = Some 3.
Proof.
  destruct (login_counts_failed_attempts Samples.env0 (Samples.loginBob "guess")
              20000 Samples.world0 "b@x.com" "guess" Samples.bob
              eq_refl eq_refl eq_refl eq_refl eq_refl) as (Hwrong & _).
  exact (Hwrong eq_refl).
Defined.

(** Spec 8, with lock threshold 5: five consecutive wrong passwords are
    each answered 401, the sixth request, even with the right password, is
    answered 423, and the stored counter stands at 5. *)
Example lock_after_five_failures :
  let run := loginRun Samples.env0
               [ (Samples.loginCarol "a", 1000); (Samples.loginCarol "b", 2000);
                 (Samples.loginCarol "c", 3000); (Samples.loginCarol "d", 4000);
                 (Samples.loginCarol "e", 5000);
                 (Samples.loginCarol "pa55word", 6000) ]
               Samples.world0 in
  map code (fst run) = [401; 401; 401; 401; 401; 423]
  /\ attemptsOf (snd run) "c@x.com" = Some 5.
Proof. vm_compute. split; reflexivity. Qed.

Lemma find_In_Some {X : Type} (p : X -> bool) (l : list X) (x : X) :
  In x l -> p x = true -> exists y, find p l = Some y.
Proof.
  intros Hin Hp. destruct (find p l) as [y|] eqn:E.
  - now exists y.
  - rewrite (find_none p l E x Hin) in Hp. discriminate.
Qed.

(** Enter [applyToJob] past the job query, the deadline test and the
    candidate query, whose outcomes are given. *)
Ltac enter_apply Hj Hd Hc :=
  unfold applyToJob, tryCatch; unfold bind at 1; unfold get at 1;
  rewrite Hj, Hd, Hc; unfold bind, ret, get.

Section Apply.

Variable env : Collaborators.



(** X3. Where the job allows multiple applications the guard lets a second
    application of the same candidate through, and the unique index on
    (jobDescriptionId, candidateId) then refuses it: the request is
    answered 500 and nothing is stored. *)
Theorem apply_again_hits_unique_index
    (req : ApplyRequest) (now : Date) (w : World)
    (job : J.JobDescription) (c : C.Candidate) (a : A.Application) :
  findJob env (jobs w) (ar_jobId req) = Some (Some job) ->
  J.isDeadlinePassed now job = false ->
  C.findOneByEmail (candidates w)
    (C.email (cd_personalInfo (ar_candidateData req))) = Some c ->
  In a (applications w) ->
  A.jobDescriptionId a = J._id job ->
  A.candidateId a = C._id c ->
  J.allowMultipleApplications job = true ->
  A.validFields (ar_coverLetter req) (ar_customAnswers req) = true ->
  applyToJob env req now w
  = ({| code := 500; success := false;
        message := "Error submitting application"; data := None;
        error := Some "E11000 duplicate key"%string |}, w).
Proof.
  intros Hj Hd Hc Hin Haj Hac Hm Hv.
  destruct (find_In_Some
              (fun x => N.eqb (A.jobDescriptionId x) (J._id job)
                        && N.eqb (A.candidateId x) (C._id c))
              (applications w) a Hin) as (a' & Hf).
  { rewrite Haj, Hac, !N.eqb_refl. reflexivity. }
  enter_apply Hj Hd Hc.
  unfold findApplication at 1. rewrite Hf, Hm.
  unfold createApplication, A.validNew.
  cbn [A.na_coverLetter A.na_customAnswers A.na_jobDescriptionId A.na_candidateId].
  rewrite Hv. cbn [negb]. unfold findApplication. rewrite Hf. reflexivity.
Qed.

(** A new document passes the pre-save hook untouched. *)
Lemma created_fields (oid : ObjectId) (now : Date) (x : A.NewApplication) :
  A.fields (A.save now (A.construct oid now x)) =
  {| A._id := oid;
     A.jobDescriptionId := A.na_jobDescriptionId x;
     A.candidateId := A.na_candidateId x;
     A.status := A.na_status x;
     A.appliedAt := now;
     A.coverLetter := A.na_coverLetter x;
     A.customAnswers := A.na_customAnswers x;
     A.documents := A.na_documents x;
     A.interviews := [];
     A.timeline := [];
     A.communication := [] |}.
Proof. reflexivity. Qed.

(** The application [applyToJob] stores for a candidate. *)
Local Abbreviation stored req now job cid oid :=
  {| A._id := oid;
     A.jobDescriptionId := J._id job;
     A.candidateId := cid;
     A.status := A.submitted;
     A.appliedAt := now;
     A.coverLetter := ar_coverLetter req;
     A.customAnswers := ar_customAnswers req;
     A.documents := ar_documents req;
     A.interviews := [];
     A.timeline := [];
     A.communication := [] |}.

(** The candidate [applyToJob] creates for an unknown email. *)
Local Abbreviation provisioned req oid :=
  {| C._id := oid;
     C.personalInfo := cd_personalInfo (ar_candidateData req);
     C.account :=
       {| C.password :=
            hashPassword env
              match nonEmpty (cd_password (ar_candidateData req)) with
              | Some p => p
              | None => "TempPassword123!"%string
              end;
          C.isActive := true;
          C.isEmailVerified := false;
          C.loginAttempts := 0;
          C.lockUntil := None;
          C.lastLogin := None |} |}.

(** The answer once the application is stored and the counter raised. *)
Local Abbreviation answer req now job cand app w1 :=
  (if sendEmail env (confirmationEmail env req now job cand app)
   then (successful 201 "Application submitted successfully"
           (ApplyData (A._id app) A.submitted now (C._id cand)
              (fullName env (C.personalInfo cand))
              (C.email (C.personalInfo cand))),
         addEvent (EmailSent (confirmationEmail env req now job cand app)) w1)
   else ({| code := 500; success := false;
            message := "Error submitting application";
            data := None; error := Some "sendEmail failed"%string |}, w1)).



Lemma findOneByEmail_appended
    (l : list C.Candidate) (c : C.Candidate) (e : string) :
  C.findOneByEmail l e = None ->
  C.email (C.personalInfo c) = e ->
  C.findOneByEmail (l ++ [c]) e = Some c.
Proof.
  unfold C.findOneByEmail. intros Hn He.
  induction l as [|x l IH]; cbn [app find] in *.
  - now rewrite He, String.eqb_refl.
  - destruct (String.eqb (C.email (C.personalInfo x)) e); [discriminate|].
    now apply IH.
Qed.



End Apply.



Lemma apply_again_hits_unique_index_witness :
  code (fst (applyToJob Samples.env0 Samples.applyBobToJ2 6000 Samples.world2)) = 500
  /\ snd (applyToJob Samples.env0 Samples.applyBobToJ2 6000 Samples.world2)
     = Samples.world2.
Proof.
  rewrite (apply_again_hits_unique_index Samples.env0 Samples.applyBobToJ2 6000
             Samples.world2 Samples.job2 Samples.bob Samples.bobsApplicationToJ2
             eq_refl eq_refl eq_refl (or_introl eq_refl)
             eq_refl eq_refl eq_refl eq_refl).
  split; reflexivity.
Defined.




End ControllerFacts.

(* ================================================================== *)
(** * More on the application model *)

Module ApplicationMoreFacts.

Import ApplicationModel ApplicationStatics ApplicationCalls.
Local Open Scope list_scope.

(** X4. [daysSinceApplication] is the number of whole days between the
    application and now: it is 0 during the first 24 hours, never negative
    for an application made in the past, and negative for one dated in the
    future. *)
Theorem daysSinceApplication_bounds (now : Date) (a : Application) :
  let days := daysSinceApplication now a in
  let diff := (Z.of_N now - Z.of_N (appliedAt a))%Z in
  (days * 86400000 <= diff < (days + 1) * 86400000)%Z
  /\ ((appliedAt a <= now)%N <-> (0 <= days)%Z)
  /\ ((0 <= diff < 86400000)%Z <-> days = 0%Z).
Proof.
  cbv zeta. unfold daysSinceApplication.
  change (1000 * 60 * 60 * 24)%Z with 86400000%Z.
  set (diff := (Z.of_N now - Z.of_N (appliedAt a))%Z).
  assert (Hdiv := Z.div_mod diff 86400000 ltac:(lia)).
  assert (Hmod := Z.mod_pos_bound diff 86400000 ltac:(lia)).
  split; [lia|]. split.
  - split; intro H.
    + apply Z.div_pos; lia.
    + assert (0 <= diff)%Z by nia. lia.
  - split; intro H.
    + apply Z.div_small. exact H.
    + rewrite H in Hdiv. lia.
Qed.

(** The count a list of groups gives for a status; 0 when it has no
    group. *)
Local Abbreviation countIn s groups :=
  (match find (fun g => Status_eqb s (fst g)) groups with
   | Some g => snd g
   | None => 0%N
   end).

Lemma Status_eqb_sym (a b : Status) : Status_eqb a b = Status_eqb b a.
Proof. unfold Status_eqb. apply String.eqb_sym. Qed.

Lemma bump_count (s s0 : Status) (groups : list (Status * N)) :
  countIn s0 (bump s groups)
  = (countIn s0 groups + if Status_eqb s s0 then 1 else 0)%N.
Proof.
  induction groups as [|[s' n] rest IH]; cbn [bump find fst snd].
  - rewrite (Status_eqb_sym s0 s). destruct (Status_eqb s s0); reflexivity.
  - destruct (Status_eqb s s') eqn:E; cbn [find fst snd].
    + apply ApplicationFacts.Status_eqb_eq in E. subst s'.
      rewrite (Status_eqb_sym s0 s). destruct (Status_eqb s s0); cbn [snd]; lia.
    + destruct (Status_eqb s0 s') eqn:E0; [|exact IH].
      apply ApplicationFacts.Status_eqb_eq in E0. subst s'.
      rewrite E. cbn [snd]. lia.
Qed.

Lemma bump_sum (s : Status) (groups : list (Status * N)) :
  fold_right N.add 0%N (map snd (bump s groups))
  = (fold_right N.add 0%N (map snd groups) + 1)%N.
Proof.
  induction groups as [|[s' n] rest IH]; cbn [bump map snd fold_right].
  - reflexivity.
  - destruct (Status_eqb s s'); cbn [map snd fold_right]; lia.
Qed.

Lemma groupByStatus_sum (l : list Application) (groups : list (Status * N)) :
  fold_right N.add 0%N
    (map snd (fold_left (fun g a => bump (status a) g) l groups))
  = (fold_right N.add 0%N (map snd groups) + N.of_nat (length l))%N.
Proof.
  revert groups. induction l as [|a l IH]; intro groups; cbn [fold_left length].
  - lia.
  - rewrite IH, bump_sum. lia.
Qed.

(** Groups are well formed: one group per status, none of them empty. *)
Local Abbreviation groupsOk groups :=
  (NoDup (map fst groups) /\ forall g, In g groups -> (0 < snd g)%N).

Lemma bump_fst_In (s s0 : Status) (groups : list (Status * N)) :
  In s0 (map fst (bump s groups)) -> s0 = s \/ In s0 (map fst groups).
Proof.
  induction groups as [|[s' n] rest IH]; cbn [bump map fst In].
  - intros [H|[]]. now left.
  - destruct (Status_eqb s s'); cbn [map fst In].
    + intros [H|H]; right; [now left | now right].
    + intros [H|H]; [right; now left|].
      destruct (IH H); [now left | right; now right].
Qed.

Lemma bump_ok (s : Status) (groups : list (Status * N)) :
  groupsOk groups -> groupsOk (bump s groups).
Proof.
  induction groups as [|[s' n] rest IH]; intros [Hnd Hpos]; cbn [bump].
  - split.
    + cbn. constructor; [intros [] | constructor].
    + intros g [<-|[]]. cbn. lia.
  - destruct (Status_eqb s s') eqn:E.
    + split; [exact Hnd|].
      intros g [<-|Hin]; [cbn; lia | apply Hpos; now right].
    + cbn [map fst] in Hnd. inversion Hnd as [|x xs Hnotin Hnd']; subst.
      destruct IH as [IH1 IH2].
      { split; [exact Hnd'|]. intros g Hg. apply Hpos. now right. }
      split.
      * cbn [map fst]. constructor; [|exact IH1].
        intro Hin. apply bump_fst_In in Hin. destruct Hin as [->|Hin].
        -- rewrite ApplicationFacts.Status_eqb_refl in E. discriminate.
        -- contradiction.
      * intros g [<-|Hin]; [apply Hpos; now left | now apply IH2].
Qed.

Lemma groupByStatus_from (l : list Application) (groups : list (Status * N)) :
  groupsOk groups ->
  groupsOk (fold_left (fun g a => bump (status a) g) l groups)
  /\ forall s,
       countIn s (fold_left (fun g a => bump (status a) g) l groups)
       = (countIn s groups + countStatus s l)%N.
Proof.
  revert groups. induction l as [|a l IH]; intros groups Hok; cbn [fold_left].
  - split; [exact Hok|]. intro s. unfold countStatus. cbn. lia.
  - destruct (IH (bump (status a) groups) (bump_ok _ _ Hok)) as [H1 H2].
    split; [exact H1|]. intro s. rewrite H2, bump_count.
    unfold countStatus. cbn [filter].
    destruct (Status_eqb (status a) s); cbn [length]; lia.
Qed.

Lemma countIn_In (groups : list (Status * N)) (s : Status) (n : N) :
  groupsOk groups ->
  (In (s, n) groups <-> countIn s groups = n /\ (0 < n)%N).
Proof.
  induction groups as [|[s' m] rest IH]; intros [Hnd Hpos]; cbn [find fst snd].
  - split; [intros [] | intros [<- H]; lia].
  - cbn [map fst] in Hnd. inversion Hnd as [|x xs Hnotin Hnd']; subst.
    assert (Hrest : groupsOk rest).
    { split; [exact Hnd'|]. intros g Hg. apply Hpos. now right. }
    destruct (Status_eqb s s') eqn:E.
    + apply ApplicationFacts.Status_eqb_eq in E. subst s'. cbn [snd]. split.
      * intros [[= <-]|Hin].
        -- split; [reflexivity|]. apply (Hpos (s, m)). now left.
        -- exfalso. apply Hnotin. apply (in_map fst) in Hin. exact Hin.
      * intros [<- _]. now left.
    + rewrite <- (IH Hrest). split.
      * intros [[= <- <-]|Hin]; [|exact Hin].
        rewrite ApplicationFacts.Status_eqb_refl in E. discriminate.
      * intro Hin. now right.
Qed.

Section Statistics.

Variable castObjectId : string -> option ObjectId.

(** X5. When the job reference is accepted, [getStatistics] returns one
    group per status that occurs among the applications of that job, with
    the number of those applications as its count; statuses that do not
    occur get no group, so the counts add up to the number of applications
    of the job. *)
Theorem getStatistics_counts
    (l : list Application) (ref : string) (j : ObjectId) :
  castObjectId ref = Some j ->
  exists groups,
    getStatistics castObjectId l ref = Some groups
    /\ NoDup (map fst groups)
    /\ (forall s n,
          In (s, n) groups
          <-> n = countStatus s (filter (fun a => N.eqb (jobDescriptionId a) j) l)
              /\ (0 < n)%N)
    /\ fold_right N.add 0%N (map snd groups)
       = N.of_nat (length (filter (fun a => N.eqb (jobDescriptionId a) j) l)).
Proof.
  intro Hc. unfold getStatistics. rewrite Hc.
  set (mine := filter (fun a => N.eqb (jobDescriptionId a) j) l).
  eexists. split; [reflexivity|].
  destruct (groupByStatus_from mine []) as [Hok Hcount].
  { split; [constructor | intros g []]. }
  fold (groupByStatus mine) in Hok, Hcount.
  split; [apply Hok|]. split.
  - intros s n. rewrite (countIn_In _ s n Hok), Hcount. cbn [find].
    rewrite N.add_0_l. split; intros [H1 H2]; split; congruence.
  - unfold groupByStatus. now rewrite groupByStatus_sum.
Qed.

End Statistics.

Lemma getStatistics_counts_witness :
  exists groups,
    getStatistics MoreSamples.castObjectId MoreSamples.pool "J1" = Some groups
    /\ In (under_review, 2%N) groups /\ In (rejected, 1%N) groups
    /\ length groups = 2.
Proof.
  destruct (getStatistics_counts MoreSamples.castObjectId MoreSamples.pool
              "J1" 10%N eq_refl) as (groups & Hg & _ & Hin & _).
  exists groups. split; [exact Hg|].
  split; [apply Hin; split; [reflexivity | reflexivity]|].
  split; [apply Hin; split; [reflexivity | reflexivity]|].
  cbv in Hg. injection Hg as <-. reflexivity.
Defined.


Section Runs.

Variable dateString : Date -> string.

(** What one call does to the document. *)
Lemma call_effect (now : Date) (d : Doc) (c : Call) :
  (exists t, timeline (fields (call dateString now d c)) = timeline (fields d) ++ t
             /\ 1 <= length t <= 2)
  /\ interviews (fields (call dateString now d c))
     = interviews (fields d) ++ scheduled [(c, now)]
  /\ communication (fields (call dateString now d c))
     = communication (fields d) ++ communicated [(c, now)]
  /\ identity (fields (call dateString now d c)) = identity (fields d).
Proof.
  destruct d as [a n m].
  destruct c as [s who nt | x | x]; cbn [call scheduled communicated];
    unfold updateStatus, scheduleInterview, addCommunication, save, preSave;
    destruct n, m;
    cbn -[String.append Status_eqb statusString];
    repeat match goal with
           | |- context [if ?b then _ else _] =>
               destruct b; cbn -[String.append Status_eqb statusString]
           end;
    rewrite <- ?app_assoc, ?app_nil_r;
    (split; [eexists; split; [reflexivity | cbn [length app]; lia]|]);
    repeat split.
Qed.

Lemma calls_cons (c : Call) (now : Date) (cs : list (Call * Date)) (d : Doc) :
  calls dateString ((c, now) :: cs) d
  = calls dateString cs (call dateString now d c).
Proof. reflexivity. Qed.

Lemma scheduled_cons (c : Call * Date) (cs : list (Call * Date)) :
  scheduled (c :: cs) = scheduled [c] ++ scheduled cs.
Proof. destruct c as [[s who nt | x | x] now]; reflexivity. Qed.

Lemma communicated_cons (c : Call * Date) (cs : list (Call * Date)) :
  communicated (c :: cs) = communicated [c] ++ communicated cs.
Proof. destruct c as [[s who nt | x | x] now]; reflexivity. Qed.

(** X6. Whatever sequence of [updateStatus], [scheduleInterview] and
    [addCommunication] calls is made on a document, its history only
    grows: the old timeline stays as a prefix and every call adds one or
    two entries; the interviews and the communications are the old ones
    followed by exactly those scheduled and added, in call order; and the
    ids, the application date, the cover letter, the answers and the
    documents are never written. *)
Theorem calls_append_only (cs : list (Call * Date)) (d : Doc) :
  let d' := calls dateString cs d in
  (exists t, timeline (fields d') = timeline (fields d) ++ t
             /\ length cs <= length t <= 2 * length cs)
  /\ interviews (fields d') = interviews (fields d) ++ scheduled cs
  /\ communication (fields d') = communication (fields d) ++ communicated cs
  /\ identity (fields d') = identity (fields d).
Proof.
  cbv zeta. revert d. induction cs as [|[c now] cs IH]; intro d.
  - cbn [calls fold_left scheduled communicated length].
    rewrite !app_nil_r.
    split; [exists []; rewrite app_nil_r; split; [reflexivity | cbn; lia]|].
    repeat split.
  - rewrite calls_cons.
    destruct (IH (call dateString now d c)) as ((t2 & Ht2 & Hl2) & Hi & Hc & Hid).
    destruct (call_effect now d c) as ((t1 & Ht1 & Hl1) & Hi1 & Hc1 & Hid1).
    split; [|split; [|split]].
    + exists (t1 ++ t2). rewrite Ht2, Ht1, <- app_assoc.
      split; [reflexivity|]. rewrite length_app. cbn [length]. lia.
    + rewrite Hi, Hi1, <- app_assoc. now rewrite <- scheduled_cons.
    + rewrite Hc, Hc1, <- app_assoc. now rewrite <- communicated_cons.
    + now rewrite Hid, Hid1.
Qed.

(** What one call other than [updateStatus] does to the status. *)
Lemma call_status (now : Date) (d : Doc) (c : Call) :
  isUpdate (c, now) = false ->
  status (fields (call dateString now d c))
  = if isSchedule (c, now)
       && (Status_eqb (status (fields d)) submitted
           || Status_eqb (status (fields d)) under_review)
    then interview_scheduled else status (fields d).
Proof.
  destruct c as [s who nt | x | x]; cbn [isUpdate isSchedule fst call];
    [discriminate| |]; intros _.
  - rewrite ApplicationFacts.scheduleInterview_status.
    destruct (status (fields d)); reflexivity.
  - apply ApplicationFacts.addCommunication_status.
Qed.

(** X7. Over a sequence of calls that contains no [updateStatus], the
    status ends as [interview_scheduled] when it started as [submitted] or
    [under_review] and an interview was scheduled, and ends as it started
    in every other case: scheduling and communicating never move an
    application out of a later state. *)
Theorem calls_without_update (cs : list (Call * Date)) (d : Doc) :
  existsb isUpdate cs = false ->
  status (fields (calls dateString cs d))
  = if existsb isSchedule cs
       && (Status_eqb (status (fields d)) submitted
           || Status_eqb (status (fields d)) under_review)
    then interview_scheduled else status (fields d).
Proof.
  revert d. induction cs as [|[c now] cs IH]; intros d H.
  - reflexivity.
  - cbn [existsb] in H. apply orb_false_iff in H. destruct H as [Hc Hcs].
    rewrite calls_cons.
    rewrite (IH _ Hcs), (call_status now d c Hc). cbn [existsb].
    destruct (isSchedule (c, now)); destruct (existsb isSchedule cs);
      destruct (status (fields d)); reflexivity.
Qed.

End Runs.

Lemma calls_without_update_witness :
  status (fields (calls Samples.showDate MoreSamples.laterCalls
                    (loaded Samples.app_interviewed)))
  = interviewed.
Proof.
  rewrite (calls_without_update Samples.showDate MoreSamples.laterCalls
             (loaded Samples.app_interviewed) eq_refl).
  reflexivity.
Defined.

(** X8. A status assigned directly to a stored application and saved is
    logged by the pre-save hook exactly when it differs from the stored
    status, as one entry naming the new status and no previous status; a
    document that was never saved is not logged at all. *)
Theorem save_logs_direct_assignment (now : Date) (a : Application) (s : Status) :
  timeline (fields (save now (assignStatus (loaded a) s)))
  = timeline a
    ++ (if Status_eqb (status a) s then []
        else [ {| action := "Status changed to " ++ statusString s;
                  performedBy := None; performedAt := now; notes := None;
                  previousStatus := None; newStatus := Some s |} ])
  /\ (forall x : NewApplication,
        timeline (fields (save now (assignStatus (construct (_id a) now x) s)))
        = []).
Proof.
  split.
  - unfold save. cbn [fields]. rewrite ApplicationFacts.preSave_timeline.
    cbn [assignStatus loaded fields isNew statusModified set_status timeline
         status orb negb andb].
    destruct (Status_eqb (status a) s); cbn [negb andb]; reflexivity.
  - intro x. reflexivity.
Qed.

End ApplicationMoreFacts.

(* ================================================================== *)
(** * More on the auth middleware *)

Module AuthMoreFacts.

Import Auth Authz.

Lemma split_noSpace (t : string) :
  noSpace t = true -> split " "%char t = [t].
Proof.
  induction t as [|c r IH]; [reflexivity|].
  cbn [noSpace split]. intro H. apply andb_true_iff in H. destruct H as [Hc Hr].
  apply negb_true_iff in Hc. rewrite Hc, (IH Hr). reflexivity.
Qed.

Lemma split_first (a r : string) :
  noSpace a = true ->
  split " "%char (a ++ String " "%char r) = a :: split " "%char r.
Proof.
  induction a as [|c a IH]; cbn [noSpace String.append split].
  - intros _. reflexivity.
  - intro H. apply andb_true_iff in H. destruct H as [Hc Ha].
    apply negb_true_iff in Hc. rewrite Hc, (IH Ha). reflexivity.
Qed.

Lemma prefix_append (p s : string) : String.prefix p (p ++ s) = true.
Proof.
  induction p as [|c p IH]; cbn [String.append String.prefix].
  - now destruct s.
  - destruct (ascii_dec c c); [exact IH | contradiction].
Qed.

Lemma noSpace_append (a b : string) :
  noSpace (a ++ b) = noSpace a && noSpace b.
Proof.
  induction a as [|c a IH]; cbn [String.append noSpace]; [reflexivity|].
  now rewrite IH, andb_assoc.
Qed.

(** X9. The token read from the Authorization header is the text between
    the first and the second blank, provided the header starts with
    'Bearer': the scheme is tested by prefix only (so 'BearerX abc' gives
    'abc'), and anything after a second blank is dropped. *)
Theorem extractToken_between_blanks
    (a t rest : string) (tenantHeader : option string) :
  noSpace a = true ->
  noSpace t = true ->
  extractToken {| authorization := Some ("Bearer" ++ a ++ " " ++ t);
                  x_tenant_id := tenantHeader |} = Some t
  /\ extractToken {| authorization := Some ("Bearer" ++ a ++ " " ++ t ++ " " ++ rest);
                     x_tenant_id := tenantHeader |} = Some t.
Proof.
  intros Ha Ht.
  assert (Hs : noSpace ("Bearer" ++ a) = true)
    by (rewrite noSpace_append, Ha; reflexivity).
  split; unfold extractToken; cbn [authorization].
  - replace ("Bearer" ++ a ++ " " ++ t)%string
      with (("Bearer" ++ a) ++ String " "%char t)%string by reflexivity.
    rewrite (split_first _ _ Hs), (split_noSpace _ Ht).
    replace (("Bearer" ++ a) ++ String " "%char t)%string
      with ("Bearer" ++ (a ++ String " "%char t))%string by reflexivity.
    rewrite prefix_append. reflexivity.
  - replace ("Bearer" ++ a ++ " " ++ t ++ " " ++ rest)%string
      with (("Bearer" ++ a) ++ String " "%char (t ++ String " "%char rest))%string
      by reflexivity.
    rewrite (split_first _ _ Hs), (split_first _ _ Ht).
    replace (("Bearer" ++ a) ++ String " "%char (t ++ String " "%char rest))%string
      with ("Bearer" ++ (a ++ String " "%char (t ++ String " "%char rest)))%string
      by reflexivity.
    rewrite prefix_append. reflexivity.
Qed.

Lemma extractToken_between_blanks_witness :
  extractToken {| authorization := Some "BearerX abc.def.ghi trailing words";
                  x_tenant_id := None |} = Some "abc.def.ghi"%string.
Proof.
  exact (proj2 (extractToken_between_blanks "X" "abc.def.ghi" "trailing words"
                  None eq_refl eq_refl)).
Defined.

Lemma includes_true (l : list string) (v : option string) :
  includes l v = true <-> exists x, v = Some x /\ In x l.
Proof.
  destruct v as [x|]; cbn [includes].
  - rewrite existsb_exists. split.
    + intros (y & Hin & He). apply String.eqb_eq in He. subst. now exists y.
    + intros (y & [= <-] & Hin). exists x. split; [exact Hin|].
      apply String.eqb_refl.
  - split; [discriminate | intros (x & H & _); discriminate].
Qed.

Section Gate.

Variable Connection : Type.
Variable jwtVerify : string -> option Claims.
Variable getMasterConnection : Connection.
Variable getTenantDB : string -> option Connection.
Variable findById : Connection -> ModelKind -> ObjectId -> option Identity.

Local Abbreviation protect :=
  (Auth.protect Connection jwtVerify getMasterConnection getTenantDB findById).

(** The identity of a passing request is a stored record, projected. *)
Lemma protect_loaded (req : Request) (ctx : Context Connection) :
  protect req = Next ctx ->
  exists model oid stored,
    findById (db ctx) model oid = Some stored
    /\ user ctx = selectWithoutPasswords stored.
Proof.
  intro H. apply AuthFacts.protect_next_inv in H.
  destruct H as (token & decoded & b & _ & _ & _ & Hl & _ & Hd & _).
  unfold load in Hl. destruct (id decoded) as [oid|]; [|discriminate].
  destruct (findById (b_db b) (b_model b) oid) as [stored|] eqn:Hf;
    [|discriminate].
  cbn [option_map] in Hl. injection Hl as Hu.
  exists (b_model b), oid, stored. rewrite Hd. split; [exact Hf | now symmetry].
Qed.

(** X10. The identity [protect] attaches to a request is the stored record
    found under the id of the token, with its password and its account
    password removed and everything else as stored; a credential never
    reaches the handlers. *)
Theorem protect_strips_credentials (req : Request) (ctx : Context Connection) :
  protect req = Next ctx ->
  password (user ctx) = None
  /\ (forall a, account (user ctx) = Some a -> acc_password a = None)
  /\ exists model oid stored,
       findById (db ctx) model oid = Some stored
       /\ ident_id (user ctx) = ident_id stored
       /\ ident_role (user ctx) = ident_role stored
       /\ isActive (user ctx) = isActive stored
       /\ option_map acc_isActive (account (user ctx))
          = option_map acc_isActive (account stored).
Proof.
  intro H. destruct (protect_loaded req ctx H) as (model & oid & stored & Hf & Hu).
  rewrite Hu.
  split; [reflexivity|]. split.
  - cbn [selectWithoutPasswords account]. intros a Ha.
    destruct (account stored); [|discriminate]. now injection Ha as <-.
  - exists model, oid, stored.
    split; [exact Hf|].
    cbn [selectWithoutPasswords ident_id ident_role isActive account].
    repeat split. destruct (account stored); reflexivity.
Qed.

(** X11. [protect] rejects with 401 in every case but one, the missing
    tenant key, which is answered 400; and a token that carries no id is
    never let through. *)
Theorem protect_rejections (req : Request) :
  (forall c m, protect req = Respond c m ->
     c = 401%N
     \/ (c = 400%N /\ m = "Tenant is required for this user type"))
  /\ (forall token decoded ctx,
        extractToken req = Some token ->
        jwtVerify token = Some decoded ->
        id decoded = None ->
        protect req <> Next ctx).
Proof.
  split.
  - intros c m. unfold Auth.protect.
    destruct (extractToken req) as [token|]; [|intros [= <- <-]; now left].
    destruct (negb (truthyStr (Some token))); [intros [= <- <-]; now left|].
    destruct (jwtVerify token) as [decoded|]; [|intros [= <- <-]; now left].
    destruct (Auth.resolve _ _ _ decoded req) as [b|c' m'|] eqn:Hr;
      [| |intros [= <- <-]; now left].
    + destruct (load findById b (id decoded)) as [u|];
        [|intros [= <- <-]; now left].
      destruct (inactive u); [intros [= <- <-]; now left | discriminate].
    + intros [= <- <-]. right. unfold Auth.resolve in Hr.
      destruct (isStr (role decoded) "super_admin"); [discriminate|].
      destruct (negb (truthyStr (orStr (tenant decoded) (x_tenant_id req))));
        [now injection Hr as <- <-|].
      destruct (orStr (tenant decoded) (x_tenant_id req)) as [t|];
        [|now injection Hr as <- <-].
      destruct (getTenantDB t); discriminate.
  - intros token decoded ctx Ht Hv Hid H.
    apply AuthFacts.protect_next_inv in H.
    destruct H as (token' & decoded' & b & Ht' & Hv' & _ & Hl & _).
    rewrite Ht in Ht'. injection Ht' as <-. rewrite Hv in Hv'.
    injection Hv' as <-. rewrite Hid in Hl. discriminate.
Qed.

(** X12. Behind [protect], [authorize(...allowedTypes)] goes by the type
    claim of the token whenever that is a non-empty string: the request
    passes exactly when that type is one of the allowed ones, whatever
    role the stored record has. Only for a token without type does the
    stored role decide. *)
Theorem authorize_after_protect
    (allowedTypes : list string) (req : Request) (ctx : Context Connection) :
  protect req = Next ctx ->
  exists token decoded,
    extractToken req = Some token
    /\ jwtVerify token = Some decoded
    /\ (truthyStr (type decoded) = true ->
          (authorize allowedTypes (Some ctx) = Pass
           <-> exists t, type decoded = Some t /\ In t allowedTypes))
    /\ (truthyStr (type decoded) = false ->
          (authorize allowedTypes (Some ctx) = Pass
           <-> exists r, ident_role (user ctx) = Some r /\ In r allowedTypes)).
Proof.
  intro H. apply AuthFacts.protect_next_inv in H.
  destruct H as (token & decoded & b & Ht & Hv & _ & _ & _ & _ & _ & Hty).
  exists token, decoded. split; [exact Ht|]. split; [exact Hv|].
  unfold authorize, orStr. rewrite Hty.
  split; intro Htr; rewrite Htr; rewrite <- includes_true;
    match goal with
    | |- context [includes ?l ?v] => destruct (includes l v)
    end; cbn [negb]; split; congruence.
Qed.

(** X13. Behind [protect], [superAdminOnly] lets a request pass exactly
    when the role stored in the identity record is 'super_admin'; neither
    the role claim of the token nor the database the request is bound to
    enters the decision. *)
Theorem superAdminOnly_after_protect (req : Request) (ctx : Context Connection) :
  protect req = Next ctx ->
  exists model oid stored,
    findById (db ctx) model oid = Some stored
    /\ (superAdminOnly (Some ctx) = Pass
        <-> ident_role stored = Some "super_admin"%string).
Proof.
  intro H. destruct (protect_loaded req ctx H) as (model & oid & stored & Hf & Hu).
  exists model, oid, stored. split; [exact Hf|].
  unfold superAdminOnly. rewrite Hu.
  cbn [selectWithoutPasswords ident_role]. rewrite <- AuthFacts.isStr_true.
  destruct (isStr (ident_role stored) "super_admin"); cbn [negb];
    split; congruence.
Qed.

End Gate.

Lemma protect_strips_credentials_witness :
  exists ctx,
    Samples.protect Samples.candidateRequest = Next ctx
    /\ password (user ctx) = None
    /\ option_map acc_password (account (user ctx)) = Some None.
Proof.
  eexists. split; [reflexivity|].
  destruct (protect_strips_credentials Samples.Conn Samples.jwtVerify
              Samples.master Samples.getTenantDB Samples.findById
              Samples.candidateRequest _ eq_refl) as (Hp & _).
  split; [exact Hp | reflexivity].
Defined.

Lemma authorize_after_protect_witness :
  exists ctx,
    Samples.protect Samples.candidateRequest = Next ctx
    /\ authorize ["candidate"%string] (Some ctx) = Pass.
Proof.
  eexists. split; [reflexivity|].
  destruct (authorize_after_protect Samples.Conn Samples.jwtVerify
              Samples.master Samples.getTenantDB Samples.findById
              ["candidate"%string] Samples.candidateRequest _ eq_refl)
    as (token & decoded & Ht & Hv & Hyes & _).
  cbv in Ht. injection Ht as <-. cbv in Hv. injection Hv as <-.
  apply Hyes; [reflexivity|].
  exists "candidate"%string. split; [reflexivity | now left].
Defined.

Lemma superAdminOnly_after_protect_witness :
  exists ctx,
    Samples.protect Samples.adminRequest = Next ctx
    /\ exists model oid stored,
         Samples.findById (db ctx) model oid = Some stored
         /\ (superAdminOnly (Some ctx) = Pass
             <-> ident_role stored = Some "super_admin"%string).
Proof.
  eexists. split; [reflexivity|].
  apply (superAdminOnly_after_protect Samples.Conn Samples.jwtVerify
           Samples.master Samples.getTenantDB Samples.findById
           Samples.adminRequest).
  reflexivity.
Defined.

(** A candidate token is turned away from a staff route with a message
    that names the token type. *)
Example authorize_denies_candidate :
  exists ctx,
    Samples.protect Samples.candidateRequest = Next ctx
    /\ authorize ["recruiter"; "admin"]%string (Some ctx)
       = Deny 403 "candidate is not allowed to access this route".
Proof. eexists. split; reflexivity. Qed.

End AuthMoreFacts.

(* ================================================================== *)
(** * More on the candidate controller *)

Module ControllerMoreFacts.

Import CandidateController CandidateControllerRest.
Local Open Scope list_scope.
Local Open Scope N_scope.

Section Login.

Variable env : Collaborators.

Lemma login_missing_fields (req : LoginRequest) (now : Date) (w : World) :
  nonEmpty (lr_email req) = None \/ nonEmpty (lr_password req) = None ->
  loginCandidate env req now w
  = (failure 400 "Please provide email and password", w).
Proof.
  intros [H|H]; unfold loginCandidate, tryCatch; rewrite H;
    destruct (nonEmpty (lr_email req)); reflexivity.
Qed.

Lemma login_unknown_email
    (req : LoginRequest) (now : Date) (w : World) (email password : string) :
  nonEmpty (lr_email req) = Some email ->
  nonEmpty (lr_password req) = Some password ->
  C.findOneByEmail (candidates w) email = None ->
  loginCandidate env req now w = (failure 401 "Invalid credentials", w).
Proof.
  intros He Hp Hc. unfold loginCandidate, tryCatch.
  rewrite He, Hp. unfold bind, get. rewrite Hc. reflexivity.
Qed.

(** X14. [loginCandidate] on its edge inputs: without an email or without
    a password (absent or empty) the answer is 400 and the store is not
    even read; for an unknown email the answer is 401 'Invalid
    credentials' with nothing changed, word for word the answer a wrong
    password gets. *)
Theorem login_edge_inputs (req : LoginRequest) (now : Date) (w : World) :
  (nonEmpty (lr_email req) = None \/ nonEmpty (lr_password req) = None ->
     loginCandidate env req now w
     = (failure 400 "Please provide email and password", w))
  /\ (forall email password,
        nonEmpty (lr_email req) = Some email ->
        nonEmpty (lr_password req) = Some password ->
        C.findOneByEmail (candidates w) email = None ->
        loginCandidate env req now w = (failure 401 "Invalid credentials", w))
  /\ (forall email password c,
        nonEmpty (lr_email req) = Some email ->
        nonEmpty (lr_password req) = Some password ->
        C.findOneByEmail (candidates w) email = Some c ->
        C.isLocked now c = false ->
        C.isActive (C.account c) = true ->
        matchPassword env password (C.password (C.account c)) = false ->
        fst (loginCandidate env req now w) = failure 401 "Invalid credentials").
Proof.
  split; [|split].
  - apply login_missing_fields.
  - intros email password. apply login_unknown_email.
  - intros email password c He Hp Hc Hl Ha Hm.
    now rewrite (ControllerFacts.login_wrong_password env req now w email
                   password c He Hp Hc Hl Ha Hm).
Qed.

Lemma credentials_updateAccount
    (i : ObjectId) (f : C.Account -> C.Account) (l : list C.Candidate) :
  (forall a, C.password (f a) = C.password a
             /\ C.isActive (f a) = C.isActive a
             /\ C.isEmailVerified (f a) = C.isEmailVerified a) ->
  map credentials (C.updateAccount i f l) = map credentials l.
Proof.
  intro Hf. unfold C.updateAccount. rewrite map_map. apply map_ext.
  intro c. destruct (N.eqb (C._id c) i); [|reflexivity].
  unfold credentials. cbn [C.withAccount C._id C.personalInfo C.account].
  destruct (Hf (C.account c)) as (-> & -> & ->). reflexivity.
Qed.

(** X15. Whatever the request, [loginCandidate] writes nothing but the
    login bookkeeping: jobs, applications and the id counter are as
    before, and the candidates are the same ones in the same order, each
    with its id, personal data, stored credential, active flag and email
    verification as before. *)
Theorem login_frame (req : LoginRequest) (now : Date) (w : World) :
  let w' := snd (loginCandidate env req now w) in
  jobs w' = jobs w
  /\ applications w' = applications w
  /\ nextId w' = nextId w
  /\ map credentials (candidates w') = map credentials (candidates w).
Proof.
  cbv zeta.
  destruct (nonEmpty (lr_email req)) as [email|] eqn:He;
    [|rewrite login_missing_fields by (left; exact He); cbn [snd]; repeat split; reflexivity].
  destruct (nonEmpty (lr_password req)) as [password|] eqn:Hp;
    [|rewrite login_missing_fields by (right; exact Hp); cbn [snd]; repeat split; reflexivity].
  destruct (C.findOneByEmail (candidates w) email) as [c|] eqn:Hc;
    [|rewrite (login_unknown_email req now w email password He Hp Hc);
      cbn [snd]; repeat split; reflexivity].
  destruct (C.isLocked now c) eqn:Hl;
    [rewrite (ControllerFacts.login_locked env req now w email password c
                He Hp Hc Hl); cbn [snd]; repeat split; reflexivity|].
  destruct (C.isActive (C.account c)) eqn:Ha;
    [|rewrite (ControllerFacts.login_deactivated env req now w email password c
                 He Hp Hc Hl Ha); cbn [snd]; repeat split; reflexivity].
  destruct (matchPassword env password (C.password (C.account c))) eqn:Hm.
  - rewrite (ControllerFacts.login_right_password env req now w email password c
               He Hp Hc Hl Ha Hm).
    cbn [snd jobs applications nextId candidates].
    split; [reflexivity|]. split; [reflexivity|]. split; [reflexivity|].
    rewrite credentials_updateAccount by (intro a; repeat split).
    destruct (N.ltb 0 (C.loginAttempts (C.account c))); [|reflexivity].
    apply credentials_updateAccount. intro a. repeat split.
  - rewrite (ControllerFacts.login_wrong_password env req now w email password c
               He Hp Hc Hl Ha Hm).
    cbn [snd jobs applications nextId candidates].
    split; [reflexivity|]. split; [reflexivity|]. split; [reflexivity|].
    apply credentials_updateAccount. intro a. repeat split.
Qed.

End Login.

Section Apply.

Variable env : Collaborators.

(** The job query rejects exactly when the reference does not cast. *)
Lemma findJob_rejects (l : list J.JobDescription) (ref : string) :
  findJob env l ref = None <-> castObjectId env ref = None.
Proof.
  unfold findJob. destruct (castObjectId env ref); split; congruence.
Qed.

(** Where the job query rejects, the handler answers from its catch
    block, and nothing has happened. *)
Lemma apply_cast_error (req : ApplyRequest) (now : Date) (w : World) :
  castObjectId env (ar_jobId req) = None ->
  applyToJob env req now w
  = ({| code := 500; success := false;
        message := "Error submitting application"; data := None;
        error := Some "Cast to ObjectId failed for value at path _id"%string |},
     w).
Proof.
  intro H. apply findJob_rejects with (l := jobs w) in H.
  unfold applyToJob, tryCatch, bind, get. rewrite H. reflexivity.
Qed.

Lemma findJob_none_closed
    (l : list J.JobDescription) (ref : string) (oid : ObjectId) :
  castObjectId env ref = Some oid ->
  (forall j, In j l ->
     J.isActive j && String.eqb (J.status j) "published" = false) ->
  findJob env l ref = Some None.
Proof.
  intros Hc H. unfold findJob. rewrite Hc. f_equal.
  match goal with |- find ?p l = None => destruct (find p l) as [j|] eqn:E end;
    [|reflexivity].
  apply find_some in E. destruct E as [Hin Hj].
  specialize (H j Hin).
  rewrite <- andb_assoc, H, andb_false_r in Hj. discriminate.
Qed.

(** X16. [applyToJob] turns a request away before it looks at the
    applicant, with nothing stored, no candidate either: a reference
    that is not an ObjectId makes the job query reject and is answered
    500, also when it is the shareable link of an open job; when no
    active, published job answers to the reference the answer is 404;
    when the job's deadline has passed it is 410. A job that is inactive
    or not published is not found by its id nor by its link. *)
Theorem apply_closed_job (req : ApplyRequest) (now : Date) (w : World) :
  (castObjectId env (ar_jobId req) = None ->
     applyToJob env req now w
     = ({| code := 500; success := false;
           message := "Error submitting application"; data := None;
           error :=
             Some "Cast to ObjectId failed for value at path _id"%string |},
        w))
  /\ (findJob env (jobs w) (ar_jobId req) = Some None ->
        applyToJob env req now w
        = (failure 404 "Job not found or no longer available", w))
  /\ (forall job,
        findJob env (jobs w) (ar_jobId req) = Some (Some job) ->
        J.isDeadlinePassed now job = true ->
        applyToJob env req now w
        = (failure 410 "Application deadline has passed", w))
  /\ ((forall j, In j (jobs w) ->
         J.isActive j && String.eqb (J.status j) "published" = false) ->
      forall oid, castObjectId env (ar_jobId req) = Some oid ->
      applyToJob env req now w
      = (failure 404 "Job not found or no longer available", w)).
Proof.
  assert (H404 : findJob env (jobs w) (ar_jobId req) = Some None ->
                 applyToJob env req now w
                 = (failure 404 "Job not found or no longer available", w)).
  { intro H. unfold applyToJob, tryCatch, bind, get. rewrite H. reflexivity. }
  split; [apply apply_cast_error|].
  split; [exact H404|]. split.
  - intros job Hj Hd. unfold applyToJob, tryCatch, bind, get.
    rewrite Hj, Hd. reflexivity.
  - intros H oid Hc. apply H404. now apply (findJob_none_closed _ _ oid).
Qed.

(** Bob refers to the open job J1 by its shareable link: the job query
    rejects, the answer is 500 and nothing has happened. *)
Example apply_by_link_rejected :
  J.shareableLink Samples.job1 = Some "acme-backend-dev"%string
  /\ castObjectId Samples.env0 "acme-backend-dev" = None
  /\ code (fst (applyToJob Samples.env0 MoreSamples.applyBobByLink 6000
                  Samples.world0)) = 500
  /\ snd (applyToJob Samples.env0 MoreSamples.applyBobByLink 6000
            Samples.world0) = Samples.world0.
Proof. repeat split. Qed.

(** The length limit of the cover letter counts UTF-16 code units, not
    bytes, and an empty question is refused like a missing one. *)
Example validFields_counts_code_units :
  String.length (MoreSamples.accented 1001) = 2002%nat
  /\ A.validFields (Some (MoreSamples.accented 1001)) [] = true
  /\ A.validFields (Some (MoreSamples.accented 2001)) [] = false
  /\ A.validFields None
       [ {| A.questionId := Some 500; A.question := Some ""%string;
            A.answer := Some "yes"%string |} ] = false.
Proof. vm_compute. repeat split. Qed.

(** X17. For a job the job query finds, before its deadline, a payload
    that fails the Application schema validation is
    answered 500 only after the applicant has been looked up or created:
    for a stored candidate nothing changes, but for an unknown email the
    candidate account provisioned for the request stays in the store,
    with no application to go with it. *)
Theorem apply_invalid_payload
    (req : ApplyRequest) (now : Date) (w : World) (job : J.JobDescription) :
  findJob env (jobs w) (ar_jobId req) = Some (Some job) ->
  J.isDeadlinePassed now job = false ->
  findApplication (applications w) (J._id job)
    (applicantId w (C.email (cd_personalInfo (ar_candidateData req)))) = None ->
  A.validFields (ar_coverLetter req) (ar_customAnswers req) = false ->
  let res := applyToJob env req now w in
  code (fst res) = 500
  /\ applications (snd res) = applications w
  /\ jobs (snd res) = jobs w
  /\ (forall c,
        C.findOneByEmail (candidates w)
          (C.email (cd_personalInfo (ar_candidateData req))) = Some c ->
        snd res = w)
  /\ (C.findOneByEmail (candidates w)
        (C.email (cd_personalInfo (ar_candidateData req))) = None ->
      exists c,
        candidates (snd res) = candidates w ++ [c]
        /\ C._id c = nextId w
        /\ C.personalInfo c = cd_personalInfo (ar_candidateData req)
        /\ C.isActive (C.account c) = true).
Proof.
  intros Hj Hd Hf Hv. cbv zeta. unfold applicantId in Hf.
  assert (Hgen : forall res, applyToJob env req now w = res ->
            code (fst res) = 500
            /\ applications (snd res) = applications w
            /\ jobs (snd res) = jobs w
            /\ (forall c,
                  C.findOneByEmail (candidates w)
                    (C.email (cd_personalInfo (ar_candidateData req))) = Some c ->
                  snd res = w)
            /\ (C.findOneByEmail (candidates w)
                  (C.email (cd_personalInfo (ar_candidateData req))) = None ->
                exists c,
                  candidates (snd res) = candidates w ++ [c]
                  /\ C._id c = nextId w
                  /\ C.personalInfo c = cd_personalInfo (ar_candidateData req)
                  /\ C.isActive (C.account c) = true)).
  { intros res E.
    unfold applyToJob, tryCatch in E. unfold bind at 1 in E. unfold get at 1 in E.
    rewrite Hj, Hd in E.
    destruct (C.findOneByEmail (candidates w)
                (C.email (cd_personalInfo (ar_candidateData req))))
      as [c|] eqn:Hc.
    - unfold bind, ret, get in E. rewrite Hf in E.
      unfold createApplication, A.validNew in E.
      cbn [A.na_coverLetter A.na_customAnswers] in E. rewrite Hv in E.
      cbn [negb] in E.
      destruct (J.allowMultipleApplications job); subst res; cbn [fst snd code];
        repeat split; discriminate.
    - unfold bind, ret, get, createCandidate in E.
      cbn [C.email C.personalInfo] in E. rewrite Hc in E.
      cbn [applications C._id] in E. rewrite Hf in E.
      unfold createApplication, A.validNew in E.
      cbn [A.na_coverLetter A.na_customAnswers] in E. rewrite Hv in E.
      cbn [negb] in E.
      destruct (J.allowMultipleApplications job); subst res;
        cbn [fst snd code applications jobs candidates];
        (split; [reflexivity|]); (split; [reflexivity|]);
        (split; [reflexivity|]); (split; [discriminate|]);
        intros _; eexists; repeat split. }
  exact (Hgen _ eq_refl).
Qed.


End Apply.

Lemma apply_invalid_payload_witness :
  code (fst (applyToJob Samples.env0 MoreSamples.applyAliceInvalid 6000
               Samples.world0)) = 500
  /\ length (candidates (snd (applyToJob Samples.env0
                                MoreSamples.applyAliceInvalid 6000
                                Samples.world0))) = 3%nat
  /\ applications (snd (applyToJob Samples.env0 MoreSamples.applyAliceInvalid
                          6000 Samples.world0))
     = applications Samples.world0.
Proof.
  destruct (apply_invalid_payload Samples.env0 MoreSamples.applyAliceInvalid
              6000 Samples.world0 Samples.job1 eq_refl eq_refl eq_refl eq_refl)
    as (Hcode & Happs & _ & _ & Hnew).
  split; [exact Hcode|]. split; [|exact Happs].
  destruct (Hnew eq_refl) as (c & Hc & _). rewrite Hc. reflexivity.
Defined.


(** *** The store stays consistent *)

(** A handler step that keeps the store consistent. *)
Local Abbreviation keeps h :=
  (forall w, consistent w -> consistent (snd (h w))).

Lemma keeps_ret {X} (x : X) : keeps (ret x).
Proof. intros w H. exact H. Qed.

Lemma keeps_respond {X} (r : Response) : keeps (@respond X r).
Proof. intros w H. exact H. Qed.

Lemma keeps_throw {X} (e : string) : keeps (@throw X e).
Proof. intros w H. exact H. Qed.

Lemma keeps_bind {X Y} (m : Handler X) (k : X -> Handler Y) :
  keeps m -> (forall x, keeps (k x)) -> keeps (bind m k).
Proof.
  intros Hm Hk w H. unfold bind. specialize (Hm w H).
  destruct (m w) as [[x|r|e] w1]; cbn [snd] in *; [|exact Hm|exact Hm].
  apply Hk. exact Hm.
Qed.

Lemma keeps_get_bind {Y} (k : World -> Handler Y) :
  (forall w0, keeps (k w0)) -> keeps (bind get k).
Proof. intros Hk. apply keeps_bind; [intros w H; exact H | exact Hk]. Qed.

Lemma keeps_tryCatch (msg : string) (h : Handler Response) (w : World) :
  keeps h -> consistent w -> consistent (snd (tryCatch msg h w)).
Proof.
  intros Hh H. unfold tryCatch. specialize (Hh w H).
  destruct (h w) as [[x|r|e] w1]; exact Hh.
Qed.

Lemma keeps_tryCatchWith {D} (msg : string) (h : Handler (N * string * D))
    (w : World) :
  keeps h -> consistent w -> consistent (snd (tryCatchWith msg h w)).
Proof.
  intros Hh H. unfold tryCatchWith. specialize (Hh w H).
  destruct (h w) as [[[[c m] d]|r|e] w1]; exact Hh.
Qed.

Lemma consistent_addEvent (e : Event) (w : World) :
  consistent w -> consistent (addEvent e w).
Proof. intro H. exact H. Qed.

Lemma consistent_setJobs (l : list J.JobDescription) (w : World) :
  consistent w -> consistent (setJobs l w).
Proof. intro H. exact H. Qed.

Lemma updateAccount_ids (i : ObjectId) (f : C.Account -> C.Account)
    (l : list C.Candidate) :
  map C._id (C.updateAccount i f l) = map C._id l
  /\ map (fun c => C.email (C.personalInfo c)) (C.updateAccount i f l)
     = map (fun c => C.email (C.personalInfo c)) l.
Proof.
  unfold C.updateAccount. rewrite !map_map.
  split; apply map_ext; intro c; destruct (N.eqb (C._id c) i); reflexivity.
Qed.

Lemma keeps_persistAccount (i : ObjectId) (f : C.Account -> C.Account) :
  keeps (persistAccount i f).
Proof.
  intros w (He & Hi & Ha & Hp & Hc & Hb).
  unfold persistAccount, modify, consistent.
  cbn [snd candidates applications nextId setCandidates].
  destruct (updateAccount_ids i f (candidates w)) as [E1 E2].
  rewrite E1, E2. repeat split; try assumption.
  intros c Hin. unfold C.updateAccount in Hin. apply in_map_iff in Hin.
  destruct Hin as (c0 & <- & Hin0). specialize (Hc c0 Hin0).
  destruct (N.eqb (C._id c0) i); exact Hc.
Qed.

Lemma findOneByEmail_none_notin (l : list C.Candidate) (e : string) :
  C.findOneByEmail l e = None ->
  ~ In e (map (fun c => C.email (C.personalInfo c)) l).
Proof.
  unfold C.findOneByEmail. intros H Hin. apply in_map_iff in Hin.
  destruct Hin as (c & <- & Hc).
  apply (find_none _ _ H) in Hc. rewrite String.eqb_refl in Hc. discriminate.
Qed.

Lemma findApplication_none_notin
    (l : list A.Application) (j c : ObjectId) :
  findApplication l j c = None -> ~ In (j, c) (map pairOf l).
Proof.
  unfold findApplication. intros H Hin. apply in_map_iff in Hin.
  destruct Hin as (a & Ha & Hin). apply (find_none _ _ H) in Hin.
  unfold pairOf in Ha. injection Ha as E1 E2.
  rewrite E1, E2, !N.eqb_refl in Hin. discriminate.
Qed.

Lemma fresh_notin {X} (f : X -> ObjectId) (l : list X) (n : ObjectId) :
  (forall x, In x l -> f x < n) -> ~ In n (map f l).
Proof.
  intros H Hin. apply in_map_iff in Hin. destruct Hin as (x & <- & Hx).
  specialize (H x Hx). lia.
Qed.

Lemma NoDup_snoc {X} (l : list X) (x : X) :
  NoDup l -> ~ In x l -> NoDup (l ++ [x]).
Proof.
  intros Hl Hx. apply NoDup_app; [exact Hl | constructor; [intros [] | constructor] |].
  intros y Hy [<-|[]]. contradiction.
Qed.

Section Keeps.

Variable env : Collaborators.

Lemma keeps_createCandidate (info : C.PersonalInfo) (pw : string) :
  keeps (createCandidate env info pw).
Proof.
  intros w H. unfold createCandidate.
  destruct (C.findOneByEmail (candidates w) (C.email info)) eqn:Hf;
    [exact H|].
  destruct H as (He & Hi & Ha & Hp & Hc & Hb).
  unfold consistent. cbn [snd candidates applications nextId].
  rewrite !map_app. cbn [map C._id C.personalInfo].
  split; [apply NoDup_snoc; [exact He | now apply findOneByEmail_none_notin]|].
  split; [apply NoDup_snoc; [exact Hi | now apply fresh_notin]|].
  split; [exact Ha|]. split; [exact Hp|]. split.
  - intros c Hin. apply in_app_or in Hin. destruct Hin as [Hin|[<-|[]]].
    + specialize (Hc c Hin). lia.
    + cbn [C._id]. lia.
  - intros a Hin. specialize (Hb a Hin). lia.
Qed.

Lemma keeps_createApplication (x : A.NewApplication) (now : Date) :
  keeps (createApplication x now).
Proof.
  intros w H. unfold createApplication.
  destruct (negb (A.validNew x)); [exact H|].
  destruct (findApplication (applications w) (A.na_jobDescriptionId x)
              (A.na_candidateId x)) eqn:Hf; [exact H|].
  destruct H as (He & Hi & Ha & Hp & Hc & Hb).
  unfold consistent. cbn [snd candidates applications nextId].
  rewrite !map_app, ControllerFacts.created_fields.
  cbn [map A._id pairOf A.jobDescriptionId A.candidateId].
  split; [exact He|]. split; [exact Hi|].
  split; [apply NoDup_snoc; [exact Ha | now apply fresh_notin]|].
  split; [apply NoDup_snoc; [exact Hp | now apply findApplication_none_notin]|].
  split.
  - intros c Hin. specialize (Hc c Hin). lia.
  - intros a Hin. apply in_app_or in Hin. destruct Hin as [Hin|[<-|[]]].
    + specialize (Hb a Hin). lia.
    + cbn [A._id]. lia.
Qed.

Lemma keeps_deliver (m : EmailMessage) : keeps (deliver env m).
Proof. intros w H. unfold deliver. destruct (sendEmail env m); exact H. Qed.

Lemma keeps_comparePassword (c : C.Candidate) (p : string) :
  keeps (comparePassword env c p).
Proof. intros w H. exact H. Qed.

Lemma keeps_modify_jobs (f : list J.JobDescription -> list J.JobDescription) :
  keeps (modify (fun w => setJobs (f (jobs w)) w)).
Proof. intros w H. exact H. Qed.

Lemma login_keeps (req : LoginRequest) (now : Date) (w : World) :
  consistent w -> consistent (snd (loginCandidate env req now w)).
Proof.
  unfold loginCandidate. apply keeps_tryCatch.
  destruct (nonEmpty (lr_email req)); [|apply keeps_respond].
  destruct (nonEmpty (lr_password req)); [|apply keeps_respond].
  apply keeps_get_bind. intro w0.
  destruct (C.findOneByEmail (candidates w0) s) as [c|]; [|apply keeps_respond].
  destruct (C.isLocked now c); [apply keeps_respond|].
  destruct (negb (C.isActive (C.account c))); [apply keeps_respond|].
  apply keeps_bind; [apply keeps_comparePassword|]. intro ok.
  destruct (negb ok).
  - apply keeps_bind; [apply keeps_persistAccount | intro; apply keeps_respond].
  - apply keeps_bind.
    + destruct (N.ltb 0 (C.loginAttempts (C.account c)));
        [apply keeps_persistAccount | apply keeps_ret].
    + intro. apply keeps_bind; [apply keeps_persistAccount|].
      intro. apply keeps_ret.
Qed.

Lemma apply_keeps (req : ApplyRequest) (now : Date) (w : World) :
  consistent w -> consistent (snd (applyToJob env req now w)).
Proof.
  unfold applyToJob. apply keeps_tryCatch.
  apply keeps_get_bind. intro w0.
  destruct (findJob env (jobs w0) (ar_jobId req)) as [[job|]|];
    [|apply keeps_respond|apply keeps_throw].
  destruct (J.isDeadlinePassed now job); [apply keeps_respond|].
  apply keeps_bind.
  - destruct (C.findOneByEmail (candidates w0) _);
      [apply keeps_ret | apply keeps_createCandidate].
  - intro candidate. apply keeps_get_bind. intro w1.
    assert (Hrest : keeps
              (application <-
                 createApplication
                   {| A.na_jobDescriptionId := J._id job;
                      A.na_candidateId := C._id candidate;
                      A.na_coverLetter := ar_coverLetter req;
                      A.na_customAnswers := ar_customAnswers req;
                      A.na_documents := ar_documents req;
                      A.na_status := A.submitted |} now ;;
               modify (fun w => setJobs
                         (J.update (J._id job) J.incrementApplications (jobs w)) w) ;;;
               deliver env (confirmationEmail env req now job candidate application) ;;;
               ret (successful 201 "Application submitted successfully"
                      (ApplyData (A._id application) (A.status application)
                         (A.appliedAt application) (C._id candidate)
                         (fullName env (C.personalInfo candidate))
                         (C.email (C.personalInfo candidate)))))).
    { apply keeps_bind; [apply keeps_createApplication|]. intro application.
      apply keeps_bind;
        [apply (keeps_modify_jobs (J.update (J._id job) J.incrementApplications))|].
      intro. apply keeps_bind; [apply keeps_deliver|]. intro. apply keeps_ret. }
    destruct (findApplication (applications w1) (J._id job) (C._id candidate));
      destruct (J.allowMultipleApplications job);
      solve [exact Hrest | apply keeps_respond].
Qed.

Section Register.

Variable jwtSignId : ObjectId -> string -> option string.
Variable createWithoutPassword : C.PersonalInfo -> Handler C.Candidate.

Lemma register_keeps (req : RegisterRequest) (w : World) :
  (forall info w0, consistent w0 ->
     consistent (snd (createWithoutPassword info w0))) ->
  consistent w ->
  consistent (snd (registerCandidate env jwtSignId createWithoutPassword req w)).
Proof.
  intro Hopt. unfold registerCandidate. apply keeps_tryCatchWith.
  destruct (rr_account req) as [password|]; [|apply keeps_throw].
  destruct (rr_personalInfo req) as [info|]; [|apply keeps_throw].
  apply keeps_get_bind. intro w0.
  destruct (C.findOneByEmail (candidates w0) (C.email info));
    [apply keeps_respond|].
  apply keeps_bind.
  - destruct password; [apply keeps_createCandidate | apply Hopt].
  - intro c. apply keeps_bind.
    + intros w1 H1. unfold generateTokenForId.
      destruct (jwtSignId _ _); exact H1.
    + intro. apply keeps_ret.
Qed.

(** X19. Each of the three public handlers keeps the tenant store
    consistent: after [registerCandidate], [loginCandidate] or
    [applyToJob], whatever the request and whatever the answer, no two
    candidates share an email or an id, no two applications share an id
    or a (job, candidate) pair, and every id in use lies below the next
    fresh one. *)
Theorem handlers_keep_store_consistent
    (register : RegisterRequest) (login : LoginRequest) (apply : ApplyRequest)
    (now : Date) (w : World) :
  (forall info w0, consistent w0 ->
     consistent (snd (createWithoutPassword info w0))) ->
  consistent w ->
  consistent (snd (registerCandidate env jwtSignId createWithoutPassword
                     register w))
  /\ consistent (snd (loginCandidate env login now w))
  /\ consistent (snd (applyToJob env apply now w)).
Proof.
  intros Hopt H. split; [|split].
  - now apply register_keeps.
  - now apply login_keeps.
  - now apply apply_keeps.
Qed.

End Register.

End Keeps.

Section RegisterFacts.

Variable env : Collaborators.
Variable jwtSignId : ObjectId -> string -> option string.
Variable createWithoutPassword : C.PersonalInfo -> Handler C.Candidate.

Local Abbreviation register :=
  (registerCandidate env jwtSignId createWithoutPassword).

(** X20. [registerCandidate] changes nothing when it cannot go ahead: a
    body without [account] or without [personalInfo] is answered 500, and
    an email that is already registered is answered 400 'Candidate with
    this email already exists'. *)
Theorem register_refused (req : RegisterRequest) (w : World) :
  (rr_account req = None \/ rr_personalInfo req = None ->
     replyCode (fst (register req w)) = 500 /\ snd (register req w) = w)
  /\ (forall password info c,
        rr_account req = Some password ->
        rr_personalInfo req = Some info ->
        C.findOneByEmail (candidates w) (C.email info) = Some c ->
        register req w
        = (Failed (failure 400 "Candidate with this email already exists"), w)).
Proof.
  split.
  - intros [H|H]; unfold registerCandidate, tryCatchWith; rewrite H.
    + split; reflexivity.
    + destruct (rr_account req); split; reflexivity.
  - intros password info c Ha Hi Hc.
    unfold registerCandidate, tryCatchWith. rewrite Ha, Hi.
    unfold bind, get. rewrite Hc. reflexivity.
Qed.

(** The store after a registration that went as far as creating the
    account. *)
Local Abbreviation registered w info p :=
  {| candidates :=
       candidates w
       ++ [ {| C._id := nextId w;
               C.personalInfo := info;
               C.account :=
                 {| C.password := hashPassword env p;
                    C.isActive := true;
                    C.isEmailVerified := false;
                    C.loginAttempts := 0;
                    C.lockUntil := None;
                    C.lastLogin := None |} |} ];
     jobs := jobs w; applications := applications w;
     nextId := N.succ (nextId w);
     log := log w ++ [CandidateCreated (nextId w)] |}.

Lemma register_result (req : RegisterRequest) (w : World)
    (p : string) (info : C.PersonalInfo) :
  rr_account req = Some (Some p) ->
  rr_personalInfo req = Some info ->
  C.findOneByEmail (candidates w) (C.email info) = None ->
  register req w =
  (match jwtSignId (nextId w)
           match orStr (JWT_EXPIRE env) (Some "7d"%string) with
           | Some e => e
           | None => "7d"%string
           end with
   | Some token =>
       Succeeded 201 "Registration successful"
         {| reg_id := nextId w;
            reg_name := fullName env info;
            reg_email := C.email info;
            reg_isEmailVerified := false;
            reg_token := token;
            reg_companyName := companyName (rr_tenant req);
            reg_branding := branding (rr_tenant req) |}
   | None =>
       Failed {| code := 500; success := false;
                 message := "Error during registration"; data := None;
                 error := Some "Expected payload to be a plain object"%string |}
   end,
   registered w info p).
Proof.
  intros Ha Hi Hc. unfold registerCandidate, tryCatchWith. rewrite Ha, Hi.
  unfold bind at 1. unfold get. rewrite Hc.
  unfold bind, createCandidate, generateTokenForId, ret. rewrite Hc.
  cbn [C._id]. destruct (jwtSignId _ _); reflexivity.
Qed.

(** X21. With a token library that refuses a payload that is not a
    plain object, as jsonwebtoken does, a registration never gets its
    201: [generateToken] is handed the bare id of the new candidate. For
    an email not yet registered and a body with a password,
    [registerCandidate] stores one new candidate, active, with the email
    not verified and the credential made from the submitted password, and
    then answers 500 'Error during registration'; the account stays, so
    the same request sent again is answered 400. *)
Theorem register_creates_account
    (req : RegisterRequest) (w : World) (p : string) (info : C.PersonalInfo) :
  rr_account req = Some (Some p) ->
  rr_personalInfo req = Some info ->
  C.findOneByEmail (candidates w) (C.email info) = None ->
  (forall expiresIn, jwtSignId (nextId w) expiresIn = None) ->
  fst (register req w)
  = Failed {| code := 500; success := false;
              message := "Error during registration"; data := None;
              error := Some "Expected payload to be a plain object"%string |}
  /\ (exists c,
        candidates (snd (register req w)) = candidates w ++ [c]
        /\ C._id c = nextId w
        /\ C.personalInfo c = info
        /\ C.account c
           = {| C.password := hashPassword env p; C.isActive := true;
                C.isEmailVerified := false; C.loginAttempts := 0;
                C.lockUntil := None; C.lastLogin := None |})
  /\ jobs (snd (register req w)) = jobs w
  /\ applications (snd (register req w)) = applications w
  /\ register req (snd (register req w))
     = (Failed (failure 400 "Candidate with this email already exists"),
        snd (register req w)).
Proof.
  intros Ha Hi Hc Hs. rewrite (register_result req w p info Ha Hi Hc), Hs.
  cbn [fst snd candidates jobs applications].
  split; [reflexivity|].
  split; [eexists; split; [reflexivity|]; repeat split|].
  split; [reflexivity|]. split; [reflexivity|].
  unfold registerCandidate, tryCatchWith. rewrite Ha, Hi.
  unfold bind, get. cbn [candidates].
  rewrite (ControllerFacts.findOneByEmail_appended (candidates w)
             {| C._id := nextId w; C.personalInfo := info;
                C.account :=
                  {| C.password := hashPassword env p; C.isActive := true;
                     C.isEmailVerified := false; C.loginAttempts := 0;
                     C.lockUntil := None; C.lastLogin := None |} |}
             (C.email info) Hc eq_refl).
  reflexivity.
Qed.

(** X22. Registration and login fit together: once [registerCandidate]
    has stored the account, a login with the same email and password is
    answered 200, provided the credential comparison accepts the password
    it hashed and neither string is empty. *)
Theorem register_then_login
    (req : RegisterRequest) (w : World) (p : string) (info : C.PersonalInfo)
    (later : Date) (t : Tenant) :
  rr_account req = Some (Some p) ->
  rr_personalInfo req = Some info ->
  C.findOneByEmail (candidates w) (C.email info) = None ->
  C.email info <> ""%string ->
  p <> ""%string ->
  matchPassword env p (hashPassword env p) = true ->
  code (fst (loginCandidate env
               {| lr_email := Some (C.email info); lr_password := Some p;
                  lr_tenant := t |}
               later (snd (register req w)))) = 200.
Proof.
  intros Ha Hi Hc He Hp Hm.
  rewrite (register_result req w p info Ha Hi Hc). cbn [snd].
  rewrite (ControllerFacts.login_right_password env _ later _ (C.email info) p
             {| C._id := nextId w; C.personalInfo := info;
                C.account :=
                  {| C.password := hashPassword env p; C.isActive := true;
                     C.isEmailVerified := false; C.loginAttempts := 0;
                     C.lockUntil := None; C.lastLogin := None |} |}).
  - reflexivity.
  - cbn [lr_email]. unfold nonEmpty.
    apply AuthFacts.truthyStr_Some in He. now rewrite He.
  - cbn [lr_password]. unfold nonEmpty.
    apply AuthFacts.truthyStr_Some in Hp. now rewrite Hp.
  - cbn [candidates]. apply ControllerFacts.findOneByEmail_appended;
      [exact Hc | reflexivity].
  - reflexivity.
  - reflexivity.
  - exact Hm.
Qed.

End RegisterFacts.

Lemma register_creates_account_witness :
  replyCode (fst (registerCandidate Samples.env0 MoreSamples.jwtSignId
                    MoreSamples.createWithoutPassword MoreSamples.registerDan
                    Samples.world0)) = 500
  /\ map (fun c => C.email (C.personalInfo c))
       (candidates (snd (registerCandidate Samples.env0 MoreSamples.jwtSignId
                           MoreSamples.createWithoutPassword
                           MoreSamples.registerDan Samples.world0)))
     = ["b@x.com"; "c@x.com"; "d@x.com"]%string.
Proof.
  destruct (register_creates_account Samples.env0 MoreSamples.jwtSignId
              MoreSamples.createWithoutPassword MoreSamples.registerDan
              Samples.world0 "correct horse"
              {| C.firstName := "Dan"; C.lastName := "Moss"; C.email := "d@x.com" |}
              eq_refl eq_refl eq_refl (fun _ => eq_refl))
    as (Hr & (c & Hc & _ & Hi & _) & _).
  rewrite Hr, Hc, map_app. cbn [map replyCode code]. rewrite Hi.
  split; reflexivity.
Defined.

Lemma register_then_login_witness :
  code (fst (loginCandidate Samples.env0
               {| lr_email := Some "d@x.com"%string;
                  lr_password := Some "correct horse"%string;
                  lr_tenant := Samples.tenant0 |}
               9000
               (snd (registerCandidate Samples.env0 MoreSamples.jwtSignId
                       MoreSamples.createWithoutPassword MoreSamples.registerDan
                       Samples.world0)))) = 200.
Proof.
  apply (register_then_login Samples.env0 MoreSamples.jwtSignId
           MoreSamples.createWithoutPassword MoreSamples.registerDan
           Samples.world0 "correct horse"
           {| C.firstName := "Dan"; C.lastName := "Moss"; C.email := "d@x.com" |}
           9000 Samples.tenant0);
    solve [reflexivity | discriminate].
Defined.

(** *** [applyToJob] only adds *)

Lemma extends_refl (w : World) : extends w w.
Proof.
  unfold extends. repeat split; try (exists []; now rewrite app_nil_r); try lia.
  induction (jobs w); constructor; [lia | assumption].
Qed.

Lemma Forall2_le_trans (l1 l2 l3 : list J.JobDescription) :
  Forall2 (fun j j' => J.applications j <= J.applications j') l1 l2 ->
  Forall2 (fun j j' => J.applications j <= J.applications j') l2 l3 ->
  Forall2 (fun j j' => J.applications j <= J.applications j') l1 l3.
Proof.
  intro H. revert l3. induction H as [|a b l1 l2 Hab H IH]; intros l3 H3.
  - inversion H3. constructor.
  - inversion H3 as [|b' c l2' l3' Hbc H3']; subst.
    constructor; [lia | now apply IH].
Qed.

Lemma extends_trans (w1 w2 w3 : World) :
  extends w1 w2 -> extends w2 w3 -> extends w1 w3.
Proof.
  intros ((c1 & Hc1) & (a1 & Ha1) & (e1 & He1) & Hp1 & Hf1 & Hn1)
         ((c2 & Hc2) & (a2 & Ha2) & (e2 & He2) & Hp2 & Hf2 & Hn2).
  unfold extends.
  split; [exists (c1 ++ c2); now rewrite Hc2, Hc1, app_assoc|].
  split; [exists (a1 ++ a2); now rewrite Ha2, Ha1, app_assoc|].
  split; [exists (e1 ++ e2); now rewrite He2, He1, app_assoc|].
  split; [now rewrite Hp2|].
  split; [now apply (Forall2_le_trans _ (jobs w2))|lia].
Qed.

Local Abbreviation grows h := (forall w, extends w (snd (h w))).

Lemma grows_bind {X Y} (m : Handler X) (k : X -> Handler Y) :
  grows m -> (forall x, grows (k x)) -> grows (bind m k).
Proof.
  intros Hm Hk w. unfold bind. specialize (Hm w).
  destruct (m w) as [[x|r|e] w1]; cbn [snd] in *; [|exact Hm|exact Hm].
  apply (extends_trans _ w1); [exact Hm | apply Hk].
Qed.

Lemma update_posting (i : ObjectId) (l : list J.JobDescription) :
  map posting (J.update i J.incrementApplications l) = map posting l
  /\ Forall2 (fun j j' => J.applications j <= J.applications j')
       l (J.update i J.incrementApplications l).
Proof.
  unfold J.update. split.
  - rewrite map_map. apply map_ext. intro j.
    destruct (N.eqb (J._id j) i); reflexivity.
  - induction l as [|j l IH]; cbn [map]; constructor; [|exact IH].
    destruct (N.eqb (J._id j) i); cbn [J.incrementApplications J.applications];
      lia.
Qed.

Section Grows.

Variable env : Collaborators.

(** X27. [applyToJob] only ever adds to the store: whatever the request
    and the answer, the candidates, applications and log entries that
    were there are still there, unchanged and in place, with any new ones
    after them; the jobs are the same postings and no counter has gone
    down. *)
Theorem apply_only_adds (req : ApplyRequest) (now : Date) (w : World) :
  extends w (snd (applyToJob env req now w)).
Proof.
  unfold applyToJob, tryCatch.
  match goal with
  | |- extends w (snd (match ?h w with _ => _ end)) =>
      assert (H : grows h); [|specialize (H w); destruct (h w) as [[x|r|e] w1];
                               exact H]
  end.
  apply grows_bind; [intro; apply extends_refl|]. intro w0.
  destruct (findJob env (jobs w0) (ar_jobId req)) as [[job|]|];
    [|intro; apply extends_refl|intro; apply extends_refl].
  destruct (J.isDeadlinePassed now job); [intro; apply extends_refl|].
  apply grows_bind.
  - destruct (C.findOneByEmail (candidates w0) _) eqn:Hc;
      [intro; apply extends_refl|].
    intro w1. unfold createCandidate.
    destruct (C.findOneByEmail (candidates w1) _); [apply extends_refl|].
    unfold extends. cbn [snd candidates applications log jobs nextId].
    split; [eexists; reflexivity|].
    split; [exists []; now rewrite app_nil_r|].
    split; [eexists; reflexivity|].
    split; [reflexivity|]. split; [|lia].
    induction (jobs w1); constructor; [lia | assumption].
  - intro candidate. apply grows_bind; [intro; apply extends_refl|]. intro w1.
    assert (Hrest : grows
              (application <-
                 createApplication
                   {| A.na_jobDescriptionId := J._id job;
                      A.na_candidateId := C._id candidate;
                      A.na_coverLetter := ar_coverLetter req;
                      A.na_customAnswers := ar_customAnswers req;
                      A.na_documents := ar_documents req;
                      A.na_status := A.submitted |} now ;;
               modify (fun w => setJobs
                         (J.update (J._id job) J.incrementApplications (jobs w)) w) ;;;
               deliver env (confirmationEmail env req now job candidate application) ;;;
               ret (successful 201 "Application submitted successfully"
                      (ApplyData (A._id application) (A.status application)
                         (A.appliedAt application) (C._id candidate)
                         (fullName env (C.personalInfo candidate))
                         (C.email (C.personalInfo candidate)))))).
    { apply grows_bind.
      - intro w2. unfold createApplication.
        destruct (negb (A.validNew _)); [apply extends_refl|].
        destruct (findApplication (applications w2) _ _); [apply extends_refl|].
        unfold extends. cbn [snd candidates applications log jobs nextId].
        split; [exists []; now rewrite app_nil_r|].
        split; [eexists; reflexivity|].
        split; [eexists; reflexivity|].
        split; [reflexivity|]. split; [|lia].
        induction (jobs w2); constructor; [lia | assumption].
      - intro application. apply grows_bind.
        + intro w2. unfold modify, setJobs, extends.
          cbn [snd candidates applications log jobs nextId].
          destruct (update_posting (J._id job) (jobs w2)) as [Hp Hf].
          split; [exists []; now rewrite app_nil_r|].
          split; [exists []; now rewrite app_nil_r|].
          split; [exists []; now rewrite app_nil_r|].
          split; [exact Hp|]. split; [exact Hf | lia].
        + intro. apply grows_bind; [|intros ? ?; apply extends_refl].
          intro w2. unfold deliver. destruct (sendEmail env _);
            [|apply extends_refl].
          unfold addEvent, extends.
          cbn [snd candidates applications log jobs nextId].
          split; [exists []; now rewrite app_nil_r|].
          split; [exists []; now rewrite app_nil_r|].
          split; [eexists; reflexivity|].
          split; [reflexivity|]. split; [|lia].
          induction (jobs w2); constructor; [lia | assumption]. }
    destruct (findApplication (applications w1) (J._id job) (C._id candidate));
      destruct (J.allowMultipleApplications job);
      solve [exact Hrest | intro; apply extends_refl].
Qed.

(** The candidates after a request whose email is known. *)
Lemma apply_known_candidates
    (req : ApplyRequest) (now : Date) (w : World) (c : C.Candidate) :
  C.findOneByEmail (candidates w)
    (C.email (cd_personalInfo (ar_candidateData req))) = Some c ->
  candidates (snd (applyToJob env req now w)) = candidates w.
Proof.
  intro Hc.
  assert (Hgen : forall res, applyToJob env req now w = res ->
                 candidates (snd res) = candidates w).
  { intros res E. unfold applyToJob, tryCatch in E.
    unfold bind at 1 in E. unfold get at 1 in E.
    destruct (findJob env (jobs w) (ar_jobId req)) as [[job|]|];
      [|subst res; reflexivity|subst res; reflexivity].
    destruct (J.isDeadlinePassed now job); [subst res; reflexivity|].
    rewrite Hc in E. unfold bind, ret, get in E.
    unfold createApplication, modify, deliver, setJobs, respond in E.
    destruct (findApplication (applications w) (J._id job) (C._id c)) eqn:Hf;
      destruct (J.allowMultipleApplications job);
      cbn -[confirmationEmail J.update A.save findApplication A.validNew] in E;
      try match type of E with
          | context [A.validNew ?x] => destruct (A.validNew x)
          end;
      cbn -[confirmationEmail J.update A.save findApplication] in E;
      rewrite ?Hf in E;
      cbn -[confirmationEmail J.update A.save] in E;
      try match type of E with
          | context [sendEmail env ?m] =>
              destruct (sendEmail env m);
              cbn -[confirmationEmail J.update A.save] in E
          end;
      subst res; reflexivity. }
  exact (Hgen _ eq_refl).
Qed.

(** The candidates after a request whose email is unknown. *)
Lemma apply_unknown_candidates
    (req : ApplyRequest) (now : Date) (w : World) (job : J.JobDescription) :
  findJob env (jobs w) (ar_jobId req) = Some (Some job) ->
  J.isDeadlinePassed now job = false ->
  C.findOneByEmail (candidates w)
    (C.email (cd_personalInfo (ar_candidateData req))) = None ->
  exists c,
    candidates (snd (applyToJob env req now w)) = candidates w ++ [c]
    /\ C.email (C.personalInfo c)
       = C.email (cd_personalInfo (ar_candidateData req)).
Proof.
  intros Hj Hd Hc.
  assert (Hgen : forall res, applyToJob env req now w = res ->
            exists c,
              candidates (snd res) = candidates w ++ [c]
              /\ C.email (C.personalInfo c)
                 = C.email (cd_personalInfo (ar_candidateData req))).
  { intros res E. unfold applyToJob, tryCatch in E.
    unfold bind at 1 in E. unfold get at 1 in E.
    rewrite Hj, Hd, Hc in E. unfold bind, ret, get, createCandidate in E.
    cbn [C.email C.personalInfo] in E. rewrite Hc in E.
    cbn [applications C._id] in E.
    unfold createApplication, modify, deliver, setJobs, respond in E.
    destruct (findApplication (applications w) (J._id job) (nextId w)) eqn:Hf;
      destruct (J.allowMultipleApplications job);
      cbn -[confirmationEmail J.update A.save findApplication A.validNew] in E;
      try match type of E with
          | context [A.validNew ?x] => destruct (A.validNew x)
          end;
      cbn -[confirmationEmail J.update A.save findApplication] in E;
      rewrite ?Hf in E;
      cbn -[confirmationEmail J.update A.save] in E;
      try match type of E with
          | context [sendEmail env ?m] =>
              destruct (sendEmail env m);
              cbn -[confirmationEmail J.update A.save] in E
          end;
      subst res; cbn [snd candidates addEvent];
      eexists; split; reflexivity. }
  exact (Hgen _ eq_refl).
Qed.

(** X28. An applicant is provisioned once: when a request from an
    unknown email for a job that the job query finds, before its
    deadline, has been handled, any later request with the same email,
    for whatever job reference, uses the stored account and leaves the
    candidates as they are. *)
Theorem apply_reuses_account
    (first next : ApplyRequest) (t1 t2 : Date) (w : World)
    (job : J.JobDescription) :
  findJob env (jobs w) (ar_jobId first) = Some (Some job) ->
  J.isDeadlinePassed t1 job = false ->
  C.findOneByEmail (candidates w)
    (C.email (cd_personalInfo (ar_candidateData first))) = None ->
  C.email (cd_personalInfo (ar_candidateData next))
  = C.email (cd_personalInfo (ar_candidateData first)) ->
  let w1 := snd (applyToJob env first t1 w) in
  length (candidates w1) = S (length (candidates w))
  /\ candidates (snd (applyToJob env next t2 w1)) = candidates w1.
Proof.
  intros Hj Hd Hc He. cbv zeta.
  destruct (apply_unknown_candidates first t1 w job Hj Hd Hc)
    as (c & Hcs & Hmail).
  split.
  - rewrite Hcs, length_app. cbn [length]. lia.
  - apply (apply_known_candidates next t2 _ c).
    rewrite He, Hcs.
    apply ControllerFacts.findOneByEmail_appended; [exact Hc | exact Hmail].
Qed.

End Grows.

Lemma apply_reuses_account_witness :
  let w1 := snd (applyToJob Samples.env0 Samples.applyAlice 6000
                   Samples.world0) in
  length (candidates w1) = S (length (candidates Samples.world0))
  /\ candidates (snd (applyToJob Samples.env0 MoreSamples.applyAliceAgain
                        7000 w1))
     = candidates w1.
Proof.
  apply (apply_reuses_account Samples.env0 Samples.applyAlice
           MoreSamples.applyAliceAgain 6000 7000 Samples.world0 Samples.job1);
    reflexivity.
Defined.

Lemma world0_consistent : consistent Samples.world0.
Proof.
  unfold consistent. cbn.
  repeat split;
    try (repeat (constructor; [cbn; intuition congruence|]); constructor).
  - intros c [<-|[<-|[]]]; cbn; lia.
  - intros a [<-|[]]; cbn; lia.
Qed.

Lemma handlers_keep_store_consistent_witness :
  consistent (snd (registerCandidate Samples.env0 MoreSamples.jwtSignId
                     MoreSamples.createWithoutPassword MoreSamples.registerDan
                     Samples.world0))
  /\ consistent (snd (loginCandidate Samples.env0 (Samples.loginBob "guess")
                        20000 Samples.world0))
  /\ consistent (snd (applyToJob Samples.env0 Samples.applyAlice 20000
                        Samples.world0)).
Proof.
  apply (handlers_keep_store_consistent Samples.env0 MoreSamples.jwtSignId
           MoreSamples.createWithoutPassword MoreSamples.registerDan
           (Samples.loginBob "guess") Samples.applyAlice 20000 Samples.world0).
  - intros info w0 H. exact H.
  - exact world0_consistent.
Defined.

End ControllerMoreFacts.

(* ================================================================== *)
(** * Properties of the document upload *)

Module UploadFacts.

Import DocumentUpload.
Local Open Scope list_scope.

Lemma validType_Some (t : option string) (x : string) :
  validType t = Some x -> t = Some x /\ In x validDocumentTypes.
Proof.
  destruct t as [y|]; cbn [validType]; [|discriminate].
  destruct (existsb (String.eqb y) validDocumentTypes) eqn:E; [|discriminate].
  intros [= <-]. split; [reflexivity|].
  apply existsb_exists in E. destruct E as (z & Hin & Hz).
  apply String.eqb_eq in Hz. now subst.
Qed.

Lemma setDocument_found (i : ObjectId) (type : string) (d : DocumentData)
    (l : list Profile) (p : Profile) :
  findProfile l i = Some p -> exists l', setDocument i type d l = Some l'.
Proof.
  unfold findProfile. induction l as [|q l IH]; cbn [find setDocument];
    [discriminate|].
  destruct (N.eqb (_id q) i); [intros _; eexists; reflexivity|].
  intro H. destruct (IH H) as (l' & ->). eexists. reflexivity.
Qed.

Lemma lookup_assign (type k : string) (d : DocumentData)
    (l : list (string * DocumentData)) :
  lookupDocument (Some (assign type d l)) k
  = if String.eqb k type then Some d else lookupDocument (Some l) k.
Proof.
  unfold lookupDocument.
  induction l as [|[k0 v] l IH]; cbn [assign find fst snd option_map].
  - rewrite (String.eqb_sym type k). destruct (String.eqb k type); reflexivity.
  - destruct (String.eqb k0 type) eqn:E; cbn [find fst snd option_map].
    + apply String.eqb_eq in E. subst k0.
      rewrite (String.eqb_sym type k). destruct (String.eqb k type); reflexivity.
    + destruct (String.eqb k0 k) eqn:E1; cbn [option_map].
      * apply String.eqb_eq in E1. subst k0.
        rewrite E. reflexivity.
      * exact IH.
Qed.

Lemma setDocument_lookup (i : ObjectId) (type : string) (d : DocumentData)
    (l l' : list Profile) :
  setDocument i type d l = Some l' ->
  forall j k,
    option_map (fun p => lookupDocument (documents p) k) (findProfile l' j)
    = if N.eqb j i && String.eqb k type
      then Some (Some d)
      else option_map (fun p => lookupDocument (documents p) k) (findProfile l j).
Proof.
  unfold findProfile. revert l'.
  induction l as [|p l IH]; intros l'; cbn [setDocument]; [discriminate|].
  destruct (N.eqb (_id p) i) eqn:E.
  - intros [= <-] j k. cbn [find _id].
    apply N.eqb_eq in E. subst i.
    rewrite (N.eqb_sym j (_id p)).
    destruct (N.eqb (_id p) j) eqn:Ej; cbn [andb option_map documents].
    + rewrite lookup_assign.
      destruct (String.eqb k type); [reflexivity|].
      destruct (documents p); reflexivity.
    + reflexivity.
  - destruct (setDocument i type d l) as [l0|] eqn:Es; [|discriminate].
    intros [= <-] j k. cbn [find].
    destruct (N.eqb (_id p) j) eqn:Ej.
    + apply N.eqb_eq in Ej. subst j. rewrite E. reflexivity.
    + apply (IH l0 eq_refl).
Qed.

Section Upload.

Variable cloudinaryUrl : option string -> option string.

Local Abbreviation upload := (uploadDocument cloudinaryUrl).

(** X23. An upload that is turned away for its input: without a file the
    answer is 400 and nothing happens; with a document type that is
    missing or not one of resume, coverLetter, certificate and
    profilePicture the answer is 400, no candidate document is touched,
    and the uploaded artifact is destroyed exactly when the file carries a
    non-empty [public_id]; a file that has only a filename stays in the
    media store. *)
Theorem upload_refused (req : UploadRequest) (now : Date) (w : UploadWorld) :
  (file req = None ->
     upload req now w = (UploadFailed 400 "Please upload a file" None, w))
  /\ (forall f,
        file req = Some f ->
        validType (documentType req) = None ->
        fst (upload req now w) = UploadFailed 400 "Invalid document type" None
        /\ profiles (snd (upload req now w)) = profiles w
        /\ cloud (snd (upload req now w))
           = cloud w ++ (if truthyStr (public_id f)
                         then [Destroyed (public_id f)] else [])).
Proof.
  split.
  - intro H. unfold uploadDocument. rewrite H. reflexivity.
  - intros f Hf Ht. unfold uploadDocument, cleanup. rewrite Hf, Ht.
    destruct (truthyStr (public_id f)); cbn [fst snd profiles cloud destroy];
      repeat split. now rewrite app_nil_r.
Qed.

(** X24. [uploadDocument] never answers 404: when the candidate of the
    request does not exist, reading [candidate.documents] fails first and
    the answer is 500, with the store untouched and the upload cleaned up
    only if it carries a [public_id]. *)
Theorem upload_never_404 (req : UploadRequest) (now : Date) (w : UploadWorld) :
  (forall m e, fst (upload req now w) <> UploadFailed 404 m e)
  /\ (forall f type,
        file req = Some f ->
        validType (documentType req) = Some type ->
        type <> "profilePicture"%string ->
        findProfile (profiles w) (userId req) = None ->
        upload req now w
        = (UploadFailed 500 "Error uploading document"
             (Some "Cannot read properties of null (reading 'documents')"%string),
           cleanup f w)).
Proof.
  split.
  - intros m e. unfold uploadDocument.
    destruct (file req) as [f|]; [|discriminate].
    destruct (validType (documentType req)) as [type|]; [|discriminate].
    destruct (findProfile (profiles w) (userId req)) as [p|] eqn:Hp;
      [|discriminate].
    set (w1 := match oldPublicId p type with
               | Some old => destroy (Some old) w
               | None => w
               end).
    assert (Hw1 : profiles w1 = profiles w)
      by (unfold w1; destruct (oldPublicId p type); reflexivity).
    rewrite Hw1.
    destruct (setDocument_found (userId req) type
                {| url := if String.eqb type "profilePicture"
                          then cloudinaryUrl (public_id f)
                          else Some (path f);
                   publicId := Some (filename f);
                   originalName := originalname f; mimeType := mimetype f;
                   d_size := size f; uploadedAt := now |}
                (profiles w) p Hp) as (l' & ->).
    discriminate.
  - intros f type Hf Ht Hn Hp. unfold uploadDocument. rewrite Hf, Ht.
    apply String.eqb_neq in Hn. rewrite Hn, Hp. reflexivity.
Qed.

(** The outcome of an upload that goes through. *)
Lemma upload_result (req : UploadRequest) (now : Date) (w : UploadWorld)
    (f : UploadedFile) (type : string) (p : Profile) :
  file req = Some f ->
  validType (documentType req) = Some type ->
  type <> "profilePicture"%string ->
  findProfile (profiles w) (userId req) = Some p ->
  exists updated,
    setDocument (userId req) type
      {| url := Some (path f); publicId := Some (filename f);
         originalName := originalname f; mimeType := mimetype f;
         d_size := size f; uploadedAt := now |} (profiles w) = Some updated
    /\ upload req now w
       = (Uploaded type
            {| url := Some (path f); publicId := Some (filename f);
               originalName := originalname f; mimeType := mimetype f;
               d_size := size f; uploadedAt := now |},
          {| profiles := updated;
             cloud := cloud w ++ match oldPublicId p type with
                                 | Some old => [Destroyed (Some old)]
                                 | None => []
                                 end |}).
Proof.
  intros Hf Ht Hn Hp.
  destruct (setDocument_found (userId req) type
              {| url := Some (path f); publicId := Some (filename f);
                 originalName := originalname f; mimeType := mimetype f;
                 d_size := size f; uploadedAt := now |}
              (profiles w) p Hp) as (l' & Hs).
  exists l'. split; [exact Hs|].
  unfold uploadDocument. rewrite Hf, Ht.
  apply String.eqb_neq in Hn. rewrite Hn, Hp.
  destruct (oldPublicId p type); cbn [profiles cloud destroy]; rewrite Hs;
    [reflexivity | now rewrite app_nil_r].
Qed.

(** X25. An upload of a resume, cover letter or certificate for a stored
    candidate is answered with the document as stored: the url is the
    path of the file and the public id is its filename. Afterwards that
    document is what the candidate has under the type, every other
    document of every candidate is as before, and the only artifact
    destroyed is the document that was replaced, if it had a public id;
    the new upload is not destroyed. *)
Theorem upload_stores_document
    (req : UploadRequest) (now : Date) (w : UploadWorld)
    (f : UploadedFile) (type : string) (p : Profile) :
  file req = Some f ->
  validType (documentType req) = Some type ->
  type <> "profilePicture"%string ->
  findProfile (profiles w) (userId req) = Some p ->
  let d := {| url := Some (path f); publicId := Some (filename f);
              originalName := originalname f; mimeType := mimetype f;
              d_size := size f; uploadedAt := now |} in
  fst (upload req now w) = Uploaded type d
  /\ (forall j k,
        option_map (fun q => lookupDocument (documents q) k)
          (findProfile (profiles (snd (upload req now w))) j)
        = if N.eqb j (userId req) && String.eqb k type
          then Some (Some d)
          else option_map (fun q => lookupDocument (documents q) k)
                 (findProfile (profiles w) j))
  /\ cloud (snd (upload req now w))
     = cloud w ++ match oldPublicId p type with
                  | Some old => [Destroyed (Some old)]
                  | None => []
                  end.
Proof.
  intros Hf Ht Hn Hp. cbv zeta.
  destruct (upload_result req now w f type p Hf Ht Hn Hp) as (l' & Hs & ->).
  cbn [fst snd profiles cloud].
  split; [reflexivity|]. split; [|reflexivity].
  apply (setDocument_lookup _ _ _ _ _ Hs).
Qed.

Lemma upload_then_old (req : UploadRequest) (now : Date) (w : UploadWorld)
    (f : UploadedFile) (type : string) (p : Profile) :
  file req = Some f ->
  validType (documentType req) = Some type ->
  type <> "profilePicture"%string ->
  findProfile (profiles w) (userId req) = Some p ->
  filename f <> ""%string ->
  exists p1,
    findProfile (profiles (snd (upload req now w))) (userId req) = Some p1
    /\ oldPublicId p1 type = Some (filename f).
Proof.
  intros Hf Ht Hn Hp Hne.
  destruct (upload_result req now w f type p Hf Ht Hn Hp) as (l' & Hs & ->).
  cbn [snd profiles].
  assert (H := setDocument_lookup _ _ _ _ _ Hs (userId req) type).
  rewrite N.eqb_refl, String.eqb_refl in H. cbn [andb] in H.
  destruct (findProfile l' (userId req)) as [p1|]; [|discriminate].
  cbn [option_map] in H. injection H as H.
  exists p1. split; [reflexivity|].
  unfold oldPublicId. rewrite H. cbn [publicId].
  apply AuthFacts.truthyStr_Some in Hne. now rewrite Hne.
Qed.

(** X26. Replacing a document: when a second file is uploaded under the
    same type for the same candidate, the one artifact destroyed is the
    first upload, addressed by its filename (not by its [public_id],
    which is the field the clean-up paths use). *)
Theorem upload_replaces_previous
    (req1 req2 : UploadRequest) (t1 t2 : Date) (w : UploadWorld)
    (f1 f2 : UploadedFile) (type : string) (p : Profile) :
  file req1 = Some f1 ->
  file req2 = Some f2 ->
  validType (documentType req1) = Some type ->
  validType (documentType req2) = Some type ->
  type <> "profilePicture"%string ->
  userId req2 = userId req1 ->
  findProfile (profiles w) (userId req1) = Some p ->
  filename f1 <> ""%string ->
  let w1 := snd (upload req1 t1 w) in
  cloud (snd (upload req2 t2 w1))
  = cloud w1 ++ [Destroyed (Some (filename f1))].
Proof.
  intros Hf1 Hf2 Ht1 Ht2 Hn Hu Hp Hne. cbv zeta.
  destruct (upload_then_old req1 t1 w f1 type p Hf1 Ht1 Hn Hp Hne)
    as (p1 & Hp1 & Hold).
  rewrite <- Hu in Hp1.
  destruct (upload_result req2 t2 _ f2 type p1 Hf2 Ht2 Hn Hp1) as (l' & _ & ->).
  cbn [snd cloud]. now rewrite Hold.
Qed.

End Upload.

Lemma upload_stores_document_witness :
  fst (uploadDocument MoreSamples.cloudinaryUrl
         (MoreSamples.uploadResume MoreSamples.cv1 1%N) 7000%N
         MoreSamples.uploads0)
  = Uploaded "resume"
      {| url := Some "https://res.cloudinary.com/demo/raw/upload/1_111"%string;
         publicId := Some "recruiter-ai/candidates/1_111"%string;
         originalName := "cv.pdf"; mimeType := "application/pdf";
         d_size := 52000%N; uploadedAt := 7000%N |}.
Proof.
  apply (upload_stores_document MoreSamples.cloudinaryUrl
           (MoreSamples.uploadResume MoreSamples.cv1 1%N) 7000%N
           MoreSamples.uploads0 MoreSamples.cv1 "resume"
           {| _id := 1%N; documents := None |});
    solve [reflexivity | discriminate].
Defined.

Lemma upload_replaces_previous_witness :
  cloud (snd (uploadDocument MoreSamples.cloudinaryUrl
                (MoreSamples.uploadResume MoreSamples.cv2 1%N) 8000%N
                (snd (uploadDocument MoreSamples.cloudinaryUrl
                        (MoreSamples.uploadResume MoreSamples.cv1 1%N) 7000%N
                        MoreSamples.uploads0))))
  = [Destroyed (Some "recruiter-ai/candidates/1_111"%string)].
Proof.
  rewrite (upload_replaces_previous MoreSamples.cloudinaryUrl
             (MoreSamples.uploadResume MoreSamples.cv1 1%N)
             (MoreSamples.uploadResume MoreSamples.cv2 1%N)
             7000%N 8000%N MoreSamples.uploads0 MoreSamples.cv1 MoreSamples.cv2
             "resume" {| _id := 1%N; documents := None |}
             eq_refl eq_refl eq_refl eq_refl ltac:(discriminate) eq_refl eq_refl
             ltac:(discriminate)).
  reflexivity.
Defined.

(** A rejected document type with a file that has no [public_id]: the
    artifact is left behind. *)
Example upload_wrong_type_leaves_artifact :
  uploadDocument MoreSamples.cloudinaryUrl
    (MoreSamples.uploadPassport MoreSamples.cv1) 7000%N MoreSamples.uploads0
  = (UploadFailed 400 "Invalid document type" None, MoreSamples.uploads0).
Proof. reflexivity. Qed.

End UploadFacts.

(* ================================================================== *)
(** * From login to the protected routes *)

Module SessionFacts.

Import CandidateController.

Lemma extractToken_bearer (t : string) (h : option string) :
  Authz.noSpace t = true ->
  Auth.extractToken {| Auth.authorization := Some ("Bearer " ++ t);
                       Auth.x_tenant_id := h |} = Some t.
Proof.
  intro Ht. unfold Auth.extractToken. cbn [Auth.authorization].
  replace ("Bearer " ++ t)%string
    with ("Bearer" ++ String " "%char t)%string by reflexivity.
  rewrite (AuthMoreFacts.split_first "Bearer" t eq_refl),
    (AuthMoreFacts.split_noSpace t Ht), AuthMoreFacts.prefix_append.
  reflexivity.
Qed.

Section Login.

Variable env : Collaborators.

(** Only the path past the password check answers with login data. *)
Lemma login_data_inv (req : LoginRequest) (now : Date) (w : World)
    (cid : ObjectId) (name email : string) (last : Date) (token : string)
    (t : Tenant) :
  data (fst (loginCandidate env req now w))
  = Some (LoginData cid name email last token t) ->
  t = lr_tenant req
  /\ token = generateToken env {| tp_id := cid; tp_tenant := subdomain t;
                                 tp_type := "candidate" |}
  /\ exists e c,
       nonEmpty (lr_email req) = Some e
       /\ C.findOneByEmail (candidates w) e = Some c
       /\ C._id c = cid.
Proof.
  destruct (nonEmpty (lr_email req)) as [e|] eqn:He;
    [|rewrite ControllerMoreFacts.login_missing_fields by (left; exact He);
      discriminate].
  destruct (nonEmpty (lr_password req)) as [p|] eqn:Hp;
    [|rewrite ControllerMoreFacts.login_missing_fields by (right; exact Hp);
      discriminate].
  destruct (C.findOneByEmail (candidates w) e) as [c|] eqn:Hc;
    [|rewrite (ControllerMoreFacts.login_unknown_email env req now w e p He Hp Hc);
      discriminate].
  destruct (C.isLocked now c) eqn:Hl;
    [rewrite (ControllerFacts.login_locked env req now w e p c He Hp Hc Hl);
     discriminate|].
  destruct (C.isActive (C.account c)) eqn:Ha;
    [|rewrite (ControllerFacts.login_deactivated env req now w e p c
                 He Hp Hc Hl Ha); discriminate].
  destruct (matchPassword env p (C.password (C.account c))) eqn:Hm.
  - rewrite (ControllerFacts.login_right_password env req now w e p c
               He Hp Hc Hl Ha Hm).
    cbn [fst data successful]. intros [= <- <- <- <- <- <-].
    split; [reflexivity|]. split; [reflexivity|].
    exists e, c. repeat split. exact Hc.
  - rewrite (ControllerFacts.login_wrong_password env req now w e p c
               He Hp Hc Hl Ha Hm). discriminate.
Qed.

End Login.

Section Composition.

Variable env : Collaborators.
Variable Connection : Type.
Variable jwtVerify : string -> option Auth.Claims.
Variable getMasterConnection : Connection.
Variable getTenantDB : string -> option Connection.
Variable findById :
  Connection -> Auth.ModelKind -> ObjectId -> option Auth.Identity.

(** X29. The token of a successful login opens [protect] for the tenant
    the login was made under: if the token library returns on verification
    the payload it signed, the issued token is non-empty and free of
    blanks, the tenant registry knows the subdomain and the candidate is
    stored there and active, then a request with 'Bearer <token>' passes,
    bound to that tenant's database and to the candidate model with user
    type 'candidate', whatever x-tenant-id header it carries. *)
Theorem login_token_opens_protect
    (req : LoginRequest) (now : Date) (w : World)
    (cid : ObjectId) (name email : string) (last : Date) (token : string)
    (t : Tenant) (header : option string) (conn : Connection)
    (u : Auth.Identity) :
  data (fst (loginCandidate env req now w))
  = Some (LoginData cid name email last token t) ->
  (forall p e, jwtVerify (jwtSign env p e) = Some (Session.claimsOf p)) ->
  Authz.noSpace token = true ->
  token <> ""%string ->
  subdomain t <> ""%string ->
  getTenantDB (subdomain t) = Some conn ->
  findById conn Auth.Candidate cid = Some u ->
  Auth.inactive u = false ->
  Auth.protect Connection jwtVerify getMasterConnection getTenantDB findById
    {| Auth.authorization := Some ("Bearer " ++ token);
       Auth.x_tenant_id := header |}
  = Auth.Next {| Auth.db := conn;
                 Auth.tenantId := Some (subdomain t);
                 Auth.user := Auth.selectWithoutPasswords u;
                 Auth.userType := Some "candidate"%string |}.
Proof.
  intros Hdata Hverify Hns Hne Hsub Hdb Hfind Hactive.
  destruct (login_data_inv env req now w cid name email last token t Hdata)
    as (_ & Htoken & _).
  unfold Auth.protect. rewrite (extractToken_bearer token header Hns).
  apply AuthFacts.truthyStr_Some in Hne. rewrite Hne. cbn [negb].
  rewrite Htoken. unfold generateToken. rewrite Hverify.
  unfold Auth.resolve, Session.claimsOf, orStr.
  cbn [Auth.role Auth.tenant Auth.type Auth.id tp_id tp_tenant tp_type Auth.isStr].
  apply String.eqb_neq in Hsub.
  repeat (progress (rewrite ?Hsub, ?Hdb;
                    cbn -[Auth.selectWithoutPasswords Auth.inactive])).
  rewrite Hfind. cbn [option_map]. rewrite AuthFacts.inactive_select, Hactive.
  reflexivity.
Qed.

End Composition.

Lemma readRun_run (c : ascii) (n : nat) (rest : string) :
  c <> "."%char ->
  MoreSamples.readRun c (MoreSamples.run n c (String "." rest)) = (n, rest).
Proof.
  intro Hc. induction n as [|n IH]; cbn [MoreSamples.run MoreSamples.readRun].
  - destruct (Ascii.eqb "." c) eqn:E; [|reflexivity].
    apply Ascii.eqb_eq in E. congruence.
  - rewrite Ascii.eqb_refl, IH. reflexivity.
Qed.

Lemma cut_append (a b : string) :
  MoreSamples.cut (String.length a) (a ++ b) = (a, b).
Proof.
  induction a as [|c a IH]; cbn [String.length append MoreSamples.cut].
  - destruct b; reflexivity.
  - rewrite IH. reflexivity.
Qed.

Lemma verifyReadable_signReadable (p : TokenPayload) (e : string) :
  MoreSamples.verifyReadable (MoreSamples.signReadable p e)
  = Some (Session.claimsOf p).
Proof.
  unfold MoreSamples.verifyReadable, MoreSamples.signReadable.
  rewrite readRun_run by discriminate.
  rewrite readRun_run by discriminate.
  rewrite cut_append, Nnat.N2Nat.id. reflexivity.
Qed.

Lemma login_token_opens_protect_witness :
  Auth.protect Samples.Conn MoreSamples.verifyReadable Samples.master
    Samples.getTenantDB Samples.findById
    {| Auth.authorization := Some "Bearer i.tttt.acmecandidate";
       Auth.x_tenant_id := Some "globex" |}
  = Auth.Next {| Auth.db := "tenant:acme";
                 Auth.tenantId := Some "acme";
                 Auth.user :=
                   Auth.selectWithoutPasswords Samples.storedCandidate;
                 Auth.userType := Some "candidate" |}.
Proof.
  apply (login_token_opens_protect MoreSamples.envReadable Samples.Conn
           MoreSamples.verifyReadable Samples.master Samples.getTenantDB
           Samples.findById (Samples.loginBob "s3cret") 6000%N Samples.world0
           1%N "Bob Ray" "b@x.com" 6000%N "i.tttt.acmecandidate"
           Samples.tenant0 (Some "globex") "tenant:acme"
           Samples.storedCandidate).
  - reflexivity.
  - exact verifyReadable_signReadable.
  - reflexivity.
  - discriminate.
  - discriminate.
  - reflexivity.
  - reflexivity.
  - reflexivity.
Defined.

End SessionFacts.

(* ================================================================== *)
(** * The candidate router *)

Module RouterFacts.

Import Routes Router.

Section Dispatch.

Variable Connection : Type.
Variable matches : string -> string -> bool.

(** X30. Whatever the request and however Express matches paths, the
    candidate router hands a request to register, login or apply without
    consulting [protect], and to any other handler only with the context
    of a request [protect] has let through; a request is stopped only
    with [protect]'s own answer, and falls off the stack only after
    [protect] has let it through. *)
Theorem router_guards_private_handlers
    (outcome : Auth.Outcome Connection) (m : Method) (path : string) :
  match dispatch matches outcome m path router None with
  | Reached h ctx =>
      if isPublic h then ctx = None
      else exists c, outcome = Auth.Next c /\ ctx = Some c
  | Stopped code message => outcome = Auth.Respond code message
  | Unrouted => exists c, outcome = Auth.Next c
  end.
Proof.
  unfold router. cbn [dispatch].
  destruct (Method_eqb m POST && matches "/register" path); [reflexivity|].
  destruct (Method_eqb m POST && matches "/login" path); [reflexivity|].
  destruct (Method_eqb m POST && matches "/apply/:jobId" path); [reflexivity|].
  destruct outcome as [code message|c]; [reflexivity|].
  destruct (Method_eqb m GET && matches "/profile" path);
    [exists c; split; reflexivity|].
  destruct (Method_eqb m PUT && matches "/profile" path);
    [exists c; split; reflexivity|].
  destruct (Method_eqb m GET && matches "/applications" path);
    [exists c; split; reflexivity|].
  destruct (Method_eqb m POST && matches "/upload-document" path);
    [exists c; split; reflexivity|].
  exists c. reflexivity.
Qed.

End Dispatch.

End RouterFacts.
